(** * artic_mqc: per-amplicon read counts for MultiQC

    A shallow embedding of [artic/artic_mqc.py] and the verification of its
    amplicon counting, filtering and reporting logic.

    Conventions of the embedding.
    - Python [int] is [Z]; Python [str] is [string], read as a sequence of
      characters whose code points are below 256.
    - A Python [dict] is an association list in insertion order with
      pairwise distinct keys ([dict_set] updates in place or appends).
    - A Python exception is a constructor of [exn]; code that may raise
      returns [result].  A loop that mutates a dict that outlives the
      exception returns the state of the dict together with the outcome.
    - The float product [Alignment_Length_Threshold * rLen] is computed on
      IEEE-754 binary64 numbers ([spec_float] with [prec = 53],
      [emax = 1024]), and compared with the [int] exactly.
    - [int(s)] follows the grammar of decimal literals; the cap some
      interpreter versions put on the number of digits is not modelled.
    - Files are read and written through a [FileSystem] record; the
      readers that are not part of the module ([read_bed_file], [open],
      [csv.reader]) are its fields.  A text file is read line by line:
      it is the lines its iterator delivers and the exception the iterator
      raises after them, if reading fails.  What is written is the list of
      the documents handed to [json.dump] and written out, with their file
      names; [write_error] is the exception that opening a file for writing,
      writing or closing it raises, if any.  The messages on stderr are not
      modelled. *)

From Stdlib Require Import ZArith QArith List String Ascii Bool Lia Arith.
From Stdlib Require Import DecimalString Permutation.
From Stdlib Require Import Floats.SpecFloat.
Import ListNotations.

Local Open Scope Z_scope.
Local Open Scope list_scope.

(** ** Exceptions *)

Inductive exn : Type :=
| SystemExit (code : Z)
| ValueError
| IndexError
| OverflowError
| StopIteration
| KeyError
| OSError.

Inductive result (A : Type) : Type :=
| Return (a : A)
| Raise (e : exn).

Arguments Return {A} a.
Arguments Raise {A} e.

Definition bind {A B : Type} (c : result A) (k : A -> result B) : result B :=
  match c with
  | Return a => k a
  | Raise e => Raise e
  end.

Declare Scope py_scope.
Delimit Scope py_scope with py.
Notation "x <- c ;; k" := (bind c (fun x => k))
  (at level 61, c at next level, right associativity) : py_scope.
Local Open Scope py_scope.

(** [l[i]] for a non-negative constant index. *)
Definition subscript {A : Type} (l : list A) (i : nat) : result A :=
  match nth_error l i with
  | Some a => Return a
  | None => Raise IndexError
  end.

(** ** Strings *)

Module Str.

Definition chr (n : nat) : ascii := ascii_of_nat n.

(** [str.isspace] on one character, as used by [str.rstrip()]. *)
Definition isspace (c : ascii) : bool :=
  let n := nat_of_ascii c in
  ((9 <=? n) && (n <=? 13) || (28 <=? n) && (n <=? 32)
   || (n =? 133) || (n =? 160))%nat.

(** The whitespace [int()] skips around a literal: the C-locale blanks,
    and the two non-ASCII spaces, which it first rewrites to a blank. *)
Definition isspace_int (c : ascii) : bool :=
  let n := nat_of_ascii c in
  ((9 <=? n) && (n <=? 13) || (n =? 32) || (n =? 133) || (n =? 160))%nat.

Definition isdigit (c : ascii) : bool :=
  let n := nat_of_ascii c in ((48 <=? n) && (n <=? 57))%nat.

Definition digit_value (c : ascii) : Z := Z.of_nat (nat_of_ascii c) - 48.

Fixpoint rev_acc (s acc : string) : string :=
  match s with
  | EmptyString => acc
  | String c s' => rev_acc s' (String c acc)
  end.

Definition rev (s : string) : string := rev_acc s EmptyString.

Fixpoint lstrip_by (f : ascii -> bool) (s : string) : string :=
  match s with
  | EmptyString => EmptyString
  | String c s' => if f c then lstrip_by f s' else s
  end.

Definition rstrip_by (f : ascii -> bool) (s : string) : string :=
  rev (lstrip_by f (rev s)).

(** [s.rstrip()] *)
Definition rstrip (s : string) : string := rstrip_by isspace s.

(** [s.split(sep)] for a non-empty separator: the pieces between the
    non-overlapping occurrences of [sep], scanned from the left.  [skip]
    counts the characters of a matched separator still to be dropped and
    [cur] is the piece being read. *)
Fixpoint split_go (sep : string) (skip : nat) (cur : string) (s : string)
  : list string :=
  match s with
  | EmptyString => [cur]
  | String c s' =>
      match skip with
      | S k => split_go sep k cur s'
      | O =>
          if String.prefix sep s
          then cur :: split_go sep (Nat.pred (String.length sep)) EmptyString s'
          else split_go sep O (cur ++ String c EmptyString)%string s'
      end
  end.

Definition split (s sep : string) : list string :=
  split_go sep O EmptyString s.

(** The digits of a decimal literal; a single underscore may separate two
    digits.  [prev] tells whether the previous character was a digit. *)
Fixpoint parse_digits (prev : bool) (acc : Z) (s : string) : option Z :=
  match s with
  | EmptyString => if prev then Some acc else None
  | String c s' =>
      if isdigit c then parse_digits true (10 * acc + digit_value c) s'
      else if (Ascii.eqb c "_" && prev)%bool then parse_digits false acc s'
      else None
  end.

(** [int(s)]: blanks around, an optional sign, then the digits. *)
Definition int (s : string) : result Z :=
  let t := rstrip_by isspace_int (lstrip_by isspace_int s) in
  let parsed :=
    match t with
    | String "+" t' => parse_digits false 0 t'
    | String "-" t' => option_map Z.opp (parse_digits false 0 t')
    | _ => parse_digits false 0 t
    end in
  match parsed with
  | Some z => Return z
  | None => Raise ValueError
  end.

(** [str(z)] *)
Definition of_int (z : Z) : string := NilZero.string_of_int (Z.to_int z).

End Str.

(** ** Dictionaries

    Insertion-ordered, as Python's: [dict_set] overwrites the value of a
    key that is present and appends a key that is not. *)

Section Dict.
Context {K V : Type}.
Variable eqb : K -> K -> bool.

Fixpoint dict_get (d : list (K * V)) (k : K) : option V :=
  match d with
  | [] => None
  | (k', v) :: d' => if eqb k' k then Some v else dict_get d' k
  end.

(** [k in d] *)
Definition dict_mem (d : list (K * V)) (k : K) : bool :=
  match dict_get d k with
  | Some _ => true
  | None => false
  end.

(** [d[k] = v] *)
Fixpoint dict_set (d : list (K * V)) (k : K) (v : V) : list (K * V) :=
  match d with
  | [] => [(k, v)]
  | (k', v') :: d' =>
      if eqb k' k then (k', v) :: d' else (k', v') :: dict_set d' k v
  end.

(** [d[k]] *)
Definition dict_getitem (d : list (K * V)) (k : K) : result V :=
  match dict_get d k with
  | Some v => Return v
  | None => Raise KeyError
  end.

Definition dict_keys (d : list (K * V)) : list K := map fst d.
Definition dict_values (d : list (K * V)) : list V := map snd d.
End Dict.

(** A dict with [str] keys. *)
Definition sdict (V : Type) : Type := list (string * V).

(** [for x in l: s = body(s, x)], leaving at the first exception. *)
Fixpoint for_each {A S : Type} (body : S -> A -> result S) (s : S) (l : list A)
  : result S :=
  match l with
  | [] => Return s
  | x :: l' => s' <- body s x ;; for_each body s' l'
  end.

(** ** Floats: the product [Alignment_Length_Threshold * rLen] *)

Definition prec : Z := 53.
Definition emax : Z := 1024.

(** The binary64 number nearest to 0.95, [0x3FEE666666666666]. *)
Definition Alignment_Length_Threshold : spec_float :=
  S754_finite false 8556839292003942 (-53).

(** [float(z)]: correctly rounded, [OverflowError] beyond the range. *)
Definition float_of_int (z : Z) : result spec_float :=
  match binary_normalize prec emax z 0 false with
  | S754_infinity _ => Raise OverflowError
  | f => Return f
  end.

Definition float_mul (x y : spec_float) : spec_float := SFmul prec emax x y.

(** [a < f] for an [int] and a [float]: Python compares the exact values. *)
Definition int_lt_float (a : Z) (f : spec_float) : bool :=
  match f with
  | S754_zero _ => a <? 0
  | S754_infinity s => negb s
  | S754_nan => false
  | S754_finite s m e =>
      let v := cond_Zopp s (Zpos m) in
      if 0 <=? e then a <? v * 2 ^ e else a * 2 ^ (- e) <? v
  end.

(** ** The module *)

Record Primer : Type := { Primer_ID : string; direction : string }.

(** A text file opened for reading, as its iterator shows it: the lines it
    delivers and, when reading fails part of the way (a decoding or an I/O
    error), the exception raised after them. *)
Definition TextFile : Type := (list string * option exn)%type.

(** What the module calls but does not define: [read_bed_file] of
    [vcftagprimersites]; [open(path, "r")], which raises or gives a text
    file; the rows [csv.reader] yields for a tab-delimited file (the
    module reads them up to the first data row), or the exception raised
    by [open] or by the reader before that row; and the exception raised
    by [open(path, "w")], by the dump into the file or by closing it, if
    any. *)
Record FileSystem : Type := {
  read_bed_file : string -> result (list Primer);
  open_lines : string -> result TextFile;
  csv_reader : string -> result (list (list string));
  write_error : string -> option exn
}.

Definition TAB : string := String "009"%char EmptyString.
Definition NL : string := String "010"%char EmptyString.

(** ["{}_LEFT_{}_RIGHT".format(amplicon, amplicon)] *)
Definition amplicon_name (amplicon : string) : string :=
  (amplicon ++ "_LEFT_" ++ amplicon ++ "_RIGHT")%string.

(** Body of the first loop of [getSchemeAmplicons]. *)
Definition count_primer (amplicons : sdict Z) (primer : Primer)
  : result (sdict Z) :=
  amplicon <-
    (if String.eqb (direction primer) "+"
     then subscript (Str.split (Primer_ID primer) "_LEFT") 0
     else subscript (Str.split (Primer_ID primer) "_RIGHT") 0) ;;
  let amplicons :=
    if negb (dict_mem String.eqb amplicons amplicon)
    then dict_set String.eqb amplicons amplicon 0
    else amplicons in
  n <- dict_getitem String.eqb amplicons amplicon ;;
  Return (dict_set String.eqb amplicons amplicon (n + 1)).

(** Body of the second loop; the message on stderr is not modelled. *)
Definition name_amplicon (amplicons named_amplicons : sdict Z)
  (amplicon : string) : result (sdict Z) :=
  n <- dict_getitem String.eqb amplicons amplicon ;;
  if negb (n =? 2) then Raise (SystemExit 1)
  else Return (dict_set String.eqb named_amplicons (amplicon_name amplicon) 0).

Definition getSchemeAmplicons (fs : FileSystem) (schemeFile : string)
  : result (sdict Z) :=
  primer_scheme <- read_bed_file fs schemeFile ;;
  amplicons <- for_each count_primer [] primer_scheme ;;
  for_each (name_amplicon amplicons) [] (dict_keys amplicons).

(** Body of the loop of [getAmpliconCounts] on one line of the report. *)
Definition count_row (amplicons : sdict Z) (l : string) : result (sdict Z) :=
  let fields := Str.split (Str.rstrip l) TAB in
  f12 <- subscript fields 12 ;;
  paired <- Str.int f12 ;;
  if negb (paired =? 1) then Return amplicons else
  f11 <- subscript fields 11 ;;
  aEnd <- Str.int f11 ;;
  f10 <- subscript fields 10 ;;
  aStart <- Str.int f10 ;;
  let aLen := aEnd - aStart in
  f2 <- subscript fields 2 ;;
  rEnd <- Str.int f2 ;;
  f1 <- subscript fields 1 ;;
  rStart <- Str.int f1 ;;
  let rLen := rEnd - rStart in
  x <- float_of_int rLen ;;
  if int_lt_float aLen (float_mul Alignment_Length_Threshold x)
  then Return amplicons else
  f3 <- subscript fields 3 ;;
  if negb (dict_mem String.eqb amplicons f3) then Raise (SystemExit 1) else
  n <- dict_getitem String.eqb amplicons f3 ;;
  Return (dict_set String.eqb amplicons f3 (n + 1)).

(** The loop over the lines.  [amplicons] is mutated in place, so its state
    survives an exception: the state is returned with the outcome. *)
Fixpoint count_rows (amplicons : sdict Z) (lines : list string)
  : sdict Z * option exn :=
  match lines with
  | [] => (amplicons, None)
  | l :: lines' =>
      match count_row amplicons l with
      | Return amplicons' => count_rows amplicons' lines'
      | Raise e => (amplicons, Some e)
      end
  end.

(** [fh.readline()] drops the first line; the loop then takes the lines
    one by one, so an exception of the iterator comes after the lines
    before it were counted (with no line at all it comes from
    [readline], with the dict untouched). *)
Definition getAmpliconCounts (fs : FileSystem) (amplicons : sdict Z)
  (align_trim_report : string) : sdict Z * option exn :=
  match open_lines fs align_trim_report with
  | Raise e => (amplicons, Some e)
  | Return (lines, read_error) =>
      match count_rows amplicons (tl lines) with
      | (amplicons', None) => (amplicons', read_error)
      | (amplicons', Some e) => (amplicons', Some e)
      end
  end.

(** *** The variant report *)

(** Keys and values of the stats dict: a column name or [None]; an [int],
    a [str], [None], or the list of the surplus fields of a row. *)
Inductive pykey : Type :=
| KeyStr (s : string)
| KeyNone.

Inductive pyval : Type :=
| PyInt (z : Z)
| PyStr (s : string)
| PyNone
| PyList (l : list string).

Definition pykey_eqb (a b : pykey) : bool :=
  match a, b with
  | KeyStr s, KeyStr t => String.eqb s t
  | KeyNone, KeyNone => true
  | _, _ => false
  end.

Definition pydict : Type := list (pykey * pyval).

(** The dict [csv.DictReader] builds from the field names and a row:
    [dict(zip(fieldnames, row))], the surplus fields under [None], the
    missing ones set to [None]. *)
Definition DictReader_row (fieldnames row : list string) : pydict :=
  let d :=
    fold_left (fun d kv => dict_set pykey_eqb d (KeyStr (fst kv)) (PyStr (snd kv)))
      (combine fieldnames row) [] in
  let lf := List.length fieldnames in
  let lr := List.length row in
  if (lf <? lr)%nat then dict_set pykey_eqb d KeyNone (PyList (skipn lf row))
  else if (lr <? lf)%nat then
    fold_left (fun d key => dict_set pykey_eqb d (KeyStr key) PyNone)
      (skipn lr fieldnames) d
  else d.

Fixpoint skip_blank_rows (rows : list (list string)) : list (list string) :=
  match rows with
  | [] :: rows' => skip_blank_rows rows'
  | _ => rows
  end.

(** [next(csv.DictReader(f, delimiter='\t'))] on a fresh reader: the first
    row gives the field names, the next row that is not blank the values. *)
Definition DictReader_next (rows : list (list string)) : result pydict :=
  match rows with
  | [] => Raise StopIteration
  | fieldnames :: rows' =>
      match skip_blank_rows rows' with
      | [] => Raise StopIteration
      | row :: _ => Return (DictReader_row fieldnames row)
      end
  end.

Definition getVCFreportInfo (fs : FileSystem) (vcf_report : string)
  : result pydict :=
  vcf_report_data <- csv_reader fs vcf_report ;;
  firstline <- DictReader_next vcf_report_data ;;
  Return
    (fold_left
       (fun stats kv =>
          if negb (pykey_eqb (fst kv) (KeyStr "input VCF file"))
          then dict_set pykey_eqb stats (fst kv) (snd kv)
          else stats)
       firstline []).

(** *** The two documents *)

Record PlotLine : Type := {
  line_value : Z;
  line_color : string;
  line_width : Z;
  line_dashStyle : string;
  line_label : string
}.

Record PlotConfig : Type := {
  plot_pconfig_id : string;
  plot_title : string;
  plot_categories : string;
  plot_yDecimals : string;
  plot_xDecimals : string;
  plot_ylab : string;
  plot_xlab : string;
  plot_yPlotLines : list PlotLine
}.

Record PlotTemplate : Type := {
  plot_id : string;
  plot_section_name : string;
  plot_description : string;
  plot_plot_type : string;
  plot_pconfig : PlotConfig;
  plot_data : string * list (Z * Z)
}.

Record StatsConfig : Type := {
  stats_pconfig_id : string;
  stats_title : string;
  stats_min : Z;
  stats_scale : string;
  stats_format : string
}.

Record StatsTemplate : Type := {
  stats_id : string;
  stats_section_name : string;
  stats_description : string;
  stats_plot_type : string;
  stats_pconfig : StatsConfig;
  stats_data : string * pydict
}.

(** [str(Alignment_Length_Threshold)] *)
Definition Alignment_Length_Threshold_str : string := "0.95".

Definition GetPlotDataTemplate (ampliconDropoutThreshold : Z) (sample : string)
  (data : list (Z * Z)) : PlotTemplate :=
  {| plot_id := "custom_data_lineplot";
     plot_section_name := "ARTIC: Amplicon Coverage";
     plot_description :=
       ("This plot summarises the number of reads that were assigned to each amplicon in the primer scheme."
        ++ NL
        ++ "We use the align_trim report file from the ARTIC pipeline and group each read by its assigned amplicon."
        ++ NL
        ++ "If the length of alignment between read and reference is <"
        ++ Alignment_Length_Threshold_str
        ++ "% of the amplicon length, the read discarded from the coverage plot."
        ++ NL
        ++ "If the total number of reads assigned to an amplicon is below "
        ++ Str.of_int ampliconDropoutThreshold
        ++ " (red dashed line),"
        ++ NL
        ++ "the amplicon is marked as dropped out.")%string;
     plot_plot_type := "linegraph";
     plot_pconfig :=
       {| plot_pconfig_id := "custom_data_linegraph";
          plot_title := EmptyString;
          plot_categories := "True";
          plot_yDecimals := "False";
          plot_xDecimals := "False";
          plot_ylab := "# reads";
          plot_xlab := "amplicon";
          plot_yPlotLines :=
            [ {| line_value := ampliconDropoutThreshold;
                 line_color := "#FF0000";
                 line_width := 2;
                 line_dashStyle := "LongDash";
                 line_label := "Amplicon dropout" |} ] |};
     plot_data := (sample, data) |}.

Definition GetStatsTemplate (sample : string) (data : pydict) : StatsTemplate :=
  {| stats_id := "custom_data_json_table";
     stats_section_name := "ARTIC: General Stats";
     stats_description := "A summary of stats from the consensus genome pipeline.";
     stats_plot_type := "table";
     stats_pconfig :=
       {| stats_pconfig_id := "custom_data_json_table_table";
          stats_title := EmptyString;
          stats_min := 0;
          stats_scale := "RdYlGn-rev";
          stats_format := "{:,.0f}" |};
     stats_data := (sample, data) |}.

Inductive Document : Type :=
| PlotDocument (t : PlotTemplate)
| StatsDocument (t : StatsTemplate).

(** *** run *)

Record Args : Type := {
  scheme : string;
  align_report : string;
  vcf_report : option string;
  min_depth : Z;
  sample : string
}.

(** The three variables the loop of [run] updates. *)
Record Tally : Type := {
  readCount : Z;
  dropouts : Z;
  amplicon_renamed_counts : list (Z * Z)
}.

Definition tally_amplicon (min_depth : Z) (t : Tally) (item : string * Z)
  : result Tally :=
  let amplicon := fst item in
  let count := snd item in
  let readCount' := readCount t + count in
  token <- subscript (Str.split amplicon "_") 1 ;;
  ordinal <- Str.int token ;;
  let renamed := dict_set Z.eqb (amplicon_renamed_counts t) ordinal count in
  Return {| readCount := readCount';
            dropouts := if count <? min_depth then dropouts t + 1 else dropouts t;
            amplicon_renamed_counts := renamed |}.

Definition classify (min_depth : Z) (amplicon_counts : sdict Z) : result Tally :=
  for_each (tally_amplicon min_depth)
    {| readCount := 0; dropouts := 0; amplicon_renamed_counts := [] |}
    amplicon_counts.

(** [if args.vcf_report:] *)
Definition truthy (s : option string) : bool :=
  match s with
  | Some (String _ _) => true
  | _ => false
  end.

Definition build_stats (fs : FileSystem) (args : Args) (t : Tally)
  : result pydict :=
  let statsData := dict_set pykey_eqb [] (KeyStr "# mapped reads") (PyInt (readCount t)) in
  let statsData :=
    dict_set pykey_eqb statsData (KeyStr "# low cov. amplicons") (PyInt (dropouts t)) in
  if truthy (vcf_report args) then
    info <- getVCFreportInfo fs
              (match vcf_report args with Some p => p | None => EmptyString end) ;;
    Return (fold_left (fun d kv => dict_set pykey_eqb d (fst kv) (snd kv)) info statsData)
  else Return statsData.

(** The files written, in order, and the exception that ended the run, if
    any.  A file is written when [open(name, "w")], [json.dump] and the
    closing of the file raise nothing. *)
Definition run (fs : FileSystem) (args : Args)
  : list (string * Document) * option exn :=
  match getSchemeAmplicons fs (scheme args) with
  | Raise e => ([], Some e)
  | Return amplicons =>
      match getAmpliconCounts fs amplicons (align_report args) with
      | (_, Some e) => ([], Some e)
      | (amplicon_counts, None) =>
          match classify (min_depth args) amplicon_counts with
          | Raise e => ([], Some e)
          | Return t =>
              let plot_file :=
                ((sample args ++ ".amplicon_plot_data_mqc.json")%string,
                 PlotDocument
                   (GetPlotDataTemplate (min_depth args) (sample args)
                      (amplicon_renamed_counts t))) in
              match write_error fs (fst plot_file) with
              | Some e => ([], Some e)
              | None =>
                  match build_stats fs args t with
                  | Raise e => ([plot_file], Some e)
                  | Return statsData =>
                      let stats_file :=
                        ((sample args ++ ".amplicon_stats_data_mqc.json")%string,
                         StatsDocument (GetStatsTemplate (sample args) statsData)) in
                      match write_error fs (fst stats_file) with
                      | Some e => ([plot_file], Some e)
                      | None => ([plot_file; stats_file], None)
                      end
                  end
              end
          end
      end
  end.

(** * Specification vocabulary *)

(** The base name of a primer: what the first loop of [getSchemeAmplicons]
    groups by. *)
Definition base_of (p : Primer) : string :=
  hd EmptyString
    (if String.eqb (direction p) "+"
     then Str.split (Primer_ID p) "_LEFT"
     else Str.split (Primer_ID p) "_RIGHT").

Definition bases (ps : list Primer) : list string := map base_of ps.

(** Number of primers of a base, whatever their direction. *)
Definition primer_count (ps : list Primer) (b : string) : nat :=
  count_occ string_dec (bases ps) b.

(** The primers of a base taken as LEFT (direction [+]) and as RIGHT (any
    other direction: the [else] branch). *)
Definition n_left (ps : list Primer) (b : string) : nat :=
  List.length
    (filter (fun p => String.eqb (direction p) "+" && String.eqb (base_of p) b) ps).

Definition n_right (ps : list Primer) (b : string) : nat :=
  List.length
    (filter (fun p => negb (String.eqb (direction p) "+") && String.eqb (base_of p) b) ps).

(** [d[k] += 1], with a key that is absent entering at 1. *)
Definition dict_incr (d : sdict Z) (k : string) : sdict Z :=
  dict_set String.eqb d k
    (match dict_get String.eqb d k with Some n => n + 1 | None => 1 end).

(** Sum of the values of a dict of counts. *)
Definition sum_counts (d : sdict Z) : Z := fold_right Z.add 0 (dict_values d).

(** Number of entries whose count is strictly below [min_depth]. *)
Definition low_coverage (min_depth : Z) (d : sdict Z) : Z :=
  Z.of_nat (List.length (filter (fun kv => snd kv <? min_depth) d)).

(** The ordinal [run] computes for an amplicon name:
    [int(amplicon.split('_')[1])]. *)
Definition ordinal_of (amplicon : string) : result Z :=
  token <- subscript (Str.split amplicon "_") 1 ;;
  Str.int token.

Fixpoint has_char (c : ascii) (s : string) : bool :=
  match s with
  | EmptyString => false
  | String c' s' => Ascii.eqb c' c || has_char c s'
  end.

(** The second underscore-delimited segment, when there is one. *)
Definition second_segment (s : string) : option string :=
  nth_error (Str.split s "_") 1.

(** One well-formed line of the align_trim report: the columns the
    aggregator reads, by their positions 1, 2, 3, 10, 11 and 12. *)
Record AlignmentRecord : Type := {
  rStart : Z;
  rEnd : Z;
  amplicon : string;
  aStart : Z;
  aEnd : Z;
  paired : Z
}.

Definition parse_row (l : string) : result AlignmentRecord :=
  let fields := Str.split (Str.rstrip l) TAB in
  f1 <- subscript fields 1 ;;
  rs <- Str.int f1 ;;
  f2 <- subscript fields 2 ;;
  re <- Str.int f2 ;;
  f3 <- subscript fields 3 ;;
  f10 <- subscript fields 10 ;;
  a_s <- Str.int f10 ;;
  f11 <- subscript fields 11 ;;
  a_e <- Str.int f11 ;;
  f12 <- subscript fields 12 ;;
  flag <- Str.int f12 ;;
  Return {| rStart := rs; rEnd := re; amplicon := f3;
            aStart := a_s; aEnd := a_e; paired := flag |}.

Definition alignedLength (r : AlignmentRecord) : Z := aEnd r - aStart r.
Definition ampliconLength (r : AlignmentRecord) : Z := rEnd r - rStart r.

(** The threshold fraction, as a rational. *)
Definition F : Q := 95 # 100.

(** [alignedLength >= F * ampliconLength] *)
Definition meets_threshold (r : AlignmentRecord) : Prop :=
  (F * inject_Z (ampliconLength r) <= inject_Z (alignedLength r))%Q.

(** The two filters of the aggregator. *)
Definition passes_filters (r : AlignmentRecord) : Prop :=
  paired r = 1 /\ meets_threshold r.

(** The column names of the variant report, when one is supplied and can
    be read. *)
Definition vcf_columns (fs : FileSystem) (args : Args) : list string :=
  match vcf_report args with
  | Some path =>
      if truthy (vcf_report args) then
        match csv_reader fs path with
        | Return (fieldnames :: _) => fieldnames
        | _ => []
        end
      else []
  | None => []
  end.

(** The data of the two documents of a completed run. *)
Definition plot_series (d : Document) : option (list (Z * Z)) :=
  match d with
  | PlotDocument t => Some (snd (plot_data t))
  | StatsDocument _ => None
  end.

Definition stats_table (d : Document) : option pydict :=
  match d with
  | StatsDocument t => Some (snd (stats_data t))
  | PlotDocument _ => None
  end.

(** * Example inputs *)

Module Examples.
Local Open Scope string_scope.

Definition primer (id dir : string) : Primer :=
  {| Primer_ID := id; direction := dir |}.

(** A report line with the six columns that are read and placeholders
    for the others. *)
Definition row (name rs re amp a_s a_e flag : string) : string :=
  String.concat TAB
    [name; rs; re; amp; "p1"; "0"; "0"; "p2"; "0"; "0"; a_s; a_e; flag] ++ NL.

Definition no_csv : string -> result (list (list string)) :=
  fun _ => Raise OSError.

(** The scheme with amplicons [1] and [2]. *)
Definition scheme12 : list Primer :=
  [primer "1_LEFT" "+"; primer "1_RIGHT" "-";
   primer "2_LEFT" "+"; primer "2_RIGHT" "-"].

Definition report12 : list string :=
  ["read" ++ TAB ++ "header" ++ NL;
   row "r1" "30" "430" "1_LEFT_1_RIGHT" "30" "430" "1";
   row "r2" "30" "430" "1_LEFT_1_RIGHT" "40" "420" "1";
   row "r3" "30" "430" "1_LEFT_1_RIGHT" "30" "430" "1";
   row "r4" "320" "720" "2_LEFT_2_RIGHT" "320" "720" "1";
   row "r5" "30" "720" "1_LEFT_2_RIGHT" "30" "720" "0";
   row "r6" "320" "720" "2_LEFT_2_RIGHT" "320" "500" "1"].

Definition fs12 : FileSystem :=
  {| read_bed_file := fun _ => Return scheme12;
     open_lines := fun _ => Return (report12, None);
     csv_reader := no_csv;
     write_error := fun _ => None |}.

Definition args12 : Args :=
  {| scheme := "scheme.bed"; align_report := "sample.alignreport.txt";
     vcf_report := None; min_depth := 2; sample := "sample" |}.

(** The same run with the amplicons named [nCoV-2019_1] and
    [nCoV-2019_2]. *)
Definition scheme_ncov : list Primer :=
  [primer "nCoV-2019_1_LEFT" "+"; primer "nCoV-2019_1_RIGHT" "-";
   primer "nCoV-2019_2_LEFT" "+"; primer "nCoV-2019_2_RIGHT" "-"].

Definition report_ncov : list string :=
  ["read" ++ TAB ++ "header" ++ NL;
   row "r1" "30" "430" "nCoV-2019_1_LEFT_nCoV-2019_1_RIGHT" "30" "430" "1";
   row "r2" "30" "430" "nCoV-2019_1_LEFT_nCoV-2019_1_RIGHT" "40" "420" "1";
   row "r3" "30" "430" "nCoV-2019_1_LEFT_nCoV-2019_1_RIGHT" "30" "430" "1";
   row "r4" "320" "720" "nCoV-2019_2_LEFT_nCoV-2019_2_RIGHT" "320" "720" "1";
   row "r5" "30" "720" "nCoV-2019_1_LEFT_nCoV-2019_2_RIGHT" "30" "720" "0";
   row "r6" "320" "720" "nCoV-2019_2_LEFT_nCoV-2019_2_RIGHT" "320" "500" "1"].

Definition fs_ncov : FileSystem :=
  {| read_bed_file := fun _ => Return scheme_ncov;
     open_lines := fun _ => Return (report_ncov, None);
     csv_reader := no_csv;
     write_error := fun _ => None |}.

(** With a variant report of two columns. *)
Definition vcf_rows : list (list string) :=
  [["input VCF file"; "num variants"]; ["sample.pass.vcf"; "7"]].

Definition fs_vcf : FileSystem :=
  {| read_bed_file := fun _ => Return scheme_ncov;
     open_lines := fun _ => Return (report_ncov, None);
     csv_reader := fun _ => Return vcf_rows;
     write_error := fun _ => None |}.

Definition args_vcf : Args :=
  {| scheme := "scheme.bed"; align_report := "sample.alignreport.txt";
     vcf_report := Some "sample.vcfreport.txt"; min_depth := 2;
     sample := "sample" |}.

(** A base with two LEFT primers and no RIGHT primer. *)
Definition scheme_two_left : list Primer :=
  [primer "1_LEFT" "+"; primer "1_LEFT_alt1" "+"].

Definition fs_two_left : FileSystem :=
  {| read_bed_file := fun _ => Return scheme_two_left;
     open_lines := fun _ => Return ([], None);
     csv_reader := no_csv;
     write_error := fun _ => None |}.

(** A base with three primers. *)
Definition scheme_three : list Primer :=
  [primer "1_LEFT" "+"; primer "1_RIGHT" "-"; primer "1_LEFT_alt1" "+"].

Definition fs_three : FileSystem :=
  {| read_bed_file := fun _ => Return scheme_three;
     open_lines := fun _ => Return ([], None);
     csv_reader := no_csv;
     write_error := fun _ => None |}.

(** A scheme whose name holds an underscore: the second segment of every
    amplicon name is [2019]. *)
Definition scheme_under : list Primer :=
  [primer "nCoV_2019_1_LEFT" "+"; primer "nCoV_2019_1_RIGHT" "-";
   primer "nCoV_2019_2_LEFT" "+"; primer "nCoV_2019_2_RIGHT" "-"].

Definition report_under : list string :=
  ["read" ++ TAB ++ "header" ++ NL;
   row "r1" "30" "430" "nCoV_2019_1_LEFT_nCoV_2019_1_RIGHT" "30" "430" "1";
   row "r4" "320" "720" "nCoV_2019_2_LEFT_nCoV_2019_2_RIGHT" "320" "720" "1";
   row "r5" "320" "720" "nCoV_2019_2_LEFT_nCoV_2019_2_RIGHT" "320" "720" "1"].

Definition fs_under : FileSystem :=
  {| read_bed_file := fun _ => Return scheme_under;
     open_lines := fun _ => Return (report_under, None);
     csv_reader := no_csv;
     write_error := fun _ => None |}.

Definition counts12 : sdict Z := [("1_LEFT_1_RIGHT", 3); ("2_LEFT_2_RIGHT", 1)].

Definition counts_ncov : sdict Z :=
  [("nCoV-2019_1_LEFT_nCoV-2019_1_RIGHT", 3);
   ("nCoV-2019_2_LEFT_nCoV-2019_2_RIGHT", 1)].

(** A read assigned to a LEFT and a RIGHT primer of different amplicons,
    flagged as not properly paired. *)
Definition row_unpaired : string :=
  row "r5" "30" "720" "1_LEFT_2_RIGHT" "30" "720" "0".

Definition row_counted : string :=
  row "r1" "30" "430" "nCoV-2019_1_LEFT_nCoV-2019_1_RIGHT" "30" "430" "1".

Definition row_absent : string :=
  row "r7" "30" "430" "nCoV-2019_9_LEFT_nCoV-2019_9_RIGHT" "30" "430" "1".
End Examples.

(** Expected results on the example inputs. *)
Module Expected.
Local Open Scope string_scope.

Definition record_counted : AlignmentRecord :=
  {| rStart := 30; rEnd := 430;
     amplicon := "nCoV-2019_1_LEFT_nCoV-2019_1_RIGHT";
     aStart := 30; aEnd := 430; paired := 1 |}.

Definition record_absent : AlignmentRecord :=
  {| rStart := 30; rEnd := 430;
     amplicon := "nCoV-2019_9_LEFT_nCoV-2019_9_RIGHT";
     aStart := 30; aEnd := 430; paired := 1 |}.

Definition record_unpaired : AlignmentRecord :=
  {| rStart := 30; rEnd := 720; amplicon := "1_LEFT_2_RIGHT";
     aStart := 30; aEnd := 720; paired := 0 |}.

Definition tally_ncov : Tally :=
  {| readCount := 4; dropouts := 1; amplicon_renamed_counts := [(1, 3); (2, 1)] |}.

Definition files (stats : pydict) : list (string * Document) :=
  [("sample.amplicon_plot_data_mqc.json",
    PlotDocument (GetPlotDataTemplate 2 "sample" [(1, 3); (2, 1)]));
   ("sample.amplicon_stats_data_mqc.json",
    StatsDocument (GetStatsTemplate "sample" stats))].

Definition stats_ncov : pydict :=
  [(KeyStr "# mapped reads", PyInt 4); (KeyStr "# low cov. amplicons", PyInt 1)].

Definition stats_vcf : pydict :=
  [(KeyStr "# mapped reads", PyInt 4); (KeyStr "# low cov. amplicons", PyInt 1);
   (KeyStr "num variants", PyStr "7")].

Definition amplicons_ncov : sdict Z :=
  [("nCoV-2019_1_LEFT_nCoV-2019_1_RIGHT", 0);
   ("nCoV-2019_2_LEFT_nCoV-2019_2_RIGHT", 0)].

Definition amplicons_under : sdict Z :=
  [("nCoV_2019_1_LEFT_nCoV_2019_1_RIGHT", 0);
   ("nCoV_2019_2_LEFT_nCoV_2019_2_RIGHT", 0)].

Definition counts_under : sdict Z :=
  [("nCoV_2019_1_LEFT_nCoV_2019_1_RIGHT", 1);
   ("nCoV_2019_2_LEFT_nCoV_2019_2_RIGHT", 2)].
End Expected.

Fixpoint all_chars (f : ascii -> bool) (s : string) : bool :=
  match s with
  | EmptyString => true
  | String c s' => f c && all_chars f s'
  end.

(** A decimal integer: blanks, an optional sign, one digit or more,
    blanks. *)
Definition decimal_integer (s : string) : Prop :=
  exists pre sign digits post,
    s = (pre ++ sign ++ digits ++ post)%string
    /\ all_chars Str.isspace_int pre = true
    /\ (sign = EmptyString \/ sign = "+"%string \/ sign = "-"%string)
    /\ digits <> EmptyString
    /\ all_chars Str.isdigit digits = true
    /\ all_chars Str.isspace_int post = true.

(** * Further specification vocabulary *)

(** The distinct elements of a list, in the order of their first
    occurrence; [seen] holds the elements met so far. *)
Fixpoint unseen (seen l : list string) : list string :=
  match l with
  | [] => []
  | x :: l' =>
      if existsb (String.eqb x) seen then unseen seen l'
      else x :: unseen (x :: seen) l'
  end.

Definition first_occurrences (l : list string) : list string := unseen [] l.

(** Whether [sep] occurs in [s]. *)
Fixpoint occurs (sep s : string) : bool :=
  String.prefix sep s
  || match s with
     | EmptyString => false
     | String _ s' => occurs sep s'
     end.

(** The suffix [getSchemeAmplicons] cuts a primer name at. *)
Definition direction_suffix (p : Primer) : string :=
  if String.eqb (direction p) "+" then "_LEFT"%string else "_RIGHT"%string.

(** The two filters, decided. *)
Definition passes_filtersb (r : AlignmentRecord) : bool :=
  (paired r =? 1) && (19 * ampliconLength r <=? 20 * alignedLength r).

(** A line of the report all of whose six columns can be read, with an
    amplicon length in the range where the float product is exact. *)
Definition well_formed_row (l : string) : Prop :=
  exists r, parse_row l = Return r /\ Z.abs (ampliconLength r) < 2 ^ 48.

(** The lines that pass both filters, and those of them that name [k]. *)
Definition counted (l : string) : bool :=
  match parse_row l with
  | Return r => passes_filtersb r
  | Raise _ => false
  end.

Definition counted_for (k : string) (l : string) : bool :=
  match parse_row l with
  | Return r => passes_filtersb r && String.eqb (amplicon r) k
  | Raise _ => false
  end.

Fixpoint count_char (c : ascii) (s : string) : nat :=
  match s with
  | EmptyString => 0
  | String c' s' => (if Ascii.eqb c' c then 1 else 0) + count_char c s'
  end.

(** The entries [getVCFreportInfo] returns for a header and a data row of
    the same length: one per column but [input VCF file], in order. *)
Definition vcf_entries (fieldnames row : list string) : pydict :=
  map (fun cv => (KeyStr (fst cv), PyStr (snd cv)))
    (filter (fun cv => negb (String.eqb (fst cv) "input VCF file"))
       (combine fieldnames row)).

(** The dict [csv.DictReader] yields for a header of distinct names, as a
    list of entries: the zipped columns, then the surplus fields under
    [None] or the missing columns with value [None]. *)
Definition DictReader_entries (fieldnames row : list string) : pydict :=
  map (fun cv => (KeyStr (fst cv), PyStr (snd cv))) (combine fieldnames row)
  ++ (if (List.length fieldnames <? List.length row)%nat
      then [(KeyNone, PyList (skipn (List.length fieldnames) row))]
      else map (fun c => (KeyStr c, PyNone)) (skipn (List.length row) fieldnames)).

Definition not_input_file (kv : pykey * pyval) : bool :=
  negb (pykey_eqb (fst kv) (KeyStr "input VCF file")).

(** Whether the ordinal of the name of an entry is [n]. *)
Definition ordinal_is (n : Z) (kc : string * Z) : bool :=
  match ordinal_of (fst kc) with
  | Return m => m =? n
  | Raise _ => false
  end.

Definition nonneg {K : Type} (d : list (K * Z)) : Prop :=
  Forall (fun kv => 0 <= snd kv) d.

(** Same keys in the same order, no count lower. *)
Definition grows (d d' : sdict Z) : Prop :=
  Forall2 (fun kv kv' => fst kv = fst kv' /\ snd kv <= snd kv') d d'.

Definition plot_file (args : Args) (t : Tally) : string * Document :=
  ((sample args ++ ".amplicon_plot_data_mqc.json")%string,
   PlotDocument
     (GetPlotDataTemplate (min_depth args) (sample args) (amplicon_renamed_counts t))).

Definition stats_file (args : Args) (table : pydict) : string * Document :=
  ((sample args ++ ".amplicon_stats_data_mqc.json")%string,
   StatsDocument (GetStatsTemplate (sample args) table)).

(** Further example inputs. *)
Module MoreExamples.
Local Open Scope string_scope.

(** A primer with an alternate. *)
Definition primer_alt : Primer := Examples.primer "nCoV-2019_1_LEFT_alt1" "+".

(** A report whose second data line names an amplicon that is not in the
    scheme. *)
Definition report_absent : list string :=
  ["read" ++ TAB ++ "header" ++ NL;
   Examples.row_counted; Examples.row_absent; Examples.row_counted].

Definition fs_absent : FileSystem :=
  {| read_bed_file := fun _ => Return Examples.scheme_ncov;
     open_lines := fun _ => Return (report_absent, None);
     csv_reader := Examples.no_csv;
     write_error := fun _ => None |}.

(** A report that cannot be read to its end: after the header and one data
    line the iterator of the file raises. *)
Definition fs_read_error : FileSystem :=
  {| read_bed_file := fun _ => Return Examples.scheme_ncov;
     open_lines := fun _ =>
       Return (["read" ++ TAB ++ "header" ++ NL; Examples.row_counted], Some OSError);
     csv_reader := Examples.no_csv;
     write_error := fun _ => None |}.

(** The data lines of [Examples.report_ncov] in reverse order under
    another header. *)
Definition fs_reversed : FileSystem :=
  {| read_bed_file := fun _ => Return Examples.scheme_ncov;
     open_lines := fun _ => Return (NL :: rev (tl Examples.report_ncov), None);
     csv_reader := Examples.no_csv;
     write_error := fun _ => None |}.

(** A line with three columns. *)
Definition row_short : string := "r1" ++ TAB ++ "30" ++ TAB ++ "430" ++ NL.

(** A properly paired read on an amplicon of length 487166732731899, beyond
    [2 ^ 48], with an alignment of length 462808396095304: one twentieth
    short of [0.95] times the amplicon length. *)
Definition row_beyond : string :=
  Examples.row "r9" "0" "487166732731899" "nCoV-2019_1_LEFT_nCoV-2019_1_RIGHT"
    "0" "462808396095304" "1".

Definition record_beyond : AlignmentRecord :=
  {| rStart := 0; rEnd := 487166732731899;
     amplicon := "nCoV-2019_1_LEFT_nCoV-2019_1_RIGHT";
     aStart := 0; aEnd := 462808396095304; paired := 1 |}.

Definition fs_beyond : FileSystem :=
  {| read_bed_file := fun _ => Return Examples.scheme_ncov;
     open_lines := fun _ => Return (["read" ++ TAB ++ "header" ++ NL; row_beyond], None);
     csv_reader := Examples.no_csv;
     write_error := fun _ => None |}.

(** Variant reports: a data row longer than the header, one shorter, no
    data row, and a column named as the total. *)
Definition vcf_long : list (list string) :=
  [["input VCF file"; "num variants"]; ["sample.pass.vcf"; "7"; "8"; "9"]].


Definition vcf_header_only : list (list string) :=
  [["input VCF file"; "num variants"]; []].

Definition vcf_total : list (list string) :=
  [["input VCF file"; "# mapped reads"]; ["sample.pass.vcf"; "99"]].

Definition fs_with (rows : list (list string)) : FileSystem :=
  {| read_bed_file := fun _ => Return Examples.scheme_ncov;
     open_lines := fun _ => Return (Examples.report_ncov, None);
     csv_reader := fun _ => Return rows;
     write_error := fun _ => None |}.
End MoreExamples.

(** * Lemmas on the containers *)

Section DictFacts.
Context {K V : Type}.
Variable eqb : K -> K -> bool.
Hypothesis eqb_eq : forall a b, eqb a b = true <-> a = b.

Lemma eqb_refl_of (a : K) : eqb a a = true.
Proof. now apply eqb_eq. Qed.

Lemma eqb_false_of (a b : K) : a <> b -> eqb a b = false.
Proof.
  intros Hab. destruct (eqb a b) eqn:E; [|reflexivity].
  now apply eqb_eq in E.
Qed.

Lemma dict_get_set_same (d : list (K * V)) k v :
  dict_get eqb (dict_set eqb d k v) k = Some v.
Proof.
  induction d as [|[k' v'] d IH]; simpl.
  - now rewrite eqb_refl_of.
  - destruct (eqb k' k) eqn:E; simpl; rewrite E; auto.
Qed.

Lemma dict_get_set_other (d : list (K * V)) k k' v :
  k' <> k -> dict_get eqb (dict_set eqb d k v) k' = dict_get eqb d k'.
Proof.
  intros Hne. induction d as [|[k0 v0] d IH]; simpl.
  - rewrite eqb_false_of; auto.
  - destruct (eqb k0 k) eqn:E; simpl.
    + apply eqb_eq in E; subst k0. rewrite eqb_false_of; auto.
    + now rewrite IH.
Qed.

Lemma dict_mem_In (d : list (K * V)) k :
  dict_mem eqb d k = true <-> In k (dict_keys d).
Proof.
  unfold dict_mem. induction d as [|[k' v'] d IH]; simpl.
  - split; [discriminate | tauto].
  - destruct (eqb k' k) eqn:E.
    + apply eqb_eq in E. split; auto.
    + rewrite IH. split; auto. intros [H|H]; auto.
      apply eqb_eq in H. congruence.
Qed.

Lemma dict_mem_false (d : list (K * V)) k :
  dict_mem eqb d k = false <-> ~ In k (dict_keys d).
Proof.
  rewrite <- dict_mem_In. destruct (dict_mem eqb d k); split; congruence.
Qed.

Lemma dict_get_None (d : list (K * V)) k :
  dict_get eqb d k = None <-> ~ In k (dict_keys d).
Proof.
  rewrite <- dict_mem_false. unfold dict_mem.
  destruct (dict_get eqb d k); split; congruence.
Qed.

Lemma dict_keys_set_present (d : list (K * V)) k v :
  In k (dict_keys d) -> dict_keys (dict_set eqb d k v) = dict_keys d.
Proof.
  induction d as [|[k' v'] d IH]; simpl; [tauto|].
  intros H. destruct (eqb k' k) eqn:E; simpl; [reflexivity|].
  f_equal. apply IH. destruct H as [H|H]; auto.
  apply eqb_eq in H. congruence.
Qed.

Lemma dict_set_absent (d : list (K * V)) k v :
  ~ In k (dict_keys d) -> dict_set eqb d k v = d ++ [(k, v)].
Proof.
  induction d as [|[k' v'] d IH]; simpl; [reflexivity|].
  intros H. rewrite eqb_false_of by tauto. f_equal. apply IH. tauto.
Qed.

Lemma dict_keys_set_absent (d : list (K * V)) k v :
  ~ In k (dict_keys d) -> dict_keys (dict_set eqb d k v) = dict_keys d ++ [k].
Proof.
  intros H. rewrite dict_set_absent by assumption.
  unfold dict_keys. now rewrite map_app.
Qed.

Lemma dict_keys_set_In (d : list (K * V)) k v k' :
  In k' (dict_keys (dict_set eqb d k v)) <-> In k' (dict_keys d) \/ k' = k.
Proof.
  induction d as [|[k0 v0] d IH]; simpl.
  - intuition.
  - destruct (eqb k0 k) eqn:E; simpl.
    + apply eqb_eq in E. subst. intuition.
    + rewrite IH. intuition.
Qed.

Lemma dict_set_NoDup (d : list (K * V)) k v :
  NoDup (dict_keys d) -> NoDup (dict_keys (dict_set eqb d k v)).
Proof.
  induction d as [|[k0 v0] d IH]; simpl; intros H.
  - constructor; [tauto | constructor].
  - inversion H as [|? ? Hn Hd]; subst.
    destruct (eqb k0 k) eqn:E; simpl; [assumption|].
    constructor; [|auto].
    rewrite dict_keys_set_In. intros [Hin|Heq]; [tauto|].
    subst. rewrite eqb_refl_of in E. discriminate.
Qed.

Lemma dict_set_set (d : list (K * V)) k v v' :
  dict_set eqb (dict_set eqb d k v) k v' = dict_set eqb d k v'.
Proof.
  induction d as [|[k0 v0] d IH]; simpl.
  - now rewrite eqb_refl_of.
  - destruct (eqb k0 k) eqn:E; simpl; rewrite E; [reflexivity|].
    now rewrite IH.
Qed.

Lemma dict_get_In (d : list (K * V)) k v :
  NoDup (dict_keys d) -> (dict_get eqb d k = Some v <-> In (k, v) d).
Proof.
  induction d as [|[k0 v0] d IH]; simpl; intros H.
  - split; [discriminate | tauto].
  - inversion H as [|? ? Hn Hd]; subst.
    destruct (eqb k0 k) eqn:E.
    + apply eqb_eq in E. subst k0. split.
      * intros [= ->]. now left.
      * intros [[= ->]|Hin]; [reflexivity|].
        exfalso. apply Hn. change k with (fst (k, v)). now apply in_map.
    + rewrite (IH Hd). split; [now right|].
      intros [[= -> ->]|Hin]; [|assumption].
      rewrite eqb_refl_of in E. discriminate.
Qed.

Lemma dict_set_length_present (d : list (K * V)) k v :
  In k (dict_keys d) -> List.length (dict_set eqb d k v) = List.length d.
Proof.
  intros H. pose proof (dict_keys_set_present d k v H) as E.
  apply (f_equal (@List.length K)) in E.
  unfold dict_keys in E. now rewrite !length_map in E.
Qed.
End DictFacts.

Lemma pykey_eqb_eq (a b : pykey) : pykey_eqb a b = true <-> a = b.
Proof.
  destruct a, b; simpl; try (split; congruence).
  rewrite String.eqb_eq. split; congruence.
Qed.

Lemma for_each_app {A S : Type} (body : S -> A -> result S) (s : S) (l1 l2 : list A) :
  for_each body s (l1 ++ l2) = (s' <- for_each body s l1 ;; for_each body s' l2).
Proof.
  revert s. induction l1 as [|x l1 IH]; intros s; simpl; [reflexivity|].
  destruct (body s x); simpl; auto.
Qed.

(** A loop whose body never raises is a left fold. *)
Lemma for_each_total {A S : Type} (body : S -> A -> result S) (f : S -> A -> S)
  (l : list A) :
  (forall s x, In x l -> body s x = Return (f s x)) ->
  forall s, for_each body s l = Return (fold_left f l s).
Proof.
  induction l as [|x l IH]; intros Hb s; simpl; [reflexivity|].
  rewrite Hb by now left. simpl. apply IH. intros; apply Hb. now right.
Qed.

(** * The Primer-Pair Resolver: [getSchemeAmplicons] *)

Lemma split_go_nonempty (sep : string) (s : string) :
  forall skip cur, Str.split_go sep skip cur s <> [].
Proof.
  induction s as [|c s IH]; intros skip cur; cbn [Str.split_go]; [discriminate|].
  destruct skip; [|apply IH].
  destruct (String.prefix sep (String c s)); [discriminate | apply IH].
Qed.

Lemma subscript_split_0 (s sep : string) :
  subscript (Str.split s sep) 0 = Return (hd EmptyString (Str.split s sep)).
Proof.
  unfold Str.split. pose proof (split_go_nonempty sep s 0 EmptyString) as H.
  destruct (Str.split_go sep 0 EmptyString s); [congruence | reflexivity].
Qed.

Lemma count_primer_spec (d : sdict Z) (p : Primer) :
  count_primer d p = Return (dict_incr d (base_of p)).
Proof.
  unfold count_primer, base_of, dict_incr.
  destruct (String.eqb (direction p) "+"); rewrite subscript_split_0; simpl;
    match goal with |- context [hd EmptyString ?l] => generalize (hd EmptyString l) end;
    intros b; unfold dict_mem, dict_getitem;
    destruct (dict_get String.eqb d b) as [n|] eqn:E; simpl.
  all: try (rewrite E; reflexivity).
  all: rewrite (dict_get_set_same _ String.eqb_eq); simpl;
       now rewrite (dict_set_set _ String.eqb_eq).
Qed.

Lemma count_loop_spec (ps : list Primer) : forall d : sdict Z,
  for_each count_primer d ps = Return (fold_left dict_incr (bases ps) d).
Proof.
  induction ps as [|p ps IH]; intros d; simpl; [reflexivity|].
  rewrite count_primer_spec. simpl. apply IH.
Qed.

(** The count held for a key, 0 when the key is absent. *)
Definition count_of (d : sdict Z) (k : string) : Z :=
  match dict_get String.eqb d k with Some n => n | None => 0 end.

Lemma count_of_incr (d : sdict Z) (b k : string) :
  count_of (dict_incr d b) k = count_of d k + (if string_dec b k then 1 else 0).
Proof.
  unfold count_of, dict_incr. destruct (string_dec b k) as [->|Hne].
  - rewrite (dict_get_set_same _ String.eqb_eq).
    destruct (dict_get String.eqb d k); lia.
  - rewrite (dict_get_set_other _ String.eqb_eq) by congruence. lia.
Qed.

Lemma count_of_tally (l : list string) : forall (d : sdict Z) (k : string),
  count_of (fold_left dict_incr l d) k = count_of d k + Z.of_nat (count_occ string_dec l k).
Proof.
  induction l as [|b l IH]; intros d k; simpl; [lia|].
  rewrite IH, count_of_incr. destruct (string_dec b k); lia.
Qed.

Lemma keys_tally (l : list string) : forall (d : sdict Z) (k : string),
  In k (dict_keys (fold_left dict_incr l d)) <-> In k (dict_keys d) \/ In k l.
Proof.
  induction l as [|b l IH]; intros d k; simpl; [tauto|].
  rewrite IH. unfold dict_incr. rewrite (dict_keys_set_In _ String.eqb_eq).
  intuition.
Qed.

Lemma NoDup_tally (l : list string) : forall d : sdict Z,
  NoDup (dict_keys d) -> NoDup (dict_keys (fold_left dict_incr l d)).
Proof.
  induction l as [|b l IH]; intros d H; simpl; [assumption|].
  apply IH. unfold dict_incr. now apply (dict_set_NoDup _ String.eqb_eq).
Qed.

Lemma get_tally (l : list string) (k : string) :
  In k l ->
  dict_get String.eqb (fold_left dict_incr l []) k
  = Some (Z.of_nat (count_occ string_dec l k)).
Proof.
  intros Hin. pose proof (count_of_tally l [] k) as Hc.
  assert (Hk : In k (dict_keys (fold_left dict_incr l []))) by (apply keys_tally; now right).
  unfold count_of in Hc. cbn [dict_get] in Hc.
  destruct (dict_get String.eqb (fold_left dict_incr l []) k) eqn:E.
  - f_equal. lia.
  - apply (dict_get_None _ String.eqb_eq) in E. tauto.
Qed.

Section NameLoop.
Variable amplicons : sdict Z.

Lemma name_loop_ok (keys : list string) : forall named : sdict Z,
  (forall k, In k keys -> dict_get String.eqb amplicons k = Some 2) ->
  for_each (name_amplicon amplicons) named keys
  = Return (fold_left (fun nm k => dict_set String.eqb nm (amplicon_name k) 0) keys named).
Proof.
  intros named H. apply for_each_total. intros s k Hk.
  unfold name_amplicon, dict_getitem. now rewrite (H k Hk).
Qed.

Lemma name_loop_fail (keys : list string) : forall named : sdict Z,
  (forall k, In k keys -> dict_get String.eqb amplicons k <> None) ->
  (exists k, In k keys /\ dict_get String.eqb amplicons k <> Some 2) ->
  for_each (name_amplicon amplicons) named keys = Raise (SystemExit 1).
Proof.
  induction keys as [|k0 keys IH]; intros named Hall [k [Hin Hk]]; [destruct Hin|].
  simpl. unfold name_amplicon at 1, dict_getitem.
  destruct (dict_get String.eqb amplicons k0) as [n|] eqn:E;
    [|exfalso; apply (Hall k0); [now left | assumption]].
  simpl. destruct (n =? 2) eqn:En; simpl; [|reflexivity].
  apply Z.eqb_eq in En. subst n.
  apply IH; [intros; apply Hall; now right|].
  exists k. split; [|assumption].
  destruct Hin as [->|Hin]; [congruence | assumption].
Qed.
End NameLoop.

Lemma append_inj_length (a b x y : string) :
  String.length a = String.length b -> (a ++ x = b ++ y)%string -> a = b.
Proof.
  revert b. induction a as [|c a IH]; intros [|c' b]; simpl; try discriminate; auto.
  intros [= Hl] [= -> Hs]. f_equal. now apply IH.
Qed.

Lemma length_append (a b : string) :
  String.length (a ++ b) = (String.length a + String.length b)%nat.
Proof. induction a as [|c a IH]; simpl; auto. Qed.

Lemma amplicon_name_inj (a b : string) : amplicon_name a = amplicon_name b -> a = b.
Proof.
  unfold amplicon_name. intros H.
  apply append_inj_length with (2 := H).
  apply (f_equal String.length) in H. rewrite !length_append in H. simpl in H. lia.
Qed.

Lemma name_fold_fresh (keys : list string) : forall named : sdict Z,
  NoDup keys ->
  (forall k, In k keys -> ~ In (amplicon_name k) (dict_keys named)) ->
  fold_left (fun nm k => dict_set String.eqb nm (amplicon_name k) 0) keys named
  = named ++ map (fun k => (amplicon_name k, 0)) keys.
Proof.
  induction keys as [|k0 keys IH]; intros named Hnd Hfresh; simpl.
  - now rewrite app_nil_r.
  - inversion Hnd as [|? ? Hn Hd]; subst.
    rewrite (dict_set_absent _ String.eqb_eq) by (apply Hfresh; now left).
    rewrite IH; [now rewrite <- app_assoc | assumption |].
    intros k Hk. unfold dict_keys. rewrite map_app, in_app_iff. simpl.
    intros [Hin|[Heq|[]]].
    + apply (Hfresh k); [now right | assumption].
    + apply amplicon_name_inj in Heq. congruence.
Qed.

Lemma getSchemeAmplicons_unfold (fs : FileSystem) (schemeFile : string)
  (ps : list Primer) :
  read_bed_file fs schemeFile = Return ps ->
  getSchemeAmplicons fs schemeFile
  = for_each (name_amplicon (fold_left dict_incr (bases ps) [])) []
      (dict_keys (fold_left dict_incr (bases ps) [])).
Proof.
  intros H. unfold getSchemeAmplicons. rewrite H. simpl.
  now rewrite count_loop_spec.
Qed.

(** The resolver on a scheme all of whose bases have two primers. *)
Lemma getSchemeAmplicons_ok (fs : FileSystem) (schemeFile : string)
  (ps : list Primer) :
  read_bed_file fs schemeFile = Return ps ->
  (forall b, In b (bases ps) -> primer_count ps b = 2%nat) ->
  getSchemeAmplicons fs schemeFile
  = Return (map (fun b => (amplicon_name b, 0))
              (dict_keys (fold_left dict_incr (bases ps) []))).
Proof.
  intros Hread Hall. rewrite (getSchemeAmplicons_unfold _ _ _ Hread).
  rewrite name_loop_ok.
  - rewrite name_fold_fresh; [reflexivity | | intros; simpl; tauto].
    apply NoDup_tally. constructor.
  - intros k Hk. apply keys_tally in Hk. destruct Hk as [[]|Hk].
    rewrite get_tally by assumption. unfold primer_count in Hall.
    now rewrite (Hall k Hk).
Qed.

(** The resolver on a scheme with a base whose primers are not two. *)
Lemma getSchemeAmplicons_fail (fs : FileSystem) (schemeFile : string)
  (ps : list Primer) :
  read_bed_file fs schemeFile = Return ps ->
  (exists b, In b (bases ps) /\ primer_count ps b <> 2%nat) ->
  getSchemeAmplicons fs schemeFile = Raise (SystemExit 1).
Proof.
  intros Hread [b [Hb Hc]]. rewrite (getSchemeAmplicons_unfold _ _ _ Hread).
  apply name_loop_fail.
  - intros k Hk. apply keys_tally in Hk. destruct Hk as [[]|Hk].
    rewrite get_tally by assumption. discriminate.
  - exists b. split; [apply keys_tally; now right|].
    rewrite get_tally by assumption. unfold primer_count in Hc.
    intros [= E]. lia.
Qed.

Lemma primer_count_split (ps : list Primer) (b : string) :
  primer_count ps b = (n_left ps b + n_right ps b)%nat.
Proof.
  unfold primer_count, n_left, n_right, bases.
  induction ps as [|p ps IH]; simpl; [reflexivity|].
  destruct (string_dec (base_of p) b) as [E|E].
  - apply String.eqb_eq in E. rewrite E.
    destruct (String.eqb (direction p) "+"); simpl; lia.
  - apply String.eqb_neq in E. rewrite E, !andb_false_r. exact IH.
Qed.

(** * Splitting at underscores *)

Lemma prefix_underscore (c : ascii) (s : string) :
  String.prefix "_" (String c s) = Ascii.eqb c "_".
Proof.
  cbn [String.prefix]. destruct (ascii_dec "_" c) as [<-|Hne].
  - now destruct s.
  - symmetry. apply Ascii.eqb_neq. congruence.
Qed.

Lemma split_go_underscore_cons (c : ascii) (s cur : string) :
  Str.split_go "_" 0 cur (String c s)
  = if Ascii.eqb c "_" then cur :: Str.split_go "_" 0 EmptyString s
    else Str.split_go "_" 0 (cur ++ String c EmptyString) s.
Proof.
  cbn [Str.split_go]. rewrite prefix_underscore. reflexivity.
Qed.

Lemma append_snoc (a : string) (c : ascii) (b : string) :
  ((a ++ String c EmptyString) ++ b)%string = (a ++ String c b)%string.
Proof. induction a as [|x a IH]; simpl; [reflexivity | now rewrite IH]. Qed.

Lemma append_empty_r (a : string) : (a ++ EmptyString)%string = a.
Proof. induction a as [|x a IH]; simpl; [reflexivity | now rewrite IH]. Qed.

(** A piece without underscore followed by an underscore is a segment. *)
Lemma split_go_segment (a : string) : forall cur rest : string,
  has_char "_" a = false ->
  Str.split_go "_" 0 cur (a ++ String "_" rest)
  = (cur ++ a)%string :: Str.split_go "_" 0 EmptyString rest.
Proof.
  induction a as [|c a IH]; intros cur rest H.
  - simpl append at 1. rewrite split_go_underscore_cons. simpl.
    now rewrite append_empty_r.
  - simpl in H. apply orb_false_iff in H. destruct H as [Hc Ha].
    simpl append at 1. rewrite split_go_underscore_cons, Hc.
    rewrite IH by assumption. now rewrite append_snoc.
Qed.

Lemma split_go_no_underscore (a : string) : forall cur : string,
  has_char "_" a = false ->
  Str.split_go "_" 0 cur a = [(cur ++ a)%string].
Proof.
  induction a as [|c a IH]; intros cur H.
  - simpl. now rewrite append_empty_r.
  - simpl in H. apply orb_false_iff in H. destruct H as [Hc Ha].
    rewrite split_go_underscore_cons, Hc, IH by assumption.
    now rewrite append_snoc.
Qed.

(** The first segment does not depend on what follows an underscore. *)
Lemma split_go_hd_append (s : string) : forall cur rest : string,
  hd_error (Str.split_go "_" 0 cur (s ++ String "_" rest))
  = hd_error (Str.split_go "_" 0 cur s).
Proof.
  induction s as [|c s IH]; intros cur rest.
  - simpl append. rewrite split_go_underscore_cons. reflexivity.
  - simpl append. rewrite !split_go_underscore_cons.
    destruct (Ascii.eqb c "_"); [reflexivity | apply IH].
Qed.

(** Every string with an underscore starts with a segment. *)
Lemma has_char_split (s : string) :
  has_char "_" s = true ->
  exists a rest, s = (a ++ String "_" rest)%string /\ has_char "_" a = false.
Proof.
  induction s as [|c s IH]; simpl; [discriminate|].
  destruct (Ascii.eqb c "_") eqn:E; simpl.
  - intros _. apply Ascii.eqb_eq in E. subst c.
    now exists EmptyString, s.
  - intros H. destruct (IH H) as [a [rest [-> Ha]]].
    exists (String c a), rest. simpl. now rewrite E.
Qed.

Lemma append_assoc (a b c : string) :
  ((a ++ b) ++ c)%string = (a ++ (b ++ c))%string.
Proof. induction a as [|x a IH]; simpl; [reflexivity | now rewrite IH]. Qed.

(** The second segment of [<base>_LEFT_<base>_RIGHT] is [LEFT] when the
    base has no underscore, and the second segment of the base otherwise. *)
Lemma second_segment_name_plain (b : string) :
  has_char "_" b = false -> second_segment (amplicon_name b) = Some "LEFT"%string.
Proof.
  intros H. unfold second_segment, amplicon_name, Str.split.
  change (b ++ "_LEFT_" ++ b ++ "_RIGHT")%string
    with (b ++ String "_" ("LEFT" ++ String "_" (b ++ "_RIGHT")))%string.
  rewrite split_go_segment by assumption.
  rewrite split_go_segment by reflexivity. reflexivity.
Qed.

Lemma second_segment_append (a rest x : string) :
  has_char "_" a = false ->
  second_segment ((a ++ String "_" rest) ++ String "_" x)
  = second_segment (a ++ String "_" rest).
Proof.
  intros Ha. unfold second_segment, Str.split.
  rewrite append_assoc. cbn [append].
  rewrite (split_go_segment a EmptyString rest Ha).
  rewrite (split_go_segment a EmptyString (rest ++ String "_" x) Ha).
  pose proof (split_go_hd_append rest EmptyString x) as Hh.
  destruct (Str.split_go "_" 0 EmptyString (rest ++ String "_" x));
    destruct (Str.split_go "_" 0 EmptyString rest); simpl in *; congruence.
Qed.

Lemma second_segment_name_under (b : string) :
  has_char "_" b = true -> second_segment (amplicon_name b) = second_segment b.
Proof.
  intros H. destruct (has_char_split b H) as [a [rest [E Ha]]].
  unfold amplicon_name.
  change (b ++ "_LEFT_" ++ b ++ "_RIGHT")%string
    with (b ++ String "_" ("LEFT_" ++ b ++ "_RIGHT"))%string.
  generalize ("LEFT_" ++ b ++ "_RIGHT")%string. intros x.
  subst b. now apply second_segment_append.
Qed.

Lemma second_segment_None (b : string) :
  has_char "_" b = false -> second_segment b = None.
Proof.
  intros H. unfold second_segment, Str.split.
  now rewrite split_go_no_underscore.
Qed.

(** * The Coverage Classifier: the loop of [run] *)

Lemma tally_amplicon_spec (md : Z) (t : Tally) (item : string * Z) :
  tally_amplicon md t item
  = (ordinal <- ordinal_of (fst item) ;;
     Return {| readCount := readCount t + snd item;
               dropouts := if snd item <? md then dropouts t + 1 else dropouts t;
               amplicon_renamed_counts :=
                 dict_set Z.eqb (amplicon_renamed_counts t) ordinal (snd item) |}).
Proof.
  unfold tally_amplicon, ordinal_of.
  destruct (subscript (Str.split (fst item) "_") 1); simpl; [|reflexivity].
  destruct (Str.int a); reflexivity.
Qed.

(** The ordinals of the names of a dict, when all of them exist. *)
Fixpoint ordinals (counts : sdict Z) : result (list (Z * Z)) :=
  match counts with
  | [] => Return []
  | (k, c) :: counts' =>
      n <- ordinal_of k ;;
      rest <- ordinals counts' ;;
      Return ((n, c) :: rest)
  end.

Definition renumber (renamed : list (Z * Z)) (items : list (Z * Z)) : list (Z * Z) :=
  fold_left (fun r nc => dict_set Z.eqb r (fst nc) (snd nc)) items renamed.

Lemma tally_loop_spec (md : Z) (counts : sdict Z) : forall t t' : Tally,
  for_each (tally_amplicon md) t counts = Return t' ->
  readCount t' = readCount t + sum_counts counts
  /\ dropouts t' = dropouts t + low_coverage md counts
  /\ exists items, ordinals counts = Return items
       /\ amplicon_renamed_counts t' = renumber (amplicon_renamed_counts t) items.
Proof.
  unfold sum_counts, low_coverage.
  induction counts as [|[k c] counts IH]; intros t t' H.
  - simpl in H. injection H as <-. simpl. repeat split; try lia.
    now exists [].
  - cbn [for_each] in H. rewrite tally_amplicon_spec in H. cbn [fst snd] in H.
    cbn [ordinals]. destruct (ordinal_of k) as [n|e]; [|discriminate].
    simpl in H. apply IH in H. cbn [readCount dropouts amplicon_renamed_counts] in H.
    destruct H as [Hr [Hd [items [Ho Hn]]]].
    cbn [dict_values map fold_right filter snd].
    split; [unfold dict_values in Hr; lia|].
    split.
    + destruct (c <? md); cbn [List.length]; lia.
    + exists ((n, c) :: items). rewrite Ho. simpl. split; [reflexivity | exact Hn].
Qed.

Lemma tally_loop_total (md : Z) (counts : sdict Z) : forall (t : Tally) items,
  ordinals counts = Return items ->
  exists t', for_each (tally_amplicon md) t counts = Return t'.
Proof.
  induction counts as [|[k c] counts IH]; intros t items H.
  - now exists t.
  - cbn [for_each]. rewrite tally_amplicon_spec. cbn [fst snd].
    cbn [ordinals] in H. destruct (ordinal_of k) as [n|e]; [|discriminate].
    simpl in H. destruct (ordinals counts) as [rest|e] eqn:E; [|discriminate].
    simpl. eapply IH. reflexivity.
Qed.

(** The loop leaves at the first name without an ordinal, with the
    exception of that name. *)
Lemma tally_loop_raise (md : Z) (counts : sdict Z) : forall (t : Tally) (e : exn),
  for_each (tally_amplicon md) t counts = Raise e ->
  exists k c, In (k, c) counts /\ ordinal_of k = Raise e.
Proof.
  induction counts as [|[k c] counts IH]; intros t e H; [discriminate|].
  cbn [for_each] in H. rewrite tally_amplicon_spec in H. cbn [fst snd] in H.
  destruct (ordinal_of k) as [n|e'] eqn:E.
  - simpl in H. apply IH in H. destruct H as [k' [c' [Hin Ho]]].
    exists k', c'. split; [now right | assumption].
  - simpl in H. injection H as <-. exists k, c. split; [now left | assumption].
Qed.

Lemma tally_loop_fails (md : Z) (counts : sdict Z) : forall (t : Tally) k c e,
  In (k, c) counts -> ordinal_of k = Raise e ->
  exists e', for_each (tally_amplicon md) t counts = Raise e'.
Proof.
  induction counts as [|[k0 c0] counts IH]; intros t k c e Hin Ho; [destruct Hin|].
  cbn [for_each]. rewrite tally_amplicon_spec. cbn [fst snd].
  destruct (ordinal_of k0) as [n|e0] eqn:E; simpl.
  - destruct Hin as [[= -> ->]|Hin]; [congruence|].
    eapply IH; eassumption.
  - now exists e0.
Qed.

(** * Binary64 rounding of the length threshold *)

Lemma digits2_pos_bounds (p : positive) :
  2 ^ (Zpos (digits2_pos p) - 1) <= Zpos p < 2 ^ Zpos (digits2_pos p).
Proof.
  induction p as [p IH|p IH|]; cbn [digits2_pos].
  - rewrite Pos2Z.inj_succ.
    replace (Z.succ (Zpos (digits2_pos p)) - 1) with (Z.succ (Zpos (digits2_pos p) - 1)) by lia.
    rewrite !Z.pow_succ_r by lia. lia.
  - rewrite Pos2Z.inj_succ.
    replace (Z.succ (Zpos (digits2_pos p)) - 1) with (Z.succ (Zpos (digits2_pos p) - 1)) by lia.
    rewrite !Z.pow_succ_r by lia. lia.
  - simpl. lia.
Qed.

Lemma digits2_pos_unique (p : positive) (d : Z) :
  2 ^ (d - 1) <= Zpos p < 2 ^ d -> Zpos (digits2_pos p) = d.
Proof.
  intros [Hlo Hhi]. pose proof (digits2_pos_bounds p) as [Blo Bhi].
  assert (Hd : 0 < d).
  { destruct (Z.ltb_spec 0 d) as [|Hle]; [assumption|].
    destruct (Z.eq_dec d 0) as [->|Hne]; [simpl in Hhi; lia|].
    rewrite Z.pow_neg_r in Hhi by lia. lia. }
  destruct (Z.lt_trichotomy (Zpos (digits2_pos p)) d) as [Hlt|[Heq|Hgt]]; [|assumption|].
  - assert (2 ^ Zpos (digits2_pos p) <= 2 ^ (d - 1)) by (apply Z.pow_le_mono_r; lia). lia.
  - assert (2 ^ d <= 2 ^ (Zpos (digits2_pos p) - 1)) by (apply Z.pow_le_mono_r; lia). lia.
Qed.

Lemma iter_pos_iter {A : Type} (f : A -> A) (p : positive) : forall x : A,
  iter_pos f p x = Pos.iter f x p.
Proof.
  induction p as [p IH|p IH|]; intros x; cbn [iter_pos Pos.iter].
  - rewrite !IH, <- !Pos.iter_swap. reflexivity.
  - now rewrite !IH.
  - reflexivity.
Qed.

Lemma shr_1_spec (m : Z) (r s : bool) :
  0 <= m ->
  shr_1 {| shr_m := m; shr_r := r; shr_s := s |}
  = {| shr_m := m / 2; shr_r := Z.odd m; shr_s := r || s |}.
Proof.
  intros H. rewrite <- Z.div2_div. destruct m as [|p|p]; [reflexivity| |lia].
  destruct p; reflexivity.
Qed.

(** [n] shifts to the right: the quotient, the last bit shifted out, and
    whether a lower bit was set. *)
Lemma shr_iter_spec (m : Z) (n : positive) :
  0 <= m ->
  iter_pos shr_1 n {| shr_m := m; shr_r := false; shr_s := false |}
  = {| shr_m := m / 2 ^ Zpos n;
       shr_r := Z.testbit m (Zpos n - 1);
       shr_s := negb (m mod 2 ^ (Zpos n - 1) =? 0) |}.
Proof.
  intros Hm. rewrite iter_pos_iter.
  apply (Pos.iter_ind _ shr_1 {| shr_m := m; shr_r := false; shr_s := false |}
           (fun n mrs => mrs = {| shr_m := m / 2 ^ Zpos n;
                                  shr_r := Z.testbit m (Zpos n - 1);
                                  shr_s := negb (m mod 2 ^ (Zpos n - 1) =? 0) |})).
  - rewrite shr_1_spec by assumption. simpl Z.sub. rewrite Z.bit0_odd.
    change (2 ^ 0) with 1. rewrite Z.mod_1_r. reflexivity.
  - intros p mrs ->. rewrite shr_1_spec by (apply Z.div_pos; [assumption | apply Z.pow_pos_nonneg; lia]).
    rewrite Pos2Z.inj_succ. f_equal.
    + rewrite Z.pow_succ_r by lia. rewrite Z.div_div by (try apply Z.pow_pos_nonneg; lia).
      f_equal. lia.
    + replace (Z.succ (Zpos p) - 1) with (Zpos p) by lia.
      rewrite Z.testbit_odd, Z.shiftr_div_pow2 by lia. reflexivity.
    + replace (Z.succ (Zpos p) - 1) with (Z.succ (Zpos p - 1)) by lia.
      rewrite Z.pow_succ_r by lia.
      rewrite (Z.mul_comm 2), Z.rem_mul_r by (try apply Z.pow_nonzero; lia).
      assert (Hb : Z.testbit m (Zpos p - 1) = Z.odd (m / 2 ^ (Zpos p - 1))).
      { rewrite Z.testbit_odd, Z.shiftr_div_pow2 by lia. reflexivity. }
      rewrite Hb.
      pose proof (Z.mod_pos_bound m (2 ^ (Zpos p - 1)) ltac:(apply Z.pow_pos_nonneg; lia)) as Hr.
      pose proof (Z.pow_pos_nonneg 2 (Zpos p - 1) ltac:(lia) ltac:(lia)) as Hp.
      rewrite (Zmod_odd (m / 2 ^ (Zpos p - 1))).
      destruct (Z.odd (m / 2 ^ (Zpos p - 1)));
        destruct (Z.eqb_spec (m mod 2 ^ (Zpos p - 1)) 0) as [E0|E0];
        match goal with |- context [?x =? 0] => destruct (Z.eqb_spec x 0) as [E2|E2] end;
        simpl; try reflexivity; lia.
Qed.

Lemma round_shift_spec (m : Z) (n : positive) :
  0 <= m ->
  let mrs := iter_pos shr_1 n {| shr_m := m; shr_r := false; shr_s := false |} in
  let m1 := round_nearest_even (shr_m mrs) (loc_of_shr_record mrs) in
  (m1 = m / 2 ^ Zpos n \/ m1 = m / 2 ^ Zpos n + 1)
  /\ (2 * (m mod 2 ^ Zpos n) < 2 ^ Zpos n -> m1 = m / 2 ^ Zpos n)
  /\ (2 ^ Zpos n < 2 * (m mod 2 ^ Zpos n) -> m1 = m / 2 ^ Zpos n + 1).
Proof.
  intros Hm mrs m1. subst m1 mrs. rewrite shr_iter_spec by assumption.
  cbn [shr_m loc_of_shr_record].
  assert (Hn : Zpos n = Z.succ (Zpos n - 1)) by lia.
  assert (Hrem : m mod 2 ^ Zpos n
                 = m mod 2 ^ (Zpos n - 1)
                   + 2 ^ (Zpos n - 1) * ((m / 2 ^ (Zpos n - 1)) mod 2)).
  { rewrite Hn at 1. rewrite Z.pow_succ_r by lia.
    rewrite (Z.mul_comm 2), Z.rem_mul_r by (try apply Z.pow_nonzero; lia).
    reflexivity. }
  assert (Hpow : 2 ^ Zpos n = 2 * 2 ^ (Zpos n - 1)).
  { rewrite Hn at 1. now rewrite Z.pow_succ_r by lia. }
  rewrite Z.testbit_odd, Z.shiftr_div_pow2 by lia.
  rewrite Hrem, Hpow, (Zmod_odd (m / 2 ^ (Zpos n - 1))).
  pose proof (Z.mod_pos_bound m (2 ^ (Zpos n - 1)) ltac:(apply Z.pow_pos_nonneg; lia)) as Hr.
  generalize dependent (m / 2 ^ (Zpos n - 1)). intros x.
  generalize dependent (m mod 2 ^ (Zpos n - 1)). intros r.
  generalize (2 ^ (Zpos n - 1)). intros h.
  generalize (m / (2 * h)). intros q Hr _.
  destruct (Z.odd x); destruct (Z.eqb_spec r 0) as [E|E]; cbn [negb loc_of_shr_record round_nearest_even];
    try destruct (Z.even q); lia.
Qed.

Lemma fexp_normal (e : Z) : -1021 <= e -> fexp prec emax e = e - 53.
Proof. intros H. unfold fexp, emin, prec, emax. lia. Qed.

Lemma binary_round_aux_exact (s : bool) (m : positive) (e : Z) :
  Zpos (digits2_pos m) = 53 -> -1074 <= e <= 971 ->
  binary_round_aux prec emax s (Zpos m) e loc_Exact = S754_finite s m e.
Proof.
  intros Hd He. unfold binary_round_aux.
  assert (Hs : shr_fexp prec emax (Zpos m) e loc_Exact
               = ({| shr_m := Zpos m; shr_r := false; shr_s := false |}, e)).
  { unfold shr_fexp. cbn [Zdigits2]. rewrite Hd, fexp_normal by lia.
    replace (53 + e - 53 - e) with 0 by lia. reflexivity. }
  rewrite Hs. cbn [shr_m loc_of_shr_record round_nearest_even]. rewrite Hs.
  cbn [shr_m]. unfold emax, prec.
  destruct (Z.leb_spec e (1024 - 53)); [reflexivity | lia].
Qed.

Lemma binary_round_aux_shift (s : bool) (p : positive) (ex : Z) (n : positive) :
  Zpos (digits2_pos p) = 53 + Zpos n ->
  -1074 <= Zpos n + ex -> Zpos n + ex + 1 <= 971 ->
  exists (m' : positive) (k : Z),
    binary_round_aux prec emax s (Zpos p) ex loc_Exact
    = S754_finite s m' (ex + Zpos n + k)
    /\ (k = 0 \/ k = 1)
    /\ (Zpos m' * 2 ^ k = Zpos p / 2 ^ Zpos n \/ Zpos m' * 2 ^ k = Zpos p / 2 ^ Zpos n + 1)
    /\ (2 * (Zpos p mod 2 ^ Zpos n) < 2 ^ Zpos n -> Zpos m' * 2 ^ k = Zpos p / 2 ^ Zpos n)
    /\ (2 ^ Zpos n < 2 * (Zpos p mod 2 ^ Zpos n) -> Zpos m' * 2 ^ k = Zpos p / 2 ^ Zpos n + 1).
Proof.
  intros Hd Hlo Hhi. unfold binary_round_aux.
  assert (Hs : shr_fexp prec emax (Zpos p) ex loc_Exact
               = (iter_pos shr_1 n {| shr_m := Zpos p; shr_r := false; shr_s := false |},
                  ex + Zpos n)).
  { unfold shr_fexp. cbn [Zdigits2]. rewrite Hd, fexp_normal by lia.
    replace (53 + Zpos n + ex - 53 - ex) with (Zpos n) by lia. reflexivity. }
  rewrite Hs.
  pose proof (round_shift_spec (Zpos p) n ltac:(lia)) as Hround. cbv zeta in Hround.
  set (m1 := round_nearest_even _ _) in *.
  assert (Hq : 2 ^ 52 <= Zpos p / 2 ^ Zpos n < 2 ^ 53).
  { pose proof (digits2_pos_bounds p) as [Blo Bhi]. rewrite Hd in Blo, Bhi.
    replace (53 + Zpos n - 1) with (52 + Zpos n) in Blo by lia.
    rewrite Z.pow_add_r in Blo, Bhi by lia.
    pose proof (Z.pow_pos_nonneg 2 (Zpos n) ltac:(lia) ltac:(lia)) as Hp.
    split.
    - apply Z.div_le_lower_bound; lia.
    - apply Z.div_lt_upper_bound; lia. }
  destruct Hround as [Hcases [Hdown Hup]].
  destruct (Z.ltb_spec m1 (2 ^ 53)) as [Hlt|Hge].
  - assert (Hpos : 0 < m1) by lia.
    destruct m1 as [|m1'|m1'] eqn:Em1; [lia| |lia].
    assert (Hd1 : Zpos (digits2_pos m1') = 53).
    { apply digits2_pos_unique. change (53 - 1) with 52. lia. }
    assert (Hs1 : shr_fexp prec emax (Zpos m1') (ex + Zpos n) loc_Exact
                  = ({| shr_m := Zpos m1'; shr_r := false; shr_s := false |}, ex + Zpos n)).
    { unfold shr_fexp. cbn [Zdigits2]. rewrite Hd1, fexp_normal by lia.
      replace (53 + (ex + Zpos n) - 53 - (ex + Zpos n)) with 0 by lia. reflexivity. }
    rewrite Hs1. cbn [shr_m]. unfold emax, prec.
    destruct (Z.leb_spec (ex + Zpos n) (1024 - 53)); [|lia].
    exists m1', 0. rewrite Z.add_0_r. change (2 ^ 0) with 1. rewrite !Z.mul_1_r.
    repeat split; auto.
  - assert (Em : m1 = 2 ^ 53) by lia.
    rewrite Em.
    assert (Hs1 : shr_fexp prec emax (2 ^ 53) (ex + Zpos n) loc_Exact
                  = ({| shr_m := 2 ^ 52; shr_r := false; shr_s := false |}, ex + Zpos n + 1)).
    { unfold shr_fexp. change (Zdigits2 (2 ^ 53)) with 54. rewrite fexp_normal by lia.
      replace (54 + (ex + Zpos n) - 53 - (ex + Zpos n)) with 1 by lia. reflexivity. }
    rewrite Hs1. cbn [shr_m]. change (2 ^ 52) with (Zpos (2 ^ 52)%positive).
    cbv iota. unfold emax, prec.
    destruct (Z.leb_spec (ex + Zpos n + 1) (1024 - 53)); [|lia].
    exists (2 ^ 52)%positive, 1. 
    change (Zpos (2 ^ 52) * 2 ^ 1) with (2 ^ 53). rewrite <- Em.
    repeat split; auto.
Qed.

Lemma pos_iter_xO (p k : positive) : Zpos (Pos.iter xO p k) = Zpos p * 2 ^ Zpos k.
Proof.
  induction k as [|k IH] using Pos.peano_ind.
  - simpl. lia.
  - rewrite Pos.iter_succ, Pos2Z.inj_succ, Z.pow_succ_r by lia.
    rewrite Pos2Z.inj_xO, IH. lia.
Qed.

(** A positive integer below [2 ^ 53] is a binary64 number. *)
Lemma binary_round_small (s : bool) (p : positive) :
  Zpos p < 2 ^ 53 ->
  exists M : positive,
    binary_round prec emax s p 0 = S754_finite s M (Zpos (digits2_pos p) - 53)
    /\ Zpos M = Zpos p * 2 ^ (53 - Zpos (digits2_pos p))
    /\ Zpos (digits2_pos M) = 53.
Proof.
  intros Hp. pose proof (digits2_pos_bounds p) as [Blo Bhi].
  set (d := Zpos (digits2_pos p)) in *.
  assert (Hd : 1 <= d <= 53).
  { split; [subst d; lia|].
    destruct (Z.leb_spec d 53) as [|Hgt]; [assumption|].
    assert (2 ^ 53 <= 2 ^ (d - 1)) by (apply Z.pow_le_mono_r; lia). lia. }
  unfold binary_round. fold d. rewrite Z.add_0_r, fexp_normal by lia.
  unfold shl_align. rewrite Z.sub_0_r.
  destruct (d - 53) as [|x|x] eqn:Ed; [|lia|].
  - assert (E53 : d = 53) by lia.
    exists p. replace (53 - d) with 0 by lia. rewrite Z.mul_1_r.
    rewrite binary_round_aux_exact; [auto | exact E53 | lia].
  - exists (Pos.iter xO p x).
    assert (Ex : Zpos x = 53 - d) by lia.
    assert (Hm : Zpos (Pos.iter xO p x) = Zpos p * 2 ^ (53 - d)).
    { now rewrite pos_iter_xO, Ex. }
    assert (Hdig : Zpos (digits2_pos (Pos.iter xO p x)) = 53).
    { apply digits2_pos_unique. rewrite Hm.
      assert (E1 : 2 ^ (53 - 1) = 2 ^ (d - 1) * 2 ^ (53 - d))
        by (rewrite <- Z.pow_add_r by lia; f_equal; lia).
      assert (E2 : 2 ^ 53 = 2 ^ d * 2 ^ (53 - d))
        by (rewrite <- Z.pow_add_r by lia; f_equal; lia).
      pose proof (Z.pow_pos_nonneg 2 (53 - d) ltac:(lia) ltac:(lia)).
      rewrite E1, E2.
      split; [apply Z.mul_le_mono_nonneg_r | apply Z.mul_lt_mono_pos_r]; lia. }
    rewrite binary_round_aux_exact; [auto | exact Hdig | lia].
Qed.

Lemma ltb_scale (x y w : Z) : 0 < w -> (x <? y) = (x * w <? y * w).
Proof.
  intros Hw. destruct (Z.ltb_spec x y), (Z.ltb_spec (x * w) (y * w)); try reflexivity; nia.
Qed.


Lemma cond_Zopp_mul (s : bool) (x y : Z) : cond_Zopp s x * y = cond_Zopp s (x * y).
Proof. destruct s; simpl; lia. Qed.

Lemma scaled_compare (a p S M : Z) :
  0 < S -> M = p * S ->
  (20 * a < 19 * p -> 20 * (a * S) <= 19 * M - S)
  /\ (19 * p <= 20 * a -> 19 * M <= 20 * (a * S))
  /\ (20 * a < - (19 * p) -> 20 * (a * S) <= - (19 * M) - S)
  /\ (- (19 * p) < 20 * a -> - (19 * M) + S <= 20 * (a * S))
  /\ (20 * a = - (19 * p) -> 20 * (a * S) = - (19 * M)).
Proof. intros HS ->. repeat split; intros; nia. Qed.

(** The float product [0.95 * p] and the exact threshold [19 p / 20]
    separate the same integers, for [p] below [2 ^ 48]. *)
Lemma threshold_product (s : bool) (p : positive) (a : Z) :
  Zpos p < 2 ^ 48 ->
  exists M E,
    binary_round prec emax s p 0 = S754_finite s M E
    /\ int_lt_float a (float_mul Alignment_Length_Threshold (S754_finite s M E))
       = (20 * a <? 19 * cond_Zopp s (Zpos p)).
Proof.
  intros Hp.
  destruct (binary_round_small s p ltac:(lia)) as [M [Hx [HM HdM]]].
  pose proof (digits2_pos_bounds p) as [Blo Bhi].
  set (d := Zpos (digits2_pos p)) in *.
  assert (Hd : 1 <= d <= 48).
  { split; [subst d; lia|].
    destruct (Z.leb_spec d 48) as [|Hgt]; [assumption|].
    assert (2 ^ 48 <= 2 ^ (d - 1)) by (apply Z.pow_le_mono_r; lia). lia. }
  pose proof (digits2_pos_bounds M) as HMb. rewrite HdM in HMb.
  change (53 - 1) with 52 in HMb.
  assert (HS : 2 ^ 5 <= 2 ^ (53 - d)) by (apply Z.pow_le_mono_r; lia).
  exists M, (d - 53). split; [exact Hx|].
  unfold float_mul, Alignment_Length_Threshold, SFmul. cbn [xorb].
  set (P := (8556839292003942 * M)%positive).
  assert (HP : Zpos P = 8556839292003942 * Zpos M) by (subst P; lia).
  assert (Hcase : exists n : positive,
             (n = 52%positive /\ Zpos P < 2 ^ 105 \/ n = 53%positive /\ 2 ^ 105 <= Zpos P)
             /\ Zpos (digits2_pos P) = 53 + Zpos n).
  { destruct (Z.lt_ge_cases (Zpos P) (2 ^ 105)) as [Hlt|Hge].
    - exists 52%positive. split; [left; split; [reflexivity | exact Hlt]|].
      apply digits2_pos_unique.
      change (53 + 52 - 1) with 104. change (53 + 52) with 105. lia.
    - exists 53%positive. split; [right; split; [reflexivity | exact Hge]|].
      apply digits2_pos_unique.
      change (53 + 53 - 1) with 105. change (53 + 53) with 106. lia. }
  destruct Hcase as [n [Hn Hdig]].
  assert (Hn' : 52 <= Zpos n <= 53) by (destruct Hn as [[-> _]|[-> _]]; lia).
  destruct (binary_round_aux_shift s P (-53 + (d - 53)) n Hdig ltac:(lia) ltac:(lia))
    as [m' [k [Hres [Hk [Hv [Hdown Hup]]]]]].
  rewrite Hres. unfold int_lt_float. cbv zeta.
  assert (Hk' : 0 <= k <= 1) by lia.
  destruct (Z.leb_spec 0 (-53 + (d - 53) + Zpos n + k)) as [|_]; [lia|].
  assert (HW : 0 < 2 ^ k * 2 ^ Zpos n) by (apply Z.mul_pos_pos; apply Z.pow_pos_nonneg; lia).
  rewrite (ltb_scale _ _ _ HW).
  assert (HU : 2 ^ (- (-53 + (d - 53) + Zpos n + k)) * (2 ^ k * 2 ^ Zpos n)
               = 2 ^ 53 * 2 ^ (53 - d)).
  { rewrite <- !Z.pow_add_r by lia. f_equal. lia. }
  match goal with
  | |- (?x * ?u * ?w <? ?c * ?w) = _ =>
      replace (x * u * w) with (a * 2 ^ (53 - d) * 2 ^ 53)
        by (rewrite <- (Z.mul_assoc x u w), HU; ring);
      replace (c * w) with (cond_Zopp s (Zpos m' * 2 ^ k * 2 ^ Zpos n))
        by (destruct s; cbn [cond_Zopp]; ring)
  end.
  pose proof (Z.div_mod (Zpos P) (2 ^ Zpos n) ltac:(apply Z.pow_nonzero; lia)) as Hdm.
  pose proof (Z.mod_pos_bound (Zpos P) (2 ^ Zpos n) ltac:(apply Z.pow_pos_nonneg; lia)) as Hrem.
  remember (Zpos m' * 2 ^ k) as v eqn:Ev.
  remember (Zpos P / 2 ^ Zpos n) as q eqn:Eq.
  remember (Zpos P mod 2 ^ Zpos n) as rem eqn:Erem.
  remember (2 ^ (53 - d)) as S eqn:ES.
  destruct (scaled_compare a (Zpos p) S (Zpos M) ltac:(lia) HM)
    as (H1 & H2 & H3 & H4 & H5).
  remember (a * S) as aS eqn:EaS.
  remember (Zpos M) as zM eqn:EzM.
  remember (Zpos P) as zP eqn:EzP.
  clear Hres Hx HM Hdig HU HW HdM Blo Bhi Ev Eq Erem ES EaS EzM EzP Hp Hd Hk Hk' Hn'.
  destruct Hn as [[-> Hlt]|[-> Hge]]; destruct s; cbn [cond_Zopp];
    match goal with |- (?x <? ?y) = (?z <? ?t) =>
      destruct (Z.ltb_spec x y); destruct (Z.ltb_spec z t); try reflexivity; exfalso
    end; lia.
Qed.

(** [aLen < Alignment_Length_Threshold * rLen], as the module evaluates it,
    is the exact comparison [20 * aLen < 19 * rLen] when the amplicon length
    is below [2 ^ 48] in magnitude. *)
Lemma threshold_exact (a r : Z) :
  Z.abs r < 2 ^ 48 ->
  exists x, float_of_int r = Return x
    /\ int_lt_float a (float_mul Alignment_Length_Threshold x) = (20 * a <? 19 * r).
Proof.
  intros Hr. unfold float_of_int, binary_normalize. destruct r as [|p|p].
  - exists (S754_zero false). split; [reflexivity|].
    unfold float_mul, Alignment_Length_Threshold. cbn [SFmul xorb int_lt_float].
    rewrite Z.mul_0_r.
    destruct (Z.ltb_spec a 0), (Z.ltb_spec (20 * a) 0); try reflexivity; lia.
  - destruct (threshold_product false p a ltac:(lia)) as [M [E [Hx Hc]]].
    rewrite Hx. exists (S754_finite false M E). split; [reflexivity | exact Hc].
  - destruct (threshold_product true p a ltac:(lia)) as [M [E [Hx Hc]]].
    rewrite Hx. exists (S754_finite true M E). split; [reflexivity|].
    rewrite Hc. cbn [cond_Zopp]. reflexivity.
Qed.

(** * The Read Aggregator: [getAmpliconCounts] *)

Lemma meets_threshold_iff (r : AlignmentRecord) :
  meets_threshold r <-> 19 * ampliconLength r <= 20 * alignedLength r.
Proof.
  unfold meets_threshold, F, Qle, Qmult, inject_Z. cbn [Qnum Qden]. lia.
Qed.

Ltac split_binds H :=
  unfold bind in H;
  repeat match type of H with
         | context [match ?c with Return _ => _ | Raise _ => _ end] =>
             destruct c eqn:?; try discriminate H
         end.

(** On a well-formed line the body of the loop is the two filters followed
    by the lookup. *)
Lemma count_row_parsed (amplicons : sdict Z) (l : string) (r : AlignmentRecord) :
  parse_row l = Return r ->
  count_row amplicons l
  = if negb (paired r =? 1) then Return amplicons else
      x <- float_of_int (ampliconLength r) ;;
      if int_lt_float (alignedLength r) (float_mul Alignment_Length_Threshold x)
      then Return amplicons
      else if negb (dict_mem String.eqb amplicons (amplicon r))
           then Raise (SystemExit 1)
           else n <- dict_getitem String.eqb amplicons (amplicon r) ;;
                Return (dict_set String.eqb amplicons (amplicon r) (n + 1)).
Proof.
  intros H. unfold parse_row in H. split_binds H.
  injection H as <-. unfold count_row, alignedLength, ampliconLength.
  cbn [paired rStart rEnd aStart aEnd amplicon].
  repeat match goal with
         | E : _ = Return _ |- _ => rewrite E; clear E; cbn [bind]
         end.
  reflexivity.
Qed.

Lemma count_row_spec (amplicons : sdict Z) (l : string) (r : AlignmentRecord) :
  parse_row l = Return r ->
  Z.abs (ampliconLength r) < 2 ^ 48 ->
  count_row amplicons l
  = if (paired r =? 1) && (19 * ampliconLength r <=? 20 * alignedLength r)
    then match dict_get String.eqb amplicons (amplicon r) with
         | Some n => Return (dict_set String.eqb amplicons (amplicon r) (n + 1))
         | None => Raise (SystemExit 1)
         end
    else Return amplicons.
Proof.
  intros Hp Hb. rewrite (count_row_parsed _ _ _ Hp).
  destruct (paired r =? 1); cbn [negb andb]; [|reflexivity].
  destruct (threshold_exact (alignedLength r) (ampliconLength r) Hb) as [x [Hx Hc]].
  rewrite Hx. cbn [bind]. rewrite Hc.
  destruct (Z.ltb_spec (20 * alignedLength r) (19 * ampliconLength r)) as [Hlt|Hge];
    destruct (Z.leb_spec (19 * ampliconLength r) (20 * alignedLength r)); try lia;
    [reflexivity|].
  unfold dict_mem, dict_getitem.
  destruct (dict_get String.eqb amplicons (amplicon r)); reflexivity.
Qed.

(** Whatever the line, the body of the loop returns the dict unchanged or
    with the count of one of its keys incremented by 1. *)
Lemma count_row_cases (amplicons amplicons' : sdict Z) (l : string) :
  count_row amplicons l = Return amplicons' ->
  amplicons' = amplicons
  \/ exists k n, dict_get String.eqb amplicons k = Some n
       /\ amplicons' = dict_set String.eqb amplicons k (n + 1).
Proof.
  intros H. unfold count_row in H. unfold bind in H.
  repeat match type of H with
         | context [match ?c with Return _ => _ | Raise _ => _ end] =>
             destruct c eqn:?; try discriminate H
         | context [if ?c then _ else _] =>
             destruct c eqn:?; try discriminate H
         end;
    try (injection H as <-; now left).
  injection H as <-. right.
  match goal with
  | E : dict_getitem _ _ ?k = Return ?n |- _ =>
      exists k, n; split; [|reflexivity];
      unfold dict_getitem in E;
      destruct (dict_get String.eqb amplicons k); [now injection E as -> | discriminate]
  end.
Qed.

Lemma dict_get_keys (d : sdict Z) (k : string) (n : Z) :
  dict_get String.eqb d k = Some n -> In k (dict_keys d).
Proof.
  intros H. apply (dict_mem_In _ String.eqb_eq). unfold dict_mem. now rewrite H.
Qed.

Lemma count_row_keys (amplicons amplicons' : sdict Z) (l : string) :
  count_row amplicons l = Return amplicons' ->
  dict_keys amplicons' = dict_keys amplicons.
Proof.
  intros H. destruct (count_row_cases _ _ _ H) as [->|[k [n [Hk ->]]]]; [reflexivity|].
  apply (dict_keys_set_present _ String.eqb_eq). eapply dict_get_keys; eassumption.
Qed.

Lemma count_rows_keys (lines : list string) : forall amplicons : sdict Z,
  dict_keys (fst (count_rows amplicons lines)) = dict_keys amplicons.
Proof.
  induction lines as [|l lines IH]; intros amplicons; cbn [count_rows]; [reflexivity|].
  destruct (count_row amplicons l) as [a'|e] eqn:E; [|reflexivity].
  rewrite IH. eapply count_row_keys; eassumption.
Qed.

(** The dict the aggregator leaves behind, whatever the outcome. *)
Lemma getAmpliconCounts_state (fs : FileSystem) (amplicons : sdict Z) (path : string) :
  fst (getAmpliconCounts fs amplicons path)
  = match open_lines fs path with
    | Return (lines, _) => fst (count_rows amplicons (tl lines))
    | Raise _ => amplicons
    end.
Proof.
  unfold getAmpliconCounts. destruct (open_lines fs path) as [[lines err]|e];
    [|reflexivity].
  now destruct (count_rows amplicons (tl lines)) as [a [e|]].
Qed.

(** The aggregator returns when the file is read to its end and no line
    raises. *)
Lemma getAmpliconCounts_returns (fs : FileSystem) (amplicons final : sdict Z)
  (path : string) :
  getAmpliconCounts fs amplicons path = (final, None)
  <-> exists lines, open_lines fs path = Return (lines, None)
        /\ count_rows amplicons (tl lines) = (final, None).
Proof.
  unfold getAmpliconCounts. split.
  - destruct (open_lines fs path) as [[lines err]|e]; [|discriminate].
    destruct (count_rows amplicons (tl lines)) as [a [e|]] eqn:E; [discriminate|].
    intros [= -> ->]. now exists lines.
  - intros (lines & -> & ->). reflexivity.
Qed.

Lemma getAmpliconCounts_keys (fs : FileSystem) (amplicons : sdict Z) (path : string) :
  dict_keys (fst (getAmpliconCounts fs amplicons path)) = dict_keys amplicons.
Proof.
  rewrite getAmpliconCounts_state. destruct (open_lines fs path) as [[lines err]|e];
    [|reflexivity].
  apply count_rows_keys.
Qed.

(** Processing a report is processing a prefix and then the rest. *)
Lemma count_rows_app (l1 l2 : list string) : forall amplicons : sdict Z,
  count_rows amplicons (l1 ++ l2)
  = match count_rows amplicons l1 with
    | (a, None) => count_rows a l2
    | (a, Some e) => (a, Some e)
    end.
Proof.
  induction l1 as [|l l1 IH]; intros amplicons; cbn [count_rows app]; [reflexivity|].
  destruct (count_row amplicons l); [apply IH | reflexivity].
Qed.

(** Incrementing a count changes the dict. *)
Lemma count_changes (d : sdict Z) (k : string) (n : Z) :
  dict_get String.eqb d k = Some n ->
  Return d <> Return (dict_set String.eqb d k (n + 1)).
Proof.
  intros Hn H. injection H as H.
  apply (f_equal (fun d => dict_get String.eqb d k)) in H.
  rewrite (dict_get_set_same _ String.eqb_eq), Hn in H.
  injection H as H. lia.
Qed.

(** The two filters decide what the body of the loop does with a
    well-formed line. *)
Lemma filters_decide (amplicons : sdict Z) (l : string) (r : AlignmentRecord) :
  parse_row l = Return r ->
  Z.abs (ampliconLength r) < 2 ^ 48 ->
  (forall n, dict_get String.eqb amplicons (amplicon r) = Some n ->
     passes_filters r ->
     count_row amplicons l
     = Return (dict_set String.eqb amplicons (amplicon r) (n + 1)))
  /\ (~ passes_filters r -> count_row amplicons l = Return amplicons).
Proof.
  intros Hp Hb. rewrite (count_row_spec _ _ _ Hp Hb).
  unfold passes_filters. pose proof (meets_threshold_iff r) as Hm.
  destruct (Z.eqb_spec (paired r) 1) as [E|E];
    destruct (Z.leb_spec (19 * ampliconLength r) (20 * alignedLength r)) as [L|L];
    cbn [andb]; (split; [intros n Hn [H1 H2]; apply Hm in H2 | intros Hn]);
    try reflexivity; try lia.
  - now rewrite Hn.
  - exfalso. apply Hn. split; tauto.
Qed.

(** * The stats table *)

Section FoldSet.
Context {K V A : Type}.
Variable eqb : K -> K -> bool.
Hypothesis eqb_eq : forall a b, eqb a b = true <-> a = b.
Variables (fk : A -> K) (fv : A -> V).

Lemma fold_set_keys (l : list A) : forall (d : list (K * V)) (k : K),
  In k (dict_keys (fold_left (fun d x => dict_set eqb d (fk x) (fv x)) l d))
  <-> In k (dict_keys d) \/ In k (map fk l).
Proof.
  induction l as [|x l IH]; intros d k; cbn [fold_left map In]; [tauto|].
  rewrite IH, (dict_keys_set_In _ eqb_eq). intuition.
Qed.

Lemma fold_set_get_other (l : list A) : forall (d : list (K * V)) (k : K),
  ~ In k (map fk l) ->
  dict_get eqb (fold_left (fun d x => dict_set eqb d (fk x) (fv x)) l d) k
  = dict_get eqb d k.
Proof.
  induction l as [|x l IH]; intros d k H; cbn [fold_left]; [reflexivity|].
  cbn [map In] in H. rewrite IH by tauto.
  apply (dict_get_set_other _ eqb_eq). intros ->. tauto.
Qed.

Lemma fold_set_NoDup (l : list A) : forall d : list (K * V),
  NoDup (dict_keys d) ->
  NoDup (dict_keys (fold_left (fun d x => dict_set eqb d (fk x) (fv x)) l d)).
Proof.
  induction l as [|x l IH]; intros d H; cbn [fold_left]; [assumption|].
  apply IH. now apply (dict_set_NoDup _ eqb_eq).
Qed.

(** The loop of [getVCFreportInfo]: every entry but the one of key [x0]. *)
Lemma fold_filter_keys (x0 : K) (l : list A) : forall (d : list (K * V)) (k : K),
  In k (dict_keys
          (fold_left (fun d x => if negb (eqb (fk x) x0)
                                 then dict_set eqb d (fk x) (fv x) else d) l d))
  <-> In k (dict_keys d) \/ (In k (map fk l) /\ k <> x0).
Proof.
  induction l as [|x l IH]; intros d k; cbn [fold_left map In]; [tauto|].
  rewrite IH. destruct (eqb (fk x) x0) eqn:E; cbn [negb].
  - apply eqb_eq in E. split; [tauto|]. intros [H|[[H|H] Hne]]; auto.
    congruence.
  - rewrite (dict_keys_set_In _ eqb_eq).
    assert (fk x <> x0) by (intros Hc; apply eqb_eq in Hc; congruence).
    split.
    + intros [[H1|H1]|[H1 H2]]; auto.
      subst k. right. split; [now left | assumption].
    + intros [H1|[[H1|H1] Hne]]; auto.
Qed.
End FoldSet.

Lemma map_fst_combine {A B : Type} (l1 : list A) : forall l2 : list B,
  map fst (combine l1 l2) = firstn (List.length l2) l1.
Proof.
  induction l1 as [|a l1 IH]; intros [|b l2]; cbn; try reflexivity.
  now rewrite IH.
Qed.

(** The keys of the dict of a row: every field name, and [None] when the
    row has more fields than there are names. *)
Lemma DictReader_row_keys (fieldnames row : list string) (k : pykey) :
  In k (dict_keys (DictReader_row fieldnames row))
  <-> (exists c, k = KeyStr c /\ In c fieldnames)
      \/ (k = KeyNone /\ (List.length fieldnames < List.length row)%nat).
Proof.
  unfold DictReader_row.
  set (d0 := fold_left _ (combine fieldnames row) []).
  assert (Hd0 : forall k, In k (dict_keys d0)
                  <-> exists c, k = KeyStr c
                        /\ In c (firstn (List.length row) fieldnames)).
  { intros k0. subst d0.
    rewrite (fold_set_keys pykey_eqb pykey_eqb_eq
               (fun kv : string * string => KeyStr (fst kv))
               (fun kv => PyStr (snd kv))).
    cbn [dict_keys map In]. rewrite <- (map_fst_combine fieldnames row).
    rewrite <- (map_map fst KeyStr), in_map_iff.
    split.
    - intros [Hf|Hc]; [destruct Hf|]. destruct Hc as [c [<- Hc]]. now exists c.
    - intros [c [-> Hc]]. right. now exists c. }
  destruct (Nat.ltb_spec (List.length fieldnames) (List.length row)) as [Hlt|Hge].
  - rewrite (dict_keys_set_In _ pykey_eqb_eq), Hd0.
    rewrite firstn_all2 by lia. split.
    + intros [H | ->]; [now left | right; now split].
    + intros [H|[-> _]]; [now left | now right].
  - destruct (Nat.ltb_spec (List.length row) (List.length fieldnames)) as [Hlt|Hge'].
    + rewrite (fold_set_keys pykey_eqb pykey_eqb_eq KeyStr (fun _ => PyNone)).
      rewrite Hd0, in_map_iff. split.
      * intros [[c [-> Hc]]|[c [<- Hc]]]; left; exists c; split; auto.
        -- rewrite <- (firstn_skipn (List.length row) fieldnames).
           apply in_app_iff. now left.
        -- rewrite <- (firstn_skipn (List.length row) fieldnames).
           apply in_app_iff. now right.
      * intros [[c [-> Hc]]|[_ Hl]]; [|lia].
        rewrite <- (firstn_skipn (List.length row) fieldnames) in Hc.
        apply in_app_iff in Hc. destruct Hc as [Hc|Hc].
        -- left. now exists c.
        -- right. now exists c.
    + rewrite Hd0, firstn_all2 by lia. split; [now left|].
      intros [H|[_ Hl]]; [assumption | lia].
Qed.

Lemma getVCFreportInfo_inv (fs : FileSystem) (path : string) (info : pydict) :
  getVCFreportInfo fs path = Return info ->
  exists fieldnames rows row rest,
    csv_reader fs path = Return (fieldnames :: rows)
    /\ skip_blank_rows rows = row :: rest
    /\ forall k, In k (dict_keys info)
         <-> In k (dict_keys (DictReader_row fieldnames row))
             /\ k <> KeyStr "input VCF file".
Proof.
  unfold getVCFreportInfo, DictReader_next. intros H.
  destruct (csv_reader fs path) as [[|fieldnames rows]|e]; try discriminate H.
  cbn [bind] in H.
  destruct (skip_blank_rows rows) as [|row rest] eqn:E; try discriminate H.
  cbn [bind] in H. injection H as <-.
  exists fieldnames, rows, row, rest.
  split; [reflexivity|]. split; [exact E|]. intros k.
  rewrite (fold_filter_keys pykey_eqb pykey_eqb_eq fst snd).
  cbn [dict_keys map In]. unfold dict_keys. tauto.
Qed.

Definition base_stats (t : Tally) : pydict :=
  [(KeyStr "# mapped reads", PyInt (readCount t));
   (KeyStr "# low cov. amplicons", PyInt (dropouts t))].

Lemma build_stats_without_vcf (fs : FileSystem) (args : Args) (t : Tally) :
  truthy (vcf_report args) = false ->
  build_stats fs args t = Return (base_stats t).
Proof. intros H. unfold build_stats. rewrite H. reflexivity. Qed.

Lemma build_stats_with_vcf (fs : FileSystem) (args : Args) (t : Tally)
  (stats : pydict) :
  truthy (vcf_report args) = true ->
  build_stats fs args t = Return stats ->
  exists path info,
    vcf_report args = Some path
    /\ getVCFreportInfo fs path = Return info
    /\ stats = fold_left (fun d kv => dict_set pykey_eqb d (fst kv) (snd kv))
                 info (base_stats t).
Proof.
  intros Ht H. unfold build_stats in H. rewrite Ht in H.
  destruct (vcf_report args) as [path|] eqn:E; [|discriminate Ht].
  destruct (getVCFreportInfo fs path) as [info|e] eqn:Ei; [|discriminate H].
  cbn [bind] in H. injection H as <-.
  exists path, info. repeat split; auto.
Qed.

(** A run that completes went through its four stages and wrote the two
    documents. *)
Lemma run_completes (fs : FileSystem) (args : Args)
  (files : list (string * Document)) :
  run fs args = (files, None) ->
  exists amplicons amplicon_counts t stats,
    getSchemeAmplicons fs (scheme args) = Return amplicons
    /\ getAmpliconCounts fs amplicons (align_report args) = (amplicon_counts, None)
    /\ classify (min_depth args) amplicon_counts = Return t
    /\ build_stats fs args t = Return stats
    /\ files
       = [((sample args ++ ".amplicon_plot_data_mqc.json")%string,
           PlotDocument
             (GetPlotDataTemplate (min_depth args) (sample args)
                (amplicon_renamed_counts t)));
          ((sample args ++ ".amplicon_stats_data_mqc.json")%string,
           StatsDocument (GetStatsTemplate (sample args) stats))].
Proof.
  unfold run. intros H.
  destruct (getSchemeAmplicons fs (scheme args)) as [amplicons|e] eqn:E1;
    [|discriminate H].
  destruct (getAmpliconCounts fs amplicons (align_report args)) as [counts [e|]] eqn:E2;
    [discriminate H|].
  destruct (classify (min_depth args) counts) as [t|e] eqn:E3; [|discriminate H].
  cbn [fst] in H.
  destruct (write_error fs _) as [e|]; [discriminate H|].
  destruct (build_stats fs args t) as [stats|e] eqn:E4; [|discriminate H].
  destruct (write_error fs _) as [e|]; [discriminate H|].
  injection H as <-. exists amplicons, counts, t, stats.
  split; [reflexivity|]. split; [exact E2|]. split; [exact E3|].
  split; [exact E4 | reflexivity].
Qed.

Lemma classify_spec (md : Z) (counts : sdict Z) (t : Tally) :
  classify md counts = Return t ->
  readCount t = sum_counts counts
  /\ dropouts t = low_coverage md counts
  /\ exists items, ordinals counts = Return items
       /\ amplicon_renamed_counts t = renumber [] items.
Proof.
  unfold classify. intros H. apply tally_loop_spec in H.
  cbn [readCount dropouts amplicon_renamed_counts] in H.
  destruct H as [Hr [Hd He]]. repeat split; try lia. exact He.
Qed.

(** * Renumbering *)

Lemma ordinals_Forall2 (counts : sdict Z) : forall items,
  ordinals counts = Return items ->
  Forall2 (fun kv nc => ordinal_of (fst kv) = Return (fst nc) /\ snd kv = snd nc)
    counts items.
Proof.
  induction counts as [|[k c] counts IH]; intros items H; cbn [ordinals] in H.
  - injection H as <-. constructor.
  - destruct (ordinal_of k) as [n|e] eqn:E; [|discriminate H]. cbn [bind] in H.
    destruct (ordinals counts) as [rest|e]; [|discriminate H]. cbn [bind] in H.
    injection H as <-. constructor; [now split | now apply IH].
Qed.

Lemma Forall2_In_l {A B : Type} (R : A -> B -> Prop) (l1 : list A) (l2 : list B) :
  Forall2 R l1 l2 -> forall x, In x l1 -> exists y, In y l2 /\ R x y.
Proof.
  induction 1 as [|a b l1 l2 Hab _ IH]; intros x Hx; [destruct Hx|].
  destruct Hx as [->|Hx].
  - exists b. split; [now left | assumption].
  - destruct (IH x Hx) as [y [Hy Hr]]. exists y. split; [now right | assumption].
Qed.

Lemma Forall2_In_r {A B : Type} (R : A -> B -> Prop) (l1 : list A) (l2 : list B) :
  Forall2 R l1 l2 -> forall y, In y l2 -> exists x, In x l1 /\ R x y.
Proof.
  induction 1 as [|a b l1 l2 Hab _ IH]; intros y Hy; [destruct Hy|].
  destruct Hy as [->|Hy].
  - exists a. split; [now left | assumption].
  - destruct (IH y Hy) as [x [Hx Hr]]. exists x. split; [now right | assumption].
Qed.

(** Entries with fresh, pairwise distinct keys are appended in order. *)
Lemma renumber_fresh (items : list (Z * Z)) : forall renamed : list (Z * Z),
  NoDup (map fst items) ->
  (forall n, In n (map fst items) -> ~ In n (dict_keys renamed)) ->
  renumber renamed items = renamed ++ items.
Proof.
  unfold renumber.
  induction items as [|[n c] items IH]; intros renamed Hnd Hfresh; cbn [fold_left].
  - now rewrite app_nil_r.
  - cbn [map fst] in Hnd. inversion Hnd as [|? ? Hn Hd]; subst.
    cbn [fst snd].
    rewrite (dict_set_absent _ Z.eqb_eq) by (apply Hfresh; now left).
    rewrite IH; [now rewrite <- app_assoc | assumption |].
    intros m Hm. unfold dict_keys. rewrite map_app, in_app_iff. cbn [map fst In].
    intros [Hin|[Heq|Hf]]; [|congruence | exact Hf].
    apply (Hfresh m); [now right | exact Hin].
Qed.

(** The renumbered dict never has more entries than there are amplicons. *)
Lemma dict_set_length_le {K V : Type} (eqb : K -> K -> bool) (d : list (K * V)) k v :
  (List.length (dict_set eqb d k v) <= S (List.length d))%nat.
Proof.
  induction d as [|[k0 v0] d IH]; cbn [dict_set List.length]; [lia|].
  destruct (eqb k0 k); cbn [List.length]; lia.
Qed.

Lemma renumber_length_le (items : list (Z * Z)) : forall renamed : list (Z * Z),
  (List.length (renumber renamed items) <= List.length renamed + List.length items)%nat.
Proof.
  unfold renumber.
  induction items as [|[n c] items IH]; intros renamed; cbn [fold_left List.length]; [lia|].
  specialize (IH (dict_set Z.eqb renamed (fst (n, c)) (snd (n, c)))).
  pose proof (dict_set_length_le Z.eqb renamed (fst (n, c)) (snd (n, c))). lia.
Qed.

Lemma ordinals_NoDup (counts : sdict Z) (items : list (Z * Z)) :
  ordinals counts = Return items ->
  NoDup (dict_keys counts) ->
  (forall k1 k2, In k1 (dict_keys counts) -> In k2 (dict_keys counts) ->
                 ordinal_of k1 = ordinal_of k2 -> k1 = k2) ->
  NoDup (map fst items).
Proof.
  intros H. apply ordinals_Forall2 in H.
  induction H as [|kv nc counts items [Ho Hc] HF IH]; intros Hnd Hinj; [constructor|].
  cbn [dict_keys map] in Hnd. inversion Hnd as [|? ? Hn Hd]; subst.
  cbn [map]. constructor.
  - intros Hin. apply in_map_iff in Hin. destruct Hin as [nc' [Heq Hin]].
    destruct (Forall2_In_r _ _ _ HF nc' Hin) as [kv' [Hkv' [Ho' _]]].
    apply Hn. replace (fst kv) with (fst kv'); [now apply in_map|].
    apply Hinj.
    + right. now apply in_map.
    + now left.
    + congruence.
  - apply IH; [assumption|].
    intros k1 k2 H1 H2. apply Hinj; now right.
Qed.

(** * Names without an ordinal *)

Lemma has_char_append (c : ascii) (a b : string) :
  has_char c (a ++ b) = has_char c a || has_char c b.
Proof.
  induction a as [|x a IH]; cbn [append has_char]; [reflexivity|].
  now rewrite IH, orb_assoc.
Qed.

Lemma second_segment_Some (s : string) :
  has_char "_" s = true -> exists token, second_segment s = Some token.
Proof.
  intros H. destruct (has_char_split s H) as [a [rest [-> Ha]]].
  unfold second_segment, Str.split. rewrite split_go_segment by assumption.
  pose proof (split_go_nonempty "_" rest 0 EmptyString) as Hne.
  destruct (Str.split_go "_" 0 EmptyString rest) as [|token l]; [congruence|].
  now exists token.
Qed.

Lemma int_raises_ValueError (s : string) (e : exn) :
  Str.int s = Raise e -> e = ValueError.
Proof.
  unfold Str.int.
  match goal with |- match ?p with _ => _ end = _ -> _ => destruct p end;
    [discriminate | now intros [= <-]].
Qed.

(** An amplicon name of the resolver has a second segment, so the only
    exception its ordinal can raise is that of [int]. *)
Lemma ordinal_of_name_raises (b : string) (e : exn) :
  ordinal_of (amplicon_name b) = Raise e -> e = ValueError.
Proof.
  unfold ordinal_of, subscript.
  assert (H : has_char "_" (amplicon_name b) = true).
  { unfold amplicon_name. rewrite !has_char_append. cbn. now rewrite orb_true_r. }
  destruct (second_segment_Some _ H) as [token Ht]. unfold second_segment in Ht.
  rewrite Ht. cbn [bind]. apply int_raises_ValueError.
Qed.

Lemma ordinal_of_plain (b : string) :
  has_char "_" b = false -> ordinal_of (amplicon_name b) = Raise ValueError.
Proof.
  intros H. unfold ordinal_of, subscript.
  pose proof (second_segment_name_plain b H) as Hs. unfold second_segment in Hs.
  rewrite Hs. reflexivity.
Qed.

Lemma forallb_false_exists {A : Type} (f : A -> bool) (l : list A) :
  forallb f l = false -> exists x, In x l /\ f x = false.
Proof.
  induction l as [|a l IH]; cbn [forallb]; [discriminate|].
  destruct (f a) eqn:E; cbn [andb].
  - intros H. destruct (IH H) as [x [Hx Hf]]. exists x. split; [now right | assumption].
  - intros _. exists a. split; [now left | assumption].
Qed.

(** What a successful resolution tells about the scheme. *)
Lemma getSchemeAmplicons_inv (fs : FileSystem) (schemeFile : string) (m : sdict Z) :
  getSchemeAmplicons fs schemeFile = Return m ->
  exists ps, read_bed_file fs schemeFile = Return ps
    /\ (forall b, In b (bases ps) -> primer_count ps b = 2%nat)
    /\ m = map (fun b => (amplicon_name b, 0))
             (dict_keys (fold_left dict_incr (bases ps) [])).
Proof.
  intros H. destruct (read_bed_file fs schemeFile) as [ps|e] eqn:Hread.
  - exists ps. split; [reflexivity|].
    destruct (forallb (fun b => Nat.eqb (primer_count ps b) 2) (bases ps)) eqn:Hall.
    + assert (Hall' : forall b, In b (bases ps) -> primer_count ps b = 2%nat).
      { intros b Hb. apply Nat.eqb_eq. revert b Hb. now apply forallb_forall. }
      split; [exact Hall'|].
      rewrite (getSchemeAmplicons_ok _ _ _ Hread Hall') in H. now injection H as <-.
    + apply forallb_false_exists in Hall. destruct Hall as [b [Hb Hc]].
      apply Nat.eqb_neq in Hc.
      rewrite (getSchemeAmplicons_fail _ _ _ Hread) in H; [discriminate H|].
      now exists b.
  - unfold getSchemeAmplicons in H. rewrite Hread in H. discriminate H.
Qed.

Lemma resolver_keys_are_names (fs : FileSystem) (schemeFile : string) (m : sdict Z) :
  getSchemeAmplicons fs schemeFile = Return m ->
  forall k, In k (dict_keys m) -> exists b, k = amplicon_name b.
Proof.
  intros H k Hk. destruct (getSchemeAmplicons_inv _ _ _ H) as [ps [_ [_ ->]]].
  unfold dict_keys in Hk. rewrite map_map in Hk. cbn [fst] in Hk.
  apply in_map_iff in Hk. destruct Hk as [b [<- _]]. now exists b.
Qed.

(** * What [int] accepts *)

Lemma rev_acc_append (s : string) : forall acc : string,
  Str.rev_acc s acc = (Str.rev s ++ acc)%string.
Proof.
  unfold Str.rev. induction s as [|c s IH]; intros acc; cbn [Str.rev_acc]; [reflexivity|].
  rewrite (IH (String c acc)), (IH (String c EmptyString)), append_assoc.
  reflexivity.
Qed.

Lemma rev_cons (c : ascii) (s : string) :
  Str.rev (String c s) = (Str.rev s ++ String c EmptyString)%string.
Proof. unfold Str.rev at 1. cbn [Str.rev_acc]. apply rev_acc_append. Qed.

Lemma rev_append (a b : string) :
  Str.rev (a ++ b) = (Str.rev b ++ Str.rev a)%string.
Proof.
  induction a as [|c a IH]; cbn [append].
  - change (Str.rev EmptyString) with EmptyString. now rewrite append_empty_r.
  - now rewrite !rev_cons, IH, append_assoc.
Qed.

Lemma rev_involutive (s : string) : Str.rev (Str.rev s) = s.
Proof.
  induction s as [|c s IH]; [reflexivity|].
  rewrite rev_cons, rev_append, IH. reflexivity.
Qed.

Lemma all_chars_append (f : ascii -> bool) (a b : string) :
  all_chars f (a ++ b) = all_chars f a && all_chars f b.
Proof.
  induction a as [|c a IH]; cbn [append all_chars]; [reflexivity|].
  now rewrite IH, andb_assoc.
Qed.

Lemma all_chars_rev (f : ascii -> bool) (s : string) :
  all_chars f (Str.rev s) = all_chars f s.
Proof.
  induction s as [|c s IH]; [reflexivity|].
  rewrite rev_cons, all_chars_append, IH. cbn [all_chars].
  rewrite andb_true_r. apply andb_comm.
Qed.

Lemma lstrip_by_split (f : ascii -> bool) (s : string) :
  exists pre, s = (pre ++ Str.lstrip_by f s)%string /\ all_chars f pre = true.
Proof.
  induction s as [|c s [pre [E Hpre]]]; cbn [Str.lstrip_by].
  - now exists EmptyString.
  - destruct (f c) eqn:Ec.
    + exists (String c pre). cbn [append all_chars]. rewrite <- E, Ec, Hpre. now split.
    + now exists EmptyString.
Qed.

Lemma rstrip_by_split (f : ascii -> bool) (s : string) :
  exists post, s = (Str.rstrip_by f s ++ post)%string /\ all_chars f post = true.
Proof.
  unfold Str.rstrip_by. destruct (lstrip_by_split f (Str.rev s)) as [pre [E Hpre]].
  exists (Str.rev pre). split; [|now rewrite all_chars_rev].
  rewrite <- rev_append, <- E. symmetry. apply rev_involutive.
Qed.

Lemma parse_digits_plain (s : string) : forall (prev : bool) (acc z : Z),
  Str.parse_digits prev acc s = Some z ->
  has_char "_" s = false ->
  all_chars Str.isdigit s = true /\ (s = EmptyString -> prev = true).
Proof.
  induction s as [|c s IH]; intros prev acc z H Hu; cbn [Str.parse_digits] in H.
  - split; [reflexivity|]. intros _. now destruct prev.
  - cbn [has_char] in Hu. apply orb_false_iff in Hu. destruct Hu as [Hc Hs].
    cbn [all_chars]. destruct (Str.isdigit c).
    + destruct (IH _ _ _ H Hs) as [Hd _]. rewrite Hd. split; [reflexivity | discriminate].
    + rewrite Hc in H. discriminate H.
Qed.

Lemma int_unfold (s : string) :
  Str.int s
  = match
      match Str.rstrip_by Str.isspace_int (Str.lstrip_by Str.isspace_int s) with
      | EmptyString => None
      | String c t' =>
          if Ascii.eqb c "+" then Str.parse_digits false 0 t'
          else if Ascii.eqb c "-" then option_map Z.opp (Str.parse_digits false 0 t')
          else Str.parse_digits false 0 (String c t')
      end
    with
    | Some z => Return z
    | None => Raise ValueError
    end.
Proof.
  unfold Str.int.
  destruct (Str.rstrip_by Str.isspace_int (Str.lstrip_by Str.isspace_int s))
    as [|c t']; [reflexivity|].
  destruct c as [[] [] [] [] [] [] [] []]; reflexivity.
Qed.

(** Without underscore, what [int] accepts is a decimal integer. *)
Lemma int_accepts_decimal (s : string) (z : Z) :
  Str.int s = Return z -> has_char "_" s = false -> decimal_integer s.
Proof.
  intros H Hu. rewrite int_unfold in H.
  destruct (lstrip_by_split Str.isspace_int s) as [pre [E1 Hpre]].
  destruct (rstrip_by_split Str.isspace_int (Str.lstrip_by Str.isspace_int s))
    as [post [E2 Hpost]].
  set (t := Str.rstrip_by Str.isspace_int (Str.lstrip_by Str.isspace_int s)) in *.
  assert (Es : s = (pre ++ t ++ post)%string) by (rewrite <- E2; exact E1).
  assert (Ht : has_char "_" t = false).
  { rewrite Es, !has_char_append in Hu.
    apply orb_false_iff in Hu. destruct Hu as [_ Hu].
    apply orb_false_iff in Hu. tauto. }
  clearbody t. clear E1 E2.
  destruct t as [|c t']; [discriminate H|].
  cbn [has_char] in Ht. apply orb_false_iff in Ht. destruct Ht as [Hc Ht'].
  destruct (Ascii.eqb c "+") eqn:Eplus; [|destruct (Ascii.eqb c "-") eqn:Eminus].
  - apply Ascii.eqb_eq in Eplus. subst c.
    destruct (Str.parse_digits false 0 t') as [z'|] eqn:Ep; [|discriminate H].
    destruct (parse_digits_plain _ _ _ _ Ep Ht') as [Hd Hne].
    exists pre, "+"%string, t', post. repeat split; auto.
    intros ->. specialize (Hne eq_refl). discriminate Hne.
  - apply Ascii.eqb_eq in Eminus. subst c.
    destruct (Str.parse_digits false 0 t') as [z'|] eqn:Ep; [|discriminate H].
    destruct (parse_digits_plain _ _ _ _ Ep Ht') as [Hd Hne].
    exists pre, "-"%string, t', post. repeat split; auto.
    intros ->. specialize (Hne eq_refl). discriminate Hne.
  - destruct (Str.parse_digits false 0 (String c t')) as [z'|] eqn:Ep; [|discriminate H].
    assert (Hu' : has_char "_" (String c t') = false).
    { cbn [has_char]. now rewrite Hc, Ht'. }
    destruct (parse_digits_plain _ _ _ _ Ep Hu') as [Hd _].
    exists pre, EmptyString, (String c t'), post. repeat split; auto.
    discriminate.
Qed.

(** The pieces of a split at underscores hold no underscore. *)
Lemma split_go_pieces_plain (s : string) : forall (cur token : string),
  has_char "_" cur = false ->
  In token (Str.split_go "_" 0 cur s) ->
  has_char "_" token = false.
Proof.
  induction s as [|c s IH]; intros cur token Hcur Hin.
  - cbn in Hin. destruct Hin as [<-|[]]. exact Hcur.
  - rewrite split_go_underscore_cons in Hin. destruct (Ascii.eqb c "_") eqn:Ec.
    + destruct Hin as [<-|Hin]; [exact Hcur|].
      now apply (IH EmptyString token).
    + apply (IH (cur ++ String c EmptyString)%string token); [|exact Hin].
      rewrite has_char_append, Hcur. cbn [has_char]. now rewrite Ec.
Qed.

Lemma second_segment_plain (s token : string) :
  second_segment s = Some token -> has_char "_" token = false.
Proof.
  unfold second_segment, Str.split. intros H. apply nth_error_In in H.
  now apply (split_go_pieces_plain s EmptyString token).
Qed.

(** * More on the resolver *)

Lemma existsb_eqb_In (x : string) (seen : list string) :
  existsb (String.eqb x) seen = true <-> In x seen.
Proof.
  rewrite existsb_exists. split.
  - intros [y [Hy E]]. apply String.eqb_eq in E. now subst.
  - intros H. exists x. split; [assumption | apply String.eqb_refl].
Qed.

Lemma unseen_ext (l : list string) : forall s1 s2 : list string,
  (forall y, In y s1 <-> In y s2) -> unseen s1 l = unseen s2 l.
Proof.
  induction l as [|x l IH]; intros s1 s2 H; cbn [unseen]; [reflexivity|].
  assert (E : existsb (String.eqb x) s1 = existsb (String.eqb x) s2).
  { destruct (existsb (String.eqb x) s1) eqn:E1; symmetry.
    - apply existsb_eqb_In. apply H. now apply existsb_eqb_In.
    - destruct (existsb (String.eqb x) s2) eqn:E2; [|reflexivity].
      apply existsb_eqb_In, H, existsb_eqb_In in E2. congruence. }
  rewrite E. destruct (existsb (String.eqb x) s2); [now apply IH|].
  f_equal. apply IH. intros y. cbn [In]. now rewrite H.
Qed.

(** The keys of the tally of a list: those there were, then the new ones
    in the order they are met. *)
Lemma keys_tally_order (l : list string) : forall d : sdict Z,
  dict_keys (fold_left dict_incr l d) = dict_keys d ++ unseen (dict_keys d) l.
Proof.
  induction l as [|x l IH]; intros d; cbn [fold_left unseen].
  - now rewrite app_nil_r.
  - rewrite IH. unfold dict_incr.
    destruct (existsb (String.eqb x) (dict_keys d)) eqn:E.
    + apply existsb_eqb_In in E.
      now rewrite (dict_keys_set_present _ String.eqb_eq) by assumption.
    + assert (Hn : ~ In x (dict_keys d)).
      { intros Hin. apply existsb_eqb_In in Hin. congruence. }
      rewrite (dict_keys_set_absent _ String.eqb_eq) by assumption.
      rewrite <- app_assoc. cbn [app]. do 2 f_equal.
      apply unseen_ext. intros y. rewrite in_app_iff. cbn [In]. tauto.
Qed.

Lemma unseen_In (l : list string) : forall (seen : list string) (x : string),
  In x (unseen seen l) <-> In x l /\ ~ In x seen.
Proof.
  induction l as [|y l IH]; intros seen x; cbn [unseen In]; [tauto|].
  destruct (existsb (String.eqb y) seen) eqn:E.
  - apply existsb_eqb_In in E. rewrite IH. split; [tauto|].
    intros [[->|H] Hn]; tauto.
  - assert (Hn : ~ In y seen) by (intros H; apply existsb_eqb_In in H; congruence).
    cbn [In]. rewrite IH. cbn [In]. split.
    + intros [->|[H1 H2]]; tauto.
    + intros [[->|H] Hs]; [now left|].
      destruct (string_dec y x) as [->|Hne]; [now left | right; tauto].
Qed.

Lemma unseen_NoDup (l : list string) : forall seen : list string,
  NoDup (unseen seen l).
Proof.
  induction l as [|y l IH]; intros seen; cbn [unseen]; [constructor|].
  destruct (existsb (String.eqb y) seen); [apply IH|].
  constructor; [|apply IH]. rewrite unseen_In. cbn [In]. tauto.
Qed.

(** ** Splitting at [_LEFT] and [_RIGHT] *)

Lemma prefix_cons (a c : ascii) (w y : string) :
  String.prefix (String a w) (String c y) = Ascii.eqb a c && String.prefix w y.
Proof.
  cbn [String.prefix]. destruct (ascii_dec a c) as [->|Hne].
  - now rewrite Ascii.eqb_refl.
  - apply Ascii.eqb_neq in Hne. now rewrite Hne.
Qed.

Lemma prefix_append_self (w rest : string) : String.prefix w (w ++ rest) = true.
Proof.
  induction w as [|a w IH]; cbn [append]; [now destruct rest|].
  now rewrite prefix_cons, Ascii.eqb_refl, IH.
Qed.

(** A word without underscore that is not a prefix of [x] is not a prefix
    of [x] followed by an underscore either. *)
Lemma prefix_plain_extend (w : string) : forall x tail : string,
  has_char "_" w = false ->
  String.prefix w x = false ->
  String.prefix w (x ++ String "_" tail) = false.
Proof.
  induction w as [|a w IH]; intros x tail Hw Hp.
  - now destruct x.
  - cbn [has_char] in Hw. apply orb_false_iff in Hw. destruct Hw as [Ha Hw].
    destruct x as [|d x]; cbn [append].
    + now rewrite prefix_cons, Ha.
    + rewrite prefix_cons in Hp |- *.
      destruct (Ascii.eqb a d); [|reflexivity]. cbn [andb] in Hp |- *.
      now apply IH.
Qed.

Section SplitAtSuffix.
Variable w : string.
Hypothesis w_plain : has_char "_" w = false.
Let sep := String "_" w.

Lemma split_go_first_piece (b : string) : forall cur rest : string,
  occurs sep b = false ->
  hd EmptyString (Str.split_go sep 0 cur (b ++ sep ++ rest)) = (cur ++ b)%string.
Proof.
  induction b as [|c b IH]; intros cur rest Ho.
  - cbn [append]. unfold sep at 2. cbn [append Str.split_go].
    change (String "_" (w ++ rest)) with (sep ++ rest)%string.
    rewrite prefix_append_self. cbn [hd]. now rewrite append_empty_r.
  - cbn [occurs] in Ho. apply orb_false_iff in Ho. destruct Ho as [Hp Ho].
    cbn [append Str.split_go].
    assert (Hp' : String.prefix sep (String c (b ++ sep ++ rest)) = false).
    { unfold sep in Hp |- *. rewrite prefix_cons in Hp |- *.
      destruct (Ascii.eqb "_" c); [|reflexivity]. cbn [andb] in Hp |- *.
      unfold sep. cbn [append]. now apply prefix_plain_extend. }
    rewrite Hp'. rewrite IH by assumption. now rewrite append_snoc.
Qed.

Lemma split_go_no_occurrence (s : string) : forall cur : string,
  occurs sep s = false ->
  Str.split_go sep 0 cur s = [(cur ++ s)%string].
Proof.
  induction s as [|c s IH]; intros cur Ho.
  - cbn. now rewrite append_empty_r.
  - cbn [occurs] in Ho. apply orb_false_iff in Ho. destruct Ho as [Hp Ho].
    cbn [Str.split_go]. rewrite Hp, IH by assumption. now rewrite append_snoc.
Qed.
End SplitAtSuffix.

(** * More on the aggregator *)

Lemma passes_filtersb_iff (r : AlignmentRecord) :
  passes_filtersb r = true <-> passes_filters r.
Proof.
  unfold passes_filtersb, passes_filters. rewrite meets_threshold_iff.
  rewrite andb_true_iff, Z.eqb_eq, Z.leb_le. tauto.
Qed.

Lemma count_row_well_formed (amplicons : sdict Z) (l : string) (r : AlignmentRecord) :
  parse_row l = Return r ->
  Z.abs (ampliconLength r) < 2 ^ 48 ->
  count_row amplicons l
  = if passes_filtersb r
    then match dict_get String.eqb amplicons (amplicon r) with
         | Some n => Return (dict_set String.eqb amplicons (amplicon r) (n + 1))
         | None => Raise (SystemExit 1)
         end
    else Return amplicons.
Proof. intros Hp Hb. now rewrite (count_row_spec _ _ _ Hp Hb). Qed.

Lemma sum_counts_incr (d : sdict Z) (k : string) (n : Z) :
  dict_get String.eqb d k = Some n ->
  sum_counts (dict_set String.eqb d k (n + 1)) = sum_counts d + 1.
Proof.
  unfold sum_counts, dict_values.
  induction d as [|[k0 v0] d IH]; cbn [dict_get dict_set]; [discriminate|].
  destruct (String.eqb k0 k); cbn [map snd fold_right].
  - intros [= ->]. lia.
  - intros H. rewrite (IH H). lia.
Qed.

(** The loop completes exactly when every line that passes the filters
    names a key. *)
Lemma count_rows_completes (lines : list string) : forall amplicons : sdict Z,
  Forall well_formed_row lines ->
  ((exists final, count_rows amplicons lines = (final, None))
   <-> forall l r, In l lines -> parse_row l = Return r -> passes_filters r ->
                   In (amplicon r) (dict_keys amplicons)).
Proof.
  induction lines as [|l lines IH]; intros a Hwf.
  - split; [intros _ l r [] | intros _; now exists a].
  - inversion Hwf as [|? ? [r [Hp Hb]] Hwf']; subst.
    cbn [count_rows]. rewrite (count_row_well_formed _ _ _ Hp Hb).
    destruct (passes_filtersb r) eqn:Ef.
    + destruct (dict_get String.eqb a (amplicon r)) as [n|] eqn:En.
      * rewrite (IH _ Hwf').
        rewrite (dict_keys_set_present _ String.eqb_eq)
          by (eapply dict_get_keys; eassumption).
        split.
        -- intros H l' r' [<-|Hin] Hp' Hf'; [|now apply (H l' r')].
           rewrite Hp in Hp'. injection Hp' as <-. eapply dict_get_keys; eassumption.
        -- intros H l' r' Hin. apply H. now right.
      * split; [intros [final Hf]; discriminate Hf|].
        intros H. exfalso.
        apply (dict_get_None _ String.eqb_eq) in En. apply En.
        apply (H l r); [now left | assumption | now apply passes_filtersb_iff].
    + rewrite (IH _ Hwf'). split.
      * intros H l' r' [<-|Hin] Hp' Hf'; [|now apply (H l' r')].
        rewrite Hp in Hp'. injection Hp' as <-.
        apply passes_filtersb_iff in Hf'. congruence.
      * intros H l' r' Hin. apply H. now right.
Qed.

(** The final count of a key: what it was, plus the lines that pass the
    filters and name it. *)
Lemma count_rows_per_key (lines : list string) :
  forall (amplicons final : sdict Z) (k : string) (n : Z),
  Forall well_formed_row lines ->
  count_rows amplicons lines = (final, None) ->
  dict_get String.eqb amplicons k = Some n ->
  dict_get String.eqb final k
  = Some (n + Z.of_nat (List.length (filter (counted_for k) lines))).
Proof.
  induction lines as [|l lines IH]; intros a final k n Hwf Hc Hk.
  - cbn in Hc. injection Hc as <-. cbn. rewrite Hk. f_equal. lia.
  - inversion Hwf as [|? ? [r [Hp Hb]] Hwf']; subst.
    cbn [count_rows] in Hc. rewrite (count_row_well_formed _ _ _ Hp Hb) in Hc.
    cbn [filter]. unfold counted_for at 1. rewrite Hp.
    destruct (passes_filtersb r) eqn:Ef; cbn [andb].
    + destruct (dict_get String.eqb a (amplicon r)) as [m|] eqn:Em; [|discriminate Hc].
      destruct (String.eqb_spec (amplicon r) k) as [E|E].
      * subst k. rewrite Hk in Em. injection Em as <-.
        rewrite (IH _ _ _ (n + 1) Hwf' Hc)
          by apply (dict_get_set_same _ String.eqb_eq).
        f_equal. cbn [List.length]. lia.
      * apply (IH _ _ _ n Hwf' Hc).
        rewrite (dict_get_set_other _ String.eqb_eq) by congruence. exact Hk.
    + now apply (IH _ _ _ n Hwf' Hc).
Qed.

Lemma count_rows_total (lines : list string) : forall amplicons final : sdict Z,
  Forall well_formed_row lines ->
  count_rows amplicons lines = (final, None) ->
  sum_counts final
  = sum_counts amplicons + Z.of_nat (List.length (filter counted lines)).
Proof.
  induction lines as [|l lines IH]; intros a final Hwf Hc.
  - cbn in Hc. injection Hc as <-. cbn. lia.
  - inversion Hwf as [|? ? [r [Hp Hb]] Hwf']; subst.
    cbn [count_rows] in Hc. rewrite (count_row_well_formed _ _ _ Hp Hb) in Hc.
    cbn [filter]. unfold counted at 1. rewrite Hp.
    destruct (passes_filtersb r) eqn:Ef.
    + destruct (dict_get String.eqb a (amplicon r)) as [m|] eqn:Em; [|discriminate Hc].
      rewrite (IH _ _ Hwf' Hc), (sum_counts_incr _ _ _ Em). cbn [List.length]. lia.
    + now apply IH.
Qed.

(** Where the loop stops. *)
Lemma count_rows_raise (lines : list string) :
  forall (amplicons final : sdict Z) (e : exn),
  count_rows amplicons lines = (final, Some e) ->
  exists before l after,
    lines = before ++ l :: after
    /\ count_rows amplicons before = (final, None)
    /\ count_row final l = Raise e.
Proof.
  induction lines as [|l lines IH]; intros a final e H; [discriminate H|].
  cbn [count_rows] in H. destruct (count_row a l) as [a'|e'] eqn:E.
  - destruct (IH _ _ _ H) as (before & l' & after & -> & Hb & Hl).
    exists (l :: before), l', after. split; [reflexivity|].
    split; [|exact Hl]. cbn [count_rows]. now rewrite E.
  - injection H as <- <-. exists [], l, lines. repeat split. exact E.
Qed.

Lemma subscript_raises {A : Type} (l : list A) (i : nat) (e : exn) :
  subscript l i = Raise e -> e = IndexError.
Proof.
  unfold subscript. destruct (nth_error l i); [discriminate | now intros [= <-]].
Qed.

Lemma float_of_int_raises (z : Z) (e : exn) :
  float_of_int z = Raise e -> e = OverflowError.
Proof.
  unfold float_of_int. destruct (binary_normalize prec emax z 0 false);
    try discriminate. now intros [= <-].
Qed.

(** The exceptions of the body of the loop. *)
Lemma count_row_raises (amplicons : sdict Z) (l : string) (e : exn) :
  count_row amplicons l = Raise e ->
  e = IndexError \/ e = ValueError \/ e = OverflowError \/ e = SystemExit 1.
Proof.
  intros H. unfold count_row in H. unfold bind in H.
  repeat match type of H with
         | context [match ?c with Return _ => _ | Raise _ => _ end] =>
             let E := fresh "E" in
             destruct c eqn:E;
             [| first [ injection H as <-;
                        first [ apply subscript_raises in E
                              | apply int_raises_ValueError in E
                              | apply float_of_int_raises in E
                              | idtac ];
                        try (subst; tauto)
                      | discriminate H ] ]
         | context [if ?c then _ else _] =>
             destruct c eqn:?; try discriminate H
         end;
    try discriminate H; try (injection H as <-; tauto).
  all: match goal with
       | E : dict_getitem _ _ _ = Raise _, M : negb (dict_mem _ _ _) = false |- _ =>
           unfold dict_getitem, dict_mem in E, M;
           destruct (dict_get String.eqb amplicons _); discriminate
       end.
Qed.

(** ** Short and blank lines *)

Lemma split_go_char_cons (a c : ascii) (s cur : string) :
  Str.split_go (String a EmptyString) 0 cur (String c s)
  = if Ascii.eqb c a then cur :: Str.split_go (String a EmptyString) 0 EmptyString s
    else Str.split_go (String a EmptyString) 0 (cur ++ String c EmptyString) s.
Proof.
  cbn [Str.split_go String.length Nat.pred]. rewrite prefix_cons.
  rewrite (Ascii.eqb_sym a c).
  destruct (Ascii.eqb c a); cbn [andb]; [now destruct s | reflexivity].
Qed.

(** Splitting at a character gives one piece more than there are
    occurrences of the character. *)
Lemma split_char_length (a : ascii) (s : string) : forall cur : string,
  List.length (Str.split_go (String a EmptyString) 0 cur s) = S (count_char a s).
Proof.
  induction s as [|c s IH]; intros cur; [reflexivity|].
  rewrite split_go_char_cons. cbn [count_char].
  destruct (Ascii.eqb c a); cbn [List.length]; now rewrite IH.
Qed.

Lemma lstrip_by_all (f : ascii -> bool) (s : string) :
  all_chars f s = true -> Str.lstrip_by f s = EmptyString.
Proof.
  induction s as [|c s IH]; cbn [all_chars Str.lstrip_by]; [reflexivity|].
  intros H. apply andb_true_iff in H. destruct H as [Hc Hs]. now rewrite Hc, IH.
Qed.

Lemma rstrip_blank (l : string) :
  all_chars Str.isspace l = true -> Str.rstrip l = EmptyString.
Proof.
  intros H. unfold Str.rstrip, Str.rstrip_by.
  rewrite lstrip_by_all by now rewrite all_chars_rev. reflexivity.
Qed.

Lemma count_row_short (amplicons : sdict Z) (l : string) :
  (count_char "009" (Str.rstrip l) < 12)%nat ->
  count_row amplicons l = Raise IndexError.
Proof.
  intros H. unfold count_row, subscript.
  assert (Hn : nth_error (Str.split (Str.rstrip l) TAB) 12 = None).
  { apply nth_error_None. unfold Str.split, TAB. rewrite split_char_length. lia. }
  now rewrite Hn.
Qed.

(** ** The order of the lines *)

Lemma dict_ext (d1 : sdict Z) : forall d2 : sdict Z,
  dict_keys d1 = dict_keys d2 ->
  NoDup (dict_keys d1) ->
  (forall k, In k (dict_keys d1) ->
             dict_get String.eqb d1 k = dict_get String.eqb d2 k) ->
  d1 = d2.
Proof.
  induction d1 as [|[k1 v1] d1 IH]; intros [|[k2 v2] d2] Hk Hnd Hg;
    try discriminate Hk; [reflexivity|].
  cbn [dict_keys map fst] in Hk. injection Hk as <- Hk.
  cbn [dict_keys map fst] in Hnd. inversion Hnd as [|? ? Hn Hd]; subst.
  pose proof (Hg k1 (or_introl eq_refl)) as H1. cbn [dict_get] in H1.
  rewrite String.eqb_refl in H1. injection H1 as <-.
  f_equal. apply IH; [exact Hk | exact Hd|].
  intros k Hin. specialize (Hg k (or_intror Hin)). cbn [dict_get] in Hg.
  destruct (String.eqb_spec k1 k) as [->|Hne]; [contradiction | exact Hg].
Qed.

Lemma filter_length_perm {A : Type} (f : A -> bool) (l1 l2 : list A) :
  Permutation l1 l2 -> List.length (filter f l1) = List.length (filter f l2).
Proof.
  induction 1 as [|x l1 l2 _ IH|x y l|l1 l2 l3 _ IH1 _ IH2]; cbn [filter].
  - reflexivity.
  - destruct (f x); cbn [List.length]; now rewrite IH.
  - destruct (f x), (f y); reflexivity.
  - congruence.
Qed.

Lemma count_rows_final_keys (lines : list string) (amplicons final : sdict Z) :
  count_rows amplicons lines = (final, None) ->
  dict_keys final = dict_keys amplicons.
Proof.
  intros H. pose proof (count_rows_keys lines amplicons) as Hk.
  now rewrite H in Hk.
Qed.

Lemma count_rows_permutation (lines lines' : list string) (amplicons final : sdict Z) :
  Permutation lines lines' ->
  Forall well_formed_row lines ->
  NoDup (dict_keys amplicons) ->
  count_rows amplicons lines = (final, None) ->
  count_rows amplicons lines' = (final, None).
Proof.
  intros Hperm Hwf Hnd Hc.
  assert (Hwf' : Forall well_formed_row lines').
  { apply Forall_forall. intros l Hl. rewrite Forall_forall in Hwf.
    apply Hwf. eapply Permutation_in; [apply Permutation_sym|]; eassumption. }
  assert (Hex : exists final', count_rows amplicons lines' = (final', None)).
  { apply (count_rows_completes lines' amplicons Hwf').
    intros l r Hl. 
    apply (proj1 (count_rows_completes lines amplicons Hwf)); [now exists final|].
    eapply Permutation_in; [apply Permutation_sym|]; eassumption. }
  destruct Hex as [final' Hc']. rewrite Hc'. f_equal.
  pose proof (count_rows_final_keys _ _ _ Hc) as Hk.
  pose proof (count_rows_final_keys _ _ _ Hc') as Hk'.
  apply dict_ext; [congruence | now rewrite Hk'|].
  intros k Hin. rewrite Hk' in Hin.
  destruct (dict_get String.eqb amplicons k) as [n|] eqn:En.
  - rewrite (count_rows_per_key _ _ _ _ _ Hwf' Hc' En).
    rewrite (count_rows_per_key _ _ _ _ _ Hwf Hc En).
    do 3 f_equal. apply filter_length_perm. now apply Permutation_sym.
  - apply (dict_get_None _ String.eqb_eq) in En. contradiction.
Qed.

(** * More on the stats table *)

Section FoldFresh.
Context {K V A : Type}.
Variable eqb : K -> K -> bool.
Hypothesis eqb_eq : forall a b, eqb a b = true <-> a = b.
Variables (fk : A -> K) (fv : A -> V).

Lemma fold_filter_fresh (x0 : K) (l : list A) : forall d : list (K * V),
  NoDup (map fk l) ->
  (forall x, In x l -> ~ In (fk x) (dict_keys d)) ->
  fold_left (fun d x => if negb (eqb (fk x) x0)
                        then dict_set eqb d (fk x) (fv x) else d) l d
  = d ++ map (fun x => (fk x, fv x)) (filter (fun x => negb (eqb (fk x) x0)) l).
Proof.
  induction l as [|x l IH]; intros d Hnd Hfresh; cbn [fold_left filter map].
  - now rewrite app_nil_r.
  - cbn [map] in Hnd. inversion Hnd as [|? ? Hn Hd]; subst.
    destruct (negb (eqb (fk x) x0)).
    + rewrite (dict_set_absent _ eqb_eq) by (apply Hfresh; now left).
      rewrite IH; [cbn [map]; now rewrite <- app_assoc | assumption|].
      intros y Hy. unfold dict_keys. rewrite map_app, in_app_iff. cbn [map fst In].
      intros [Hin|[Heq|Hf]]; [| |exact Hf].
      * apply (Hfresh y); [now right | exact Hin].
      * apply Hn. rewrite Heq. now apply in_map.
    + apply IH; [assumption|]. intros y Hy. apply Hfresh. now right.
Qed.

Lemma fold_set_fresh (l : list A) : forall d : list (K * V),
  NoDup (map fk l) ->
  (forall x, In x l -> ~ In (fk x) (dict_keys d)) ->
  fold_left (fun d x => dict_set eqb d (fk x) (fv x)) l d
  = d ++ map (fun x => (fk x, fv x)) l.
Proof.
  induction l as [|x l IH]; intros d Hnd Hfresh; cbn [fold_left map].
  - now rewrite app_nil_r.
  - cbn [map] in Hnd. inversion Hnd as [|? ? Hn Hd]; subst.
    rewrite (dict_set_absent _ eqb_eq) by (apply Hfresh; now left).
    rewrite IH; [now rewrite <- app_assoc | assumption|].
    intros y Hy. unfold dict_keys. rewrite map_app, in_app_iff. cbn [map fst In].
    intros [Hin|[Heq|Hf]]; [| |exact Hf].
    * apply (Hfresh y); [now right | exact Hin].
    * apply Hn. rewrite Heq. now apply in_map.
Qed.

(** With pairwise distinct keys, what was set is what is read. *)
Lemma fold_set_get_in (l : list A) : forall (d : list (K * V)) (x : A),
  NoDup (map fk l) -> In x l ->
  dict_get eqb (fold_left (fun d x => dict_set eqb d (fk x) (fv x)) l d) (fk x)
  = Some (fv x).
Proof.
  induction l as [|y l IH]; intros d x Hnd Hin; [destruct Hin|].
  cbn [map] in Hnd. inversion Hnd as [|? ? Hn Hd]; subst.
  cbn [fold_left]. destruct Hin as [->|Hin].
  - rewrite (fold_set_get_other _ eqb_eq) by exact Hn.
    apply (dict_get_set_same _ eqb_eq).
  - now apply IH.
Qed.
End FoldFresh.

Lemma KeyStr_NoDup (l : list string) : NoDup l -> NoDup (map KeyStr l).
Proof.
  intros H. apply Finite.Injective_map_NoDup; [|exact H].
  intros x y E. now injection E.
Qed.

Lemma firstn_In {A : Type} (l : list A) : forall (n : nat) (x : A),
  In x (firstn n l) -> In x l.
Proof.
  induction l as [|y l IH]; intros [|n] x Hin; cbn [firstn] in Hin;
    try contradiction.
  destruct Hin as [-> | Hin]; [now left | right; eauto].
Qed.

Lemma firstn_NoDup {A : Type} (l : list A) :
  NoDup l -> forall n, NoDup (firstn n l).
Proof.
  induction 1 as [|x l Hn Hd IH]; intros [|n]; cbn [firstn]; try constructor.
  - intros Hin. apply Hn. eapply firstn_In, Hin.
  - apply IH.
Qed.

Lemma combine_keys_NoDup (fieldnames row : list string) :
  NoDup fieldnames ->
  NoDup (map (fun cv : string * string => KeyStr (fst cv)) (combine fieldnames row)).
Proof.
  intros Hnd. rewrite <- (map_map fst KeyStr), map_fst_combine.
  apply KeyStr_NoDup. now apply firstn_NoDup.
Qed.

Lemma vcf_entries_keys_NoDup (fieldnames row : list string) :
  NoDup fieldnames -> NoDup (map fst (vcf_entries fieldnames row)).
Proof.
  intros Hnd. unfold vcf_entries. rewrite map_map. cbn [fst].
  pose proof (combine_keys_NoDup fieldnames row Hnd) as H.
  induction (combine fieldnames row) as [|cv l IH]; [constructor|].
  cbn [map] in H. inversion H as [|? ? Hn Hd]; subst. cbn [filter].
  destruct (negb (String.eqb (fst cv) "input VCF file")); [|now apply IH].
  cbn [map]. constructor; [|now apply IH].
  intros Hin. apply Hn. apply in_map_iff in Hin. destruct Hin as [x [E Hx]].
  apply filter_In in Hx. rewrite <- E.
  apply (in_map (fun cv : string * string => KeyStr (fst cv))). tauto.
Qed.


(** * More on the renumbering and the tally *)

Lemma find_app {A : Type} (f : A -> bool) (l1 l2 : list A) :
  find f (l1 ++ l2)
  = match find f l1 with Some y => Some y | None => find f l2 end.
Proof.
  induction l1 as [|x l1 IH]; [reflexivity|]. cbn [app find].
  now destruct (f x).
Qed.

Lemma renumber_cons (r : list (Z * Z)) (x : Z * Z) (items : list (Z * Z)) :
  renumber r (x :: items) = renumber (dict_set Z.eqb r (fst x) (snd x)) items.
Proof. reflexivity. Qed.

(** Reading the renumbered dict back: the last item with that ordinal, and
    what was there before if there is none. *)
Lemma renumber_get (items : list (Z * Z)) : forall (r : list (Z * Z)) (n : Z),
  dict_get Z.eqb (renumber r items) n
  = match find (fun nc => fst nc =? n) (rev items) with
    | Some nc => Some (snd nc)
    | None => dict_get Z.eqb r n
    end.
Proof.
  induction items as [|x items IH]; intros r n; [reflexivity|].
  rewrite renumber_cons, IH. cbn [rev]. rewrite find_app.
  destruct (find (fun nc => fst nc =? n) (rev items)); [reflexivity|].
  cbn [find]. destruct (Z.eqb_spec (fst x) n) as [E|E].
  - subst n. apply (dict_get_set_same _ Z.eqb_eq).
  - now apply (dict_get_set_other _ Z.eqb_eq).
Qed.

Lemma renumber_keys (items : list (Z * Z)) : forall (r : list (Z * Z)) (n : Z),
  In n (dict_keys (renumber r items))
  <-> In n (dict_keys r) \/ In n (map fst items).
Proof.
  intros r n. unfold renumber.
  rewrite (fold_set_keys Z.eqb Z.eqb_eq fst snd). tauto.
Qed.

Lemma low_coverage_cons (md : Z) (kv : string * Z) (d : sdict Z) :
  low_coverage md (kv :: d)
  = (if snd kv <? md then 1 else 0) + low_coverage md d.
Proof.
  unfold low_coverage. cbn [filter]. destruct (snd kv <? md); cbn [List.length]; lia.
Qed.

Lemma low_coverage_bounds (md : Z) (d : sdict Z) :
  0 <= low_coverage md d <= Z.of_nat (List.length d).
Proof.
  induction d as [|kv d IH]; [unfold low_coverage; cbn; lia|].
  rewrite low_coverage_cons. cbn [List.length]. destruct (snd kv <? md); lia.
Qed.

Lemma low_coverage_mono (md md' : Z) (d : sdict Z) :
  md <= md' -> low_coverage md d <= low_coverage md' d.
Proof.
  intros H. induction d as [|kv d IH]; [unfold low_coverage; cbn; lia|].
  rewrite !low_coverage_cons.
  destruct (Z.ltb_spec (snd kv) md), (Z.ltb_spec (snd kv) md'); lia.
Qed.

Lemma low_coverage_none (md : Z) (d : sdict Z) :
  Forall (fun kv => md <= snd kv) d -> low_coverage md d = 0.
Proof.
  induction 1 as [|kv d H _ IH]; [reflexivity|].
  rewrite low_coverage_cons, IH. destruct (Z.ltb_spec (snd kv) md); lia.
Qed.


(** Whether the tally completes does not depend on the depth. *)
Lemma classify_total_any_depth (md md' : Z) (counts : sdict Z) (t : Tally) :
  classify md counts = Return t ->
  exists t', classify md' counts = Return t'.
Proof.
  intros H. destruct (classify_spec _ _ _ H) as (_ & _ & items & Hi & _).
  unfold classify. eapply tally_loop_total, Hi.
Qed.

(** ** Counts never go below zero *)

Section ValuesInvariant.
Context {K : Type}.
Variable eqb : K -> K -> bool.
Variable P : Z -> Prop.

Lemma dict_set_values (d : list (K * Z)) (k : K) (v : Z) :
  Forall (fun kv => P (snd kv)) d -> P v ->
  Forall (fun kv => P (snd kv)) (dict_set eqb d k v).
Proof.
  induction 1 as [|[k0 v0] d H0 Hd IH]; intros Hv; cbn [dict_set].
  - now repeat constructor.
  - destruct (eqb k0 k); constructor; auto.
Qed.

Lemma dict_get_values (d : list (K * Z)) (k : K) (v : Z) :
  Forall (fun kv => P (snd kv)) d -> dict_get eqb d k = Some v -> P v.
Proof.
  induction 1 as [|[k0 v0] d H0 Hd IH]; cbn [dict_get]; [discriminate|].
  destruct (eqb k0 k); [now intros [= <-] | exact IH].
Qed.
End ValuesInvariant.

Lemma count_row_nonneg (amplicons amplicons' : sdict Z) (l : string) :
  nonneg amplicons -> count_row amplicons l = Return amplicons' ->
  nonneg amplicons'.
Proof.
  intros Hn H. destruct (count_row_cases _ _ _ H) as [-> | (k & n & Hk & ->)];
    [exact Hn|].
  apply (dict_set_values String.eqb (fun v => 0 <= v)); [exact Hn|].
  pose proof (dict_get_values String.eqb (fun v => 0 <= v) _ _ _ Hn Hk) as H0.
  cbv beta in H0. lia.
Qed.

Lemma count_rows_nonneg (lines : list string) : forall amplicons : sdict Z,
  nonneg amplicons -> nonneg (fst (count_rows amplicons lines)).
Proof.
  induction lines as [|l lines IH]; intros a Hn; [exact Hn|].
  cbn [count_rows]. destruct (count_row a l) as [a'|e] eqn:E; [|exact Hn].
  apply IH. eapply count_row_nonneg; eassumption.
Qed.

Lemma grows_refl (d : sdict Z) : grows d d.
Proof.
  induction d as [|kv d IH]; [constructor|].
  constructor; [split; [reflexivity | lia] | exact IH].
Qed.

Lemma grows_trans (d1 d2 d3 : sdict Z) : grows d1 d2 -> grows d2 d3 -> grows d1 d3.
Proof.
  intros H. revert d3. induction H as [|x y d1 d2 [E1 L1] _ IH]; intros d3 H3;
    inversion H3 as [|? z ? d3' [E2 L2] H3']; subst; constructor.
  - split; [congruence | lia].
  - now apply IH.
Qed.

Lemma count_row_grows (amplicons amplicons' : sdict Z) (l : string) :
  count_row amplicons l = Return amplicons' -> grows amplicons amplicons'.
Proof.
  intros H. destruct (count_row_cases _ _ _ H) as [-> | (k & n & Hk & ->)];
    [apply grows_refl|].
  clear H. revert Hk. induction amplicons as [|[k0 v0] d IH];
    cbn [dict_get dict_set]; [discriminate|].
  destruct (String.eqb k0 k).
  - intros [= ->]. constructor; [cbn; split; [reflexivity | lia] | apply grows_refl].
  - intros Hk. constructor; [cbn; split; [reflexivity | lia] | now apply IH].
Qed.

Lemma count_rows_grows (lines : list string) : forall amplicons : sdict Z,
  grows amplicons (fst (count_rows amplicons lines)).
Proof.
  induction lines as [|l lines IH]; intros a; [apply grows_refl|].
  cbn [count_rows]. destruct (count_row a l) as [a'|e] eqn:E; [|apply grows_refl].
  eapply grows_trans; [eapply count_row_grows, E | apply IH].
Qed.

Lemma getSchemeAmplicons_nonneg (fs : FileSystem) (schemeFile : string) (m : sdict Z) :
  getSchemeAmplicons fs schemeFile = Return m -> nonneg m.
Proof.
  intros H. destruct (getSchemeAmplicons_inv _ _ _ H) as (ps & _ & _ & ->).
  unfold nonneg. apply Forall_forall. intros kv Hin.
  apply in_map_iff in Hin. destruct Hin as (b & <- & _). cbn. lia.
Qed.

Lemma getAmpliconCounts_nonneg (fs : FileSystem) (amplicons : sdict Z) (path : string) :
  nonneg amplicons -> nonneg (fst (getAmpliconCounts fs amplicons path)).
Proof.
  intros Hn. rewrite getAmpliconCounts_state.
  destruct (open_lines fs path) as [[lines err]|e];
    [now apply count_rows_nonneg | exact Hn].
Qed.

Lemma sum_counts_nonneg (d : sdict Z) : nonneg d -> 0 <= sum_counts d.
Proof.
  unfold sum_counts, dict_values.
  induction 1 as [|kv d H _ IH]; cbn [map fold_right]; lia.
Qed.

Lemma ordinals_nonneg (counts : sdict Z) : forall items,
  nonneg counts -> ordinals counts = Return items -> nonneg items.
Proof.
  intros items Hn Ho. apply ordinals_Forall2 in Ho.
  induction Ho as [|kv nc counts items [_ E] _ IH]; [constructor|].
  inversion Hn; subst. constructor; [lia | now apply IH].
Qed.

Lemma renumber_nonneg (items : list (Z * Z)) : forall r : list (Z * Z),
  nonneg r -> nonneg items -> nonneg (renumber r items).
Proof.
  induction items as [|x items IH]; intros r Hr Hi; [exact Hr|].
  inversion Hi; subst. rewrite renumber_cons. apply IH; [|assumption].
  now apply (dict_set_values Z.eqb (fun v => 0 <= v)).
Qed.

(** ** How a run can end *)

Lemma classify_raises_ValueError (fs : FileSystem) (schemeFile path : string)
  (amplicons counts : sdict Z) (md : Z) (e : exn) :
  getSchemeAmplicons fs schemeFile = Return amplicons ->
  getAmpliconCounts fs amplicons path = (counts, None) ->
  classify md counts = Raise e ->
  e = ValueError.
Proof.
  intros Hs Hc Hr. unfold classify in Hr.
  destruct (tally_loop_raise _ _ _ _ Hr) as (k & c & Hin & Ho).
  assert (Hk : In k (dict_keys counts))
    by (unfold dict_keys; apply in_map_iff; now exists (k, c)).
  pose proof (getAmpliconCounts_keys fs amplicons path) as Hkeys.
  rewrite Hc in Hkeys. cbn [fst] in Hkeys. rewrite Hkeys in Hk.
  destruct (resolver_keys_are_names _ _ _ Hs _ Hk) as [b ->].
  eapply ordinal_of_name_raises, Ho.
Qed.

(** * The row of the variant report, entry by entry *)

Lemma NoDup_firstn_skipn {A : Type} (l : list A) (n : nat) (x : A) :
  NoDup l -> In x (skipn n l) -> ~ In x (firstn n l).
Proof.
  intros Hnd Hs Hf. rewrite <- (firstn_skipn n l) in Hnd.
  revert Hnd Hs Hf. generalize (firstn n l) (skipn n l). intros l1 l2.
  induction l1 as [|y l1 IH]; intros Hnd Hs Hf; [destruct Hf|].
  cbn [app] in Hnd. inversion Hnd as [|? ? Hn Hd]; subst.
  destruct Hf as [-> | Hf]; [|now apply IH].
  apply Hn. apply in_app_iff. now right.
Qed.

Lemma skipn_NoDup {A : Type} (l : list A) :
  NoDup l -> forall n, NoDup (skipn n l).
Proof.
  induction 1 as [|x l Hn Hd IH]; intros [|n]; cbn [skipn]; try constructor;
    try assumption. apply IH.
Qed.

Lemma combine_entries_keys (fieldnames row : list string) :
  dict_keys (map (fun cv : string * string => (KeyStr (fst cv), PyStr (snd cv)))
               (combine fieldnames row))
  = map KeyStr (firstn (List.length row) fieldnames).
Proof.
  unfold dict_keys. rewrite map_map. cbn [fst].
  now rewrite <- (map_map fst KeyStr), map_fst_combine.
Qed.

Lemma DictReader_row_entries (fieldnames row : list string) :
  NoDup fieldnames ->
  DictReader_row fieldnames row = DictReader_entries fieldnames row.
Proof.
  intros Hnd. unfold DictReader_row, DictReader_entries.
  rewrite (fold_set_fresh pykey_eqb pykey_eqb_eq
             (fun kv : string * string => KeyStr (fst kv)) (fun kv => PyStr (snd kv)))
    by (try apply combine_keys_NoDup; try exact Hnd; intros x _ []).
  cbn [app].
  destruct (List.length fieldnames <? List.length row)%nat.
  - apply (dict_set_absent _ pykey_eqb_eq). rewrite combine_entries_keys.
    intros Hin. apply in_map_iff in Hin. destruct Hin as (c & E & _). discriminate E.
  - destruct (List.length row <? List.length fieldnames)%nat eqn:Elt.
    + apply (fold_set_fresh pykey_eqb pykey_eqb_eq KeyStr (fun _ : string => PyNone)).
      * apply KeyStr_NoDup. now apply skipn_NoDup.
      * intros c Hc. rewrite combine_entries_keys. intros Hin.
        apply in_map_iff in Hin. destruct Hin as (c' & E & Hc'). injection E as ->.
        exact (NoDup_firstn_skipn _ _ _ Hnd Hc Hc').
    + apply Nat.ltb_ge in Elt. rewrite skipn_all2 by exact Elt.
      cbn [map]. now rewrite app_nil_r.
Qed.

Lemma DictReader_entries_NoDup (fieldnames row : list string) :
  NoDup fieldnames -> NoDup (map fst (DictReader_entries fieldnames row)).
Proof.
  intros Hnd. unfold DictReader_entries. rewrite map_app.
  fold (dict_keys (map (fun cv : string * string => (KeyStr (fst cv), PyStr (snd cv)))
                     (combine fieldnames row))).
  rewrite combine_entries_keys.
  destruct (List.length fieldnames <? List.length row)%nat.
  - cbn [map fst]. apply NoDup_app.
    + apply KeyStr_NoDup. now apply firstn_NoDup.
    + repeat constructor. intros [].
    + intros k Hk Hin. destruct Hin as [E | []]. subst k.
      apply in_map_iff in Hk. destruct Hk as (c & E & _). discriminate E.
  - rewrite map_map. cbn [fst]. rewrite <- map_app, firstn_skipn.
    now apply KeyStr_NoDup.
Qed.

Lemma filter_as_fold (l : list (pykey * pyval)) :
  NoDup (map fst l) ->
  fold_left
    (fun stats kv =>
       if negb (pykey_eqb (fst kv) (KeyStr "input VCF file"))
       then dict_set pykey_eqb stats (fst kv) (snd kv)
       else stats) l []
  = filter not_input_file l.
Proof.
  intros Hnd.
  rewrite (fold_filter_fresh pykey_eqb pykey_eqb_eq fst snd)
    by (try exact Hnd; intros x _ []).
  cbn [app]. unfold not_input_file.
  induction l as [|[k v] l IH]; [reflexivity|].
  cbn [map] in Hnd. inversion Hnd; subst. cbn [filter fst].
  destruct (negb (pykey_eqb k (KeyStr "input VCF file"))); cbn [map fst snd];
    now rewrite IH.
Qed.

(** The reader on a report with distinct column names. *)
Lemma getVCFreportInfo_entries (fs : FileSystem) (path : string)
  (fieldnames row : list string) (rows rest : list (list string)) :
  csv_reader fs path = Return (fieldnames :: rows) ->
  skip_blank_rows rows = row :: rest ->
  NoDup fieldnames ->
  getVCFreportInfo fs path
  = Return (filter not_input_file (DictReader_entries fieldnames row)).
Proof.
  intros Hcsv Hskip Hnd. unfold getVCFreportInfo, DictReader_next.
  rewrite Hcsv. cbn [bind]. rewrite Hskip. cbn [bind]. apply f_equal.
  rewrite (DictReader_row_entries _ _ Hnd).
  apply filter_as_fold. now apply DictReader_entries_NoDup.
Qed.

Lemma filter_zipped (l : list (string * string)) :
  filter not_input_file
    (map (fun cv : string * string => (KeyStr (fst cv), PyStr (snd cv))) l)
  = map (fun cv => (KeyStr (fst cv), PyStr (snd cv)))
      (filter (fun cv => negb (String.eqb (fst cv) "input VCF file")) l).
Proof.
  unfold not_input_file. induction l as [|[c v] l IH]; [reflexivity|].
  cbn [map filter fst snd pykey_eqb].
  destruct (String.eqb c "input VCF file"); cbn [negb map fst snd];
    now rewrite IH.
Qed.


(** * The last amplicon of an ordinal *)

Lemma Forall2_rev {A B : Type} (R : A -> B -> Prop) (l : list A) (l' : list B) :
  Forall2 R l l' -> Forall2 R (rev l) (rev l').
Proof.
  induction 1 as [|x y l l' Hxy _ IH]; [constructor|].
  cbn [rev]. apply Forall2_app; [exact IH | now repeat constructor].
Qed.

Lemma find_ordinal (n : Z) (counts : sdict Z) (items : list (Z * Z)) :
  Forall2 (fun kv nc => ordinal_of (fst kv) = Return (fst nc) /\ snd kv = snd nc)
    counts items ->
  option_map snd (find (ordinal_is n) counts)
  = option_map snd (find (fun nc => fst nc =? n) items).
Proof.
  induction 1 as [|kv nc counts items [Ho Es] _ IH]; [reflexivity|].
  cbn [find]. unfold ordinal_is at 1. rewrite Ho.
  destruct (fst nc =? n); [cbn; now rewrite Es | exact IH].
Qed.

Lemma classify_get (md : Z) (counts : sdict Z) (t : Tally) (n : Z) :
  classify md counts = Return t ->
  dict_get Z.eqb (amplicon_renamed_counts t) n
  = option_map snd (find (ordinal_is n) (rev counts)).
Proof.
  intros H. destruct (classify_spec _ _ _ H) as (_ & _ & items & Hi & ->).
  rewrite renumber_get.
  rewrite (find_ordinal n (rev counts) (rev items))
    by (apply Forall2_rev; now apply ordinals_Forall2).
  now destruct (find (fun nc => fst nc =? n) (rev items)).
Qed.

(** * How a run ends *)

Lemma run_unfold (fs : FileSystem) (args : Args) (amplicons counts : sdict Z)
  (t : Tally) :
  getSchemeAmplicons fs (scheme args) = Return amplicons ->
  getAmpliconCounts fs amplicons (align_report args) = (counts, None) ->
  classify (min_depth args) counts = Return t ->
  run fs args
  = match write_error fs (fst (plot_file args t)) with
    | Some e => ([], Some e)
    | None =>
        match build_stats fs args t with
        | Raise e => ([plot_file args t], Some e)
        | Return table =>
            match write_error fs (fst (stats_file args table)) with
            | Some e => ([plot_file args t], Some e)
            | None => ([plot_file args t; stats_file args table], None)
            end
        end
    end.
Proof.
  intros Hs Hc Ht. unfold run. rewrite Hs, Hc, Ht. reflexivity.
Qed.

Lemma build_stats_raise (fs : FileSystem) (args : Args) (t : Tally) (e : exn) :
  build_stats fs args t = Raise e ->
  exists path, vcf_report args = Some path /\ truthy (vcf_report args) = true
    /\ getVCFreportInfo fs path = Raise e.
Proof.
  unfold build_stats. destruct (truthy (vcf_report args)) eqn:Et; [|discriminate].
  destruct (vcf_report args) as [path|]; [|discriminate Et].
  intros H. exists path. split; [reflexivity|]. split; [reflexivity|].
  destruct (getVCFreportInfo fs path); [discriminate H | now injection H as <-].
Qed.

Lemma sum_counts_zeroed (names : list string) :
  sum_counts (map (fun b => (amplicon_name b, 0)) names) = 0.
Proof.
  unfold sum_counts, dict_values. induction names as [|b names IH]; [reflexivity|].
  cbn [map snd fold_right]. cbn [map] in IH. lia.
Qed.

Lemma ordinals_keys (counts : sdict Z) : forall (items : list (Z * Z)) (n : Z),
  ordinals counts = Return items ->
  (In n (map fst items)
   <-> exists k c, In (k, c) counts /\ ordinal_of k = Return n).
Proof.
  intros items n H. apply ordinals_Forall2 in H.
  induction H as [|[k c] [m c'] counts items [Ho Es] _ IH]; cbn [map fst snd In] in *.
  - split; [intros [] | intros (k & c & [] & _)].
  - rewrite IH. split.
    + intros [<- | (k' & c0 & Hin & Hk)]; [exists k, c | exists k', c0]; auto.
    + intros (k' & c0 & [E | Hin] & Hk).
      * injection E as <- <-. left. rewrite Ho in Hk. now injection Hk.
      * right. now exists k', c0.
Qed.

Lemma filter_keys_NoDup {K V : Type} (keep : K * V -> bool) (d : list (K * V)) :
  NoDup (dict_keys d) -> NoDup (dict_keys (filter keep d)).
Proof.
  unfold dict_keys. induction d as [|kv d IH]; cbn [map filter]; [constructor|].
  intros H. inversion H as [|? ? Hn Hd]; subst.
  destruct (keep kv); [|now apply IH]. cbn [map]. constructor; [|now apply IH].
  intros Hin. apply Hn. apply in_map_iff in Hin. destruct Hin as (y & E & Hy).
  apply filter_In in Hy. rewrite <- E. apply in_map. tauto.
Qed.

Lemma map_pair_id {A B : Type} (l : list (A * B)) :
  map (fun x => (fst x, snd x)) l = l.
Proof. induction l as [|[a b] l IH]; [reflexivity|]. cbn [map fst snd]. now rewrite IH. Qed.

(** * The example runs *)

Example split_examples :
  Str.split "nCoV-2019_1_LEFT_alt2" "_LEFT" = ["nCoV-2019_1"; "_alt2"]%string
  /\ Str.split "aaaa" "aa" = [EmptyString; EmptyString; EmptyString]
  /\ Str.split "1_LEFT_1_RIGHT" "_" = ["1"; "LEFT"; "1"; "RIGHT"]%string.
Proof. repeat split; reflexivity. Qed.

Example int_examples :
  Str.int " 12 " = Return 12 /\ Str.int "-007" = Return (-7)
  /\ Str.int "1_000" = Return 1000 /\ Str.int "LEFT" = Raise ValueError
  /\ Str.int EmptyString = Raise ValueError /\ Str.int "1__0" = Raise ValueError
  /\ Str.int "+ 1" = Raise ValueError /\ Str.int "_1" = Raise ValueError.
Proof. repeat split; reflexivity. Qed.

Example float_examples :
  float_of_int 400 = Return (S754_finite false 7036874417766400 (-44))
  /\ float_mul Alignment_Length_Threshold (S754_finite false 7036874417766400 (-44))
     = S754_finite false 6685030696878080 (-44)
  /\ int_lt_float 379 (S754_finite false 6685030696878080 (-44)) = true
  /\ int_lt_float 380 (S754_finite false 6685030696878080 (-44)) = false
  /\ float_of_int (2 ^ 1024) = Raise OverflowError.
Proof. repeat split; vm_compute; reflexivity. Qed.

(** Beyond [2 ^ 48] the rounding of the product shows: here
    [20 * aLen = 19 * rLen - 1], yet [aLen < 0.95 * rLen] is false in
    floating point. *)
Remark threshold_rounding_beyond_bound :
  let aLen := 462808396095304 in
  let rLen := 487166732731899 in
  2 ^ 48 <= rLen /\ 20 * aLen < 19 * rLen
  /\ (x <- float_of_int rLen ;;
      Return (int_lt_float aLen (float_mul Alignment_Length_Threshold x)))
     = Return false.
Proof. cbv zeta. split; [lia|]. split; [lia|]. vm_compute. reflexivity. Qed.

(** The columns of a line that are read, by position. *)
Example parse_row_columns :
  parse_row
    (String.concat TAB
       ["c0"; "1"; "2"; "c3"; "c4"; "c5"; "c6"; "c7"; "c8"; "c9"; "10"; "11"; "12"]%string
     ++ NL)%string
  = Return {| rStart := 1; rEnd := 2; amplicon := "c3";
              aStart := 10; aEnd := 11; paired := 12 |}.
Proof. vm_compute. reflexivity. Qed.

Example parse_row_examples :
  parse_row Examples.row_counted = Return Expected.record_counted
  /\ parse_row Examples.row_unpaired = Return Expected.record_unpaired
  /\ parse_row Examples.row_absent = Return Expected.record_absent.
Proof. repeat split; vm_compute; reflexivity. Qed.

(** * The claims *)

(** C1 (as stated, refuted).  A properly paired read whose amplicon has
    length 487166732731899 and whose alignment has length 462808396095304
    is counted, although [20 * 462808396095304 < 19 * 487166732731899],
    that is, although the aligned length is below [0.95] times the amplicon
    length: the product [0.95 * rLen] is a floating-point product, and its
    rounding shows beyond [2 ^ 48]. *)
Lemma C1_counterexample :
  parse_row MoreExamples.row_beyond = Return MoreExamples.record_beyond
  /\ paired MoreExamples.record_beyond = 1
  /\ ~ meets_threshold MoreExamples.record_beyond
  /\ getAmpliconCounts MoreExamples.fs_beyond Expected.amplicons_ncov
       "sample.alignreport.txt"
     = ([("nCoV-2019_1_LEFT_nCoV-2019_1_RIGHT"%string, 1);
         ("nCoV-2019_2_LEFT_nCoV-2019_2_RIGHT"%string, 0)], None)
  /\ ~ (count_row Expected.amplicons_ncov MoreExamples.row_beyond
        = Return (dict_set String.eqb Expected.amplicons_ncov
                    (amplicon MoreExamples.record_beyond) (0 + 1))
        <-> passes_filters MoreExamples.record_beyond).
Proof.
  assert (Hm : ~ meets_threshold MoreExamples.record_beyond).
  { rewrite meets_threshold_iff. vm_compute. intros H. now apply H. }
  split; [vm_compute; reflexivity|]. split; [reflexivity|]. split; [exact Hm|].
  split; [vm_compute; reflexivity|].
  intros [H _]. apply Hm. apply H. vm_compute. reflexivity.
Qed.

(** C1 (amended).  For a line of the align_trim report whose columns 1, 2,
    10, 11 and 12 are integers and whose amplicon length [rEnd - rStart] is
    below [2 ^ 48] in magnitude, and a dict of counts holding the name in
    column 3: the loop body returns the dict with the count of that name
    incremented by 1 if and only if the pairing flag (column 12) is 1 and
    [aEnd - aStart >= 0.95 * (rEnd - rStart)]; every other such line leaves
    the dict unchanged.  This holds of every data line of a report, wherever
    it stands: when the aggregator returns the dict [amplicons] on the
    report up to the line before, it returns on the report up to the line
    the dict with that one count incremented if and only if the line passes
    both tests, and [amplicons] itself when it does not. *)
Theorem C1_row_counted_iff_paired_and_long_enough
  (amplicons : sdict Z) (l : string) (r : AlignmentRecord) :
  parse_row l = Return r ->
  Z.abs (ampliconLength r) < 2 ^ 48 ->
  (forall n, dict_get String.eqb amplicons (amplicon r) = Some n ->
     (count_row amplicons l
      = Return (dict_set String.eqb amplicons (amplicon r) (n + 1))
      <-> passes_filters r))
  /\ (~ passes_filters r -> count_row amplicons l = Return amplicons)
  /\ (forall fs fs' path path' header header' before start,
        open_lines fs path = Return (header :: before, None) ->
        open_lines fs' path' = Return (header' :: before ++ [l], None) ->
        getAmpliconCounts fs start path = (amplicons, None) ->
        (forall n, dict_get String.eqb amplicons (amplicon r) = Some n ->
           (getAmpliconCounts fs' start path'
            = (dict_set String.eqb amplicons (amplicon r) (n + 1), None)
            <-> passes_filters r))
        /\ (~ passes_filters r ->
            getAmpliconCounts fs' start path' = (amplicons, None))).
Proof.
  intros Hp Hb.
  assert (Hrow : (forall n, dict_get String.eqb amplicons (amplicon r) = Some n ->
                    (count_row amplicons l
                     = Return (dict_set String.eqb amplicons (amplicon r) (n + 1))
                     <-> passes_filters r))
                 /\ (~ passes_filters r -> count_row amplicons l = Return amplicons)).
  { rewrite (count_row_spec _ _ _ Hp Hb).
    unfold passes_filters. pose proof (meets_threshold_iff r) as Hm.
    destruct (Z.eqb_spec (paired r) 1) as [E|E];
      destruct (Z.leb_spec (19 * ampliconLength r) (20 * alignedLength r)) as [L|L];
      cbn [andb].
    - split.
      + intros n Hn. rewrite Hn. split; [intros _; split; tauto | reflexivity].
      + intros Hn. exfalso. apply Hn. split; tauto.
    - split; [|reflexivity]. intros n Hn. split; [|intros [_ H]; apply Hm in H; lia].
      intros H. exfalso. now apply (count_changes _ _ _ Hn).
    - split; [|reflexivity]. intros n Hn. split; [|intros [H _]; lia].
      intros H. exfalso. now apply (count_changes _ _ _ Hn).
    - split; [|reflexivity]. intros n Hn. split; [|intros [H _]; lia].
      intros H. exfalso. now apply (count_changes _ _ _ Hn). }
  destruct Hrow as [Hcount Hskip]. split; [exact Hcount|]. split; [exact Hskip|].
  intros fs fs' path path' header header' before start Hopen Hopen' Hbefore.
  apply getAmpliconCounts_returns in Hbefore.
  destruct Hbefore as (lines & Hl & Hbefore). rewrite Hopen in Hl.
  injection Hl as <-. cbn [tl] in Hbefore.
  assert (Hall : getAmpliconCounts fs' start path'
                 = match count_row amplicons l with
                   | Return amplicons' => (amplicons', None)
                   | Raise e => (amplicons, Some e)
                   end).
  { unfold getAmpliconCounts. rewrite Hopen'. cbn [tl].
    rewrite count_rows_app, Hbefore. cbn [count_rows].
    now destruct (count_row amplicons l). }
  rewrite Hall. split.
  - intros n Hn. rewrite <- (Hcount n Hn). split.
    + destruct (count_row amplicons l); [now intros [= ->] | discriminate].
    + now intros ->.
  - intros Hn. now rewrite (Hskip Hn).
Qed.

Lemma C1_witness :
  (forall n,
     dict_get String.eqb Expected.amplicons_ncov (amplicon Expected.record_counted)
     = Some n ->
     (count_row Expected.amplicons_ncov Examples.row_counted
      = Return (dict_set String.eqb Expected.amplicons_ncov
                  (amplicon Expected.record_counted) (n + 1))
      <-> passes_filters Expected.record_counted))
  /\ (~ passes_filters Expected.record_counted ->
      count_row Expected.amplicons_ncov Examples.row_counted
      = Return Expected.amplicons_ncov)
  /\ (forall fs fs' path path' header header' before start,
        open_lines fs path = Return (header :: before, None) ->
        open_lines fs' path' = Return (header' :: before ++ [Examples.row_counted], None) ->
        getAmpliconCounts fs start path = (Expected.amplicons_ncov, None) ->
        (forall n,
           dict_get String.eqb Expected.amplicons_ncov
             (amplicon Expected.record_counted) = Some n ->
           (getAmpliconCounts fs' start path'
            = (dict_set String.eqb Expected.amplicons_ncov
                 (amplicon Expected.record_counted) (n + 1), None)
            <-> passes_filters Expected.record_counted))
        /\ (~ passes_filters Expected.record_counted ->
            getAmpliconCounts fs' start path' = (Expected.amplicons_ncov, None))).
Proof.
  apply (C1_row_counted_iff_paired_and_long_enough
           Expected.amplicons_ncov Examples.row_counted Expected.record_counted).
  - vm_compute. reflexivity.
  - vm_compute. reflexivity.
Defined.

(** C2 (as stated, refuted).  On the scheme that names its amplicons [1]
    and [2], the counts are 3 and 1 as the example says, but the run then
    aborts with [ValueError]: the second underscore-delimited segment of
    [1_LEFT_1_RIGHT] is [LEFT], and [int('LEFT')] raises.  No file is
    written. *)
Lemma C2_counterexample :
  getSchemeAmplicons Examples.fs12 (scheme Examples.args12)
  = Return [("1_LEFT_1_RIGHT"%string, 0); ("2_LEFT_2_RIGHT"%string, 0)]
  /\ getAmpliconCounts Examples.fs12
       [("1_LEFT_1_RIGHT"%string, 0); ("2_LEFT_2_RIGHT"%string, 0)]
       (align_report Examples.args12)
     = (Examples.counts12, None)
  /\ run Examples.fs12 Examples.args12 = ([], Some ValueError)
  /\ ~ (exists files, run Examples.fs12 Examples.args12 = (files, None)).
Proof.
  assert (H : run Examples.fs12 Examples.args12 = ([], Some ValueError))
    by (vm_compute; reflexivity).
  repeat split; try (vm_compute; reflexivity).
  intros [files Hf]. rewrite H in Hf. discriminate Hf.
Qed.

(** C2 (amended).  On the scheme that names its amplicons [nCoV-2019_1] and
    [nCoV-2019_2] (two primers each), with a report of 3 valid
    length-passing rows for [nCoV-2019_1_LEFT_nCoV-2019_1_RIGHT], 1 for
    [nCoV-2019_2_LEFT_nCoV-2019_2_RIGHT], 1 row with pairing flag 0 and 1 row
    failing the length filter, the run with [min_depth = 2] completes, and
    writes the renumbered counts [{1: 3, 2: 1}], [# mapped reads = 4] and
    [# low cov. amplicons = 1]. *)
Theorem C2_end_to_end_example :
  getSchemeAmplicons Examples.fs_ncov (scheme Examples.args12)
  = Return Expected.amplicons_ncov
  /\ getAmpliconCounts Examples.fs_ncov Expected.amplicons_ncov
       (align_report Examples.args12)
     = (Examples.counts_ncov, None)
  /\ classify (min_depth Examples.args12) Examples.counts_ncov
     = Return Expected.tally_ncov
  /\ run Examples.fs_ncov Examples.args12
     = (Expected.files Expected.stats_ncov, None).
Proof. repeat split; vm_compute; reflexivity. Qed.

(** C3 (as stated, refuted).  The variant report has a column named
    [# mapped reads] with the field [99].  The run completes, the final
    counts sum to 4, and the stats table holds the string [99] under
    [# mapped reads]: the columns of the report are written into the table
    after the computed stats. *)
Lemma C3_counterexample :
  getSchemeAmplicons (MoreExamples.fs_with MoreExamples.vcf_total)
    (scheme Examples.args_vcf) = Return Expected.amplicons_ncov
  /\ getAmpliconCounts (MoreExamples.fs_with MoreExamples.vcf_total)
       Expected.amplicons_ncov (align_report Examples.args_vcf)
     = (Examples.counts_ncov, None)
  /\ sum_counts Examples.counts_ncov = 4
  /\ run (MoreExamples.fs_with MoreExamples.vcf_total) Examples.args_vcf
     = ([plot_file Examples.args_vcf Expected.tally_ncov;
         stats_file Examples.args_vcf
           [(KeyStr "# mapped reads", PyStr "99");
            (KeyStr "# low cov. amplicons", PyInt 1)]], None)
  /\ stats_table
       (snd (stats_file Examples.args_vcf
               [(KeyStr "# mapped reads", PyStr "99");
                (KeyStr "# low cov. amplicons", PyInt 1)]))
     = Some [(KeyStr "# mapped reads", PyStr "99");
             (KeyStr "# low cov. amplicons", PyInt 1)]
  /\ dict_get pykey_eqb
       [(KeyStr "# mapped reads", PyStr "99");
        (KeyStr "# low cov. amplicons", PyInt 1)] (KeyStr "# mapped reads")
     <> Some (PyInt (sum_counts Examples.counts_ncov)).
Proof.
  repeat split; try (vm_compute; reflexivity). vm_compute. discriminate.
Qed.

(** C3 (amended).  When a run completes, the stats table holds under
    [# mapped reads] the sum of the final per-amplicon counts, provided the
    variant report, if one is supplied, has no column of that name. *)
Theorem C3_mapped_reads_is_sum_of_counts
  (fs : FileSystem) (args : Args) (files : list (string * Document)) :
  run fs args = (files, None) ->
  ~ In "# mapped reads"%string (vcf_columns fs args) ->
  exists amplicons amplicon_counts plot stats,
    getSchemeAmplicons fs (scheme args) = Return amplicons
    /\ getAmpliconCounts fs amplicons (align_report args) = (amplicon_counts, None)
    /\ files = [plot; stats]
    /\ exists table, stats_table (snd stats) = Some table
         /\ dict_get pykey_eqb table (KeyStr "# mapped reads")
            = Some (PyInt (sum_counts amplicon_counts)).
Proof.
  intros Hrun Hcol.
  destruct (run_completes _ _ _ Hrun)
    as (amplicons & counts & t & stats & Hs & Hc & Ht & Hb & ->).
  destruct (classify_spec _ _ _ Ht) as [Hsum _].
  eexists amplicons, counts, _, _. repeat split; try eassumption.
  exists stats. split; [reflexivity|]. rewrite <- Hsum.
  destruct (truthy (vcf_report args)) eqn:Etr.
  - destruct (build_stats_with_vcf _ _ _ _ Etr Hb) as (path & info & Hp & Hi & ->).
    rewrite (fold_set_get_other pykey_eqb pykey_eqb_eq fst snd); [reflexivity|].
    intros Hin.
    destruct (getVCFreportInfo_inv _ _ _ Hi) as (fn & rows & row & rest & Hcsv & _ & Hk).
    apply Hk in Hin. destruct Hin as [Hin _].
    apply DictReader_row_keys in Hin.
    destruct Hin as [[c [[= <-] Hc']]|[Hd _]]; [|discriminate Hd].
    apply Hcol. unfold vcf_columns. rewrite Hp in Etr |- *.
    rewrite Etr, Hcsv. exact Hc'.
  - rewrite (build_stats_without_vcf _ _ _ Etr) in Hb. now injection Hb as <-.
Qed.

Lemma C3_witness :
  exists amplicons amplicon_counts plot stats,
    getSchemeAmplicons Examples.fs_vcf (scheme Examples.args_vcf) = Return amplicons
    /\ getAmpliconCounts Examples.fs_vcf amplicons (align_report Examples.args_vcf)
       = (amplicon_counts, None)
    /\ Expected.files Expected.stats_vcf = [plot; stats]
    /\ exists table, stats_table (snd stats) = Some table
         /\ dict_get pykey_eqb table (KeyStr "# mapped reads")
            = Some (PyInt (sum_counts amplicon_counts)).
Proof.
  apply (C3_mapped_reads_is_sum_of_counts Examples.fs_vcf Examples.args_vcf
           (Expected.files Expected.stats_vcf)).
  - vm_compute. reflexivity.
  - vm_compute. intros [H|[H|H]]; [discriminate H | discriminate H | exact H].
Defined.

(** C4. When the loop of [run] completes on a dict of counts, the dropout
    count is the number of amplicons whose count is strictly below
    [min_depth]; an amplicon whose count equals [min_depth] is not a
    dropout; and without a variant report the count is what the stats table
    holds under [# low cov. amplicons]. *)
Theorem C4_dropouts_strictly_below_min_depth
  (min_depth : Z) (amplicon_counts : sdict Z) (t : Tally) :
  classify min_depth amplicon_counts = Return t ->
  dropouts t = low_coverage min_depth amplicon_counts
  /\ low_coverage min_depth amplicon_counts
     = Z.of_nat (List.length (filter (fun kv => snd kv <? min_depth) amplicon_counts))
  /\ (forall k t', classify min_depth [(k, min_depth)] = Return t' -> dropouts t' = 0)
  /\ (forall k c, In (k, c) amplicon_counts -> c = min_depth ->
        ~ In (k, c) (filter (fun kv => snd kv <? min_depth) amplicon_counts))
  /\ (forall fs args, truthy (vcf_report args) = false ->
        exists stats, build_stats fs args t = Return stats
          /\ dict_get pykey_eqb stats (KeyStr "# low cov. amplicons")
             = Some (PyInt (dropouts t))).
Proof.
  intros H. destruct (classify_spec _ _ _ H) as [_ [Hd _]].
  split; [exact Hd|]. split; [reflexivity|]. split; [|split].
  - intros k t' H'. destruct (classify_spec _ _ _ H') as [_ [Hd' _]].
    rewrite Hd'. unfold low_coverage. cbn [filter snd].
    now rewrite Z.ltb_irrefl.
  - intros k c _ -> Hin. apply filter_In in Hin. destruct Hin as [_ Hlt].
    cbn [snd] in Hlt. rewrite Z.ltb_irrefl in Hlt. discriminate Hlt.
  - intros fs args Htr. exists (base_stats t).
    split; [now apply build_stats_without_vcf | reflexivity].
Qed.

Lemma C4_witness :
  dropouts Expected.tally_ncov = low_coverage 2 Examples.counts_ncov
  /\ low_coverage 2 Examples.counts_ncov
     = Z.of_nat (List.length (filter (fun kv => snd kv <? 2) Examples.counts_ncov))
  /\ (forall k t', classify 2 [(k, 2)] = Return t' -> dropouts t' = 0)
  /\ (forall k c, In (k, c) Examples.counts_ncov -> c = 2 ->
        ~ In (k, c) (filter (fun kv => snd kv <? 2) Examples.counts_ncov))
  /\ (forall fs args, truthy (vcf_report args) = false ->
        exists stats, build_stats fs args Expected.tally_ncov = Return stats
          /\ dict_get pykey_eqb stats (KeyStr "# low cov. amplicons")
             = Some (PyInt (dropouts Expected.tally_ncov))).
Proof.
  apply (C4_dropouts_strictly_below_min_depth 2 Examples.counts_ncov
           Expected.tally_ncov).
  vm_compute. reflexivity.
Defined.

(** C5. For the primer records [read_bed_file] returns: the resolver
    succeeds if and only if every base name occurs exactly twice among them;
    on success the dict has exactly one key per base, the string
    [<base>_LEFT_<base>_RIGHT] written out, distinct bases giving distinct
    keys, each mapped to 0; and when
    some base has a primer count other than 2 the outcome is [SystemExit(1)]
    and no dict. *)
Theorem C5_resolver_succeeds_iff_two_primers_per_base
  (fs : FileSystem) (schemeFile : string) (ps : list Primer) :
  read_bed_file fs schemeFile = Return ps ->
  ((exists m, getSchemeAmplicons fs schemeFile = Return m)
   <-> (forall b, In b (bases ps) -> primer_count ps b = 2%nat))
  /\ (forall m, getSchemeAmplicons fs schemeFile = Return m ->
        NoDup (dict_keys m)
        /\ (forall k, In k (dict_keys m)
              <-> exists b, In b (bases ps)
                    /\ k = (b ++ "_LEFT_" ++ b ++ "_RIGHT")%string)
        /\ (forall b b', (b ++ "_LEFT_" ++ b ++ "_RIGHT")%string
                         = (b' ++ "_LEFT_" ++ b' ++ "_RIGHT")%string -> b = b')
        /\ (forall k v, In (k, v) m -> v = 0)
        /\ List.length m = List.length (nodup string_dec (bases ps)))
  /\ ((exists b, In b (bases ps) /\ primer_count ps b <> 2%nat) ->
      getSchemeAmplicons fs schemeFile = Raise (SystemExit 1)).
Proof.
  intros Hread. split; [|split].
  - split.
    + intros [m Hm]. destruct (getSchemeAmplicons_inv _ _ _ Hm) as [ps' [Hr [Hall _]]].
      rewrite Hread in Hr. injection Hr as <-. exact Hall.
    + intros Hall. eexists. apply (getSchemeAmplicons_ok _ _ _ Hread Hall).
  - intros m Hm. destruct (getSchemeAmplicons_inv _ _ _ Hm) as [ps' [Hr [Hall ->]]].
    rewrite Hread in Hr. injection Hr as <-.
    set (keys := dict_keys (fold_left dict_incr (bases ps) [])).
    assert (Hnd : NoDup keys) by (apply NoDup_tally; constructor).
    assert (Hin : forall b, In b keys <-> In b (bases ps)).
    { intros b. unfold keys. rewrite keys_tally. cbn [dict_keys map In]. tauto. }
    assert (Hk : dict_keys (map (fun b => (amplicon_name b, 0)) keys)
                 = map amplicon_name keys).
    { unfold dict_keys. rewrite map_map. reflexivity. }
    rewrite Hk. repeat split.
    + apply Finite.Injective_map_NoDup; [|exact Hnd].
      intros x y. apply amplicon_name_inj.
    + intros Hi. apply in_map_iff in Hi. destruct Hi as [b [<- Hb]].
      exists b. split; [now apply Hin | reflexivity].
    + intros [b [Hb ->]]. apply (in_map amplicon_name). now apply Hin.
    + exact amplicon_name_inj.
    + intros k v Hi. apply in_map_iff in Hi. destruct Hi as [b [[= _ <-] _]].
      reflexivity.
    + rewrite length_map. apply Permutation_length. apply NoDup_Permutation.
      * exact Hnd.
      * apply NoDup_nodup.
      * intros b. rewrite nodup_In. apply Hin.
  - apply (getSchemeAmplicons_fail _ _ _ Hread).
Qed.

Lemma C5_witness :
  ((exists m, getSchemeAmplicons Examples.fs_ncov "scheme.bed" = Return m)
   <-> (forall b, In b (bases Examples.scheme_ncov) ->
                  primer_count Examples.scheme_ncov b = 2%nat))
  /\ (forall m, getSchemeAmplicons Examples.fs_ncov "scheme.bed" = Return m ->
        NoDup (dict_keys m)
        /\ (forall k, In k (dict_keys m)
              <-> exists b, In b (bases Examples.scheme_ncov)
                    /\ k = (b ++ "_LEFT_" ++ b ++ "_RIGHT")%string)
        /\ (forall b b', (b ++ "_LEFT_" ++ b ++ "_RIGHT")%string
                         = (b' ++ "_LEFT_" ++ b' ++ "_RIGHT")%string -> b = b')
        /\ (forall k v, In (k, v) m -> v = 0)
        /\ List.length m = List.length (nodup string_dec (bases Examples.scheme_ncov)))
  /\ ((exists b, In b (bases Examples.scheme_ncov)
                 /\ primer_count Examples.scheme_ncov b <> 2%nat) ->
      getSchemeAmplicons Examples.fs_ncov "scheme.bed" = Raise (SystemExit 1)).
Proof.
  apply (C5_resolver_succeeds_iff_two_primers_per_base
           Examples.fs_ncov "scheme.bed" Examples.scheme_ncov).
  reflexivity.
Defined.

(** C6 (as stated, refuted).  The base [1] has two LEFT primers and no
    RIGHT primer, and the resolver emits its key [1_LEFT_1_RIGHT]. *)
Lemma C6_counterexample :
  In "1"%string (bases Examples.scheme_two_left)
  /\ n_left Examples.scheme_two_left "1" = 2%nat
  /\ n_right Examples.scheme_two_left "1" = 0%nat
  /\ getSchemeAmplicons Examples.fs_two_left "scheme.bed"
     = Return [("1_LEFT_1_RIGHT"%string, 0)]
  /\ ~ ((exists b, In b (bases Examples.scheme_two_left)
                   /\ ~ (n_left Examples.scheme_two_left b = 1%nat
                         /\ n_right Examples.scheme_two_left b = 1%nat)) ->
        exists e, getSchemeAmplicons Examples.fs_two_left "scheme.bed" = Raise e).
Proof.
  assert (Hr : getSchemeAmplicons Examples.fs_two_left "scheme.bed"
               = Return [("1_LEFT_1_RIGHT"%string, 0)]) by (vm_compute; reflexivity).
  split; [vm_compute; now left|]. split; [vm_compute; reflexivity|].
  split; [vm_compute; reflexivity|]. split; [exact Hr|].
  intros H. destruct H as [e He].
  - exists "1"%string. split; [vm_compute; now left|].
    vm_compute. intros [H _]. discriminate H.
  - rewrite Hr in He. discriminate He.
Qed.

(** C6 (amended).  The resolver counts the primers of a base whatever their
    direction: when some base does not have exactly two primers, LEFT and
    RIGHT together, it aborts with [SystemExit(1)] and emits no key; when
    every base has exactly two, it emits the key of each base, also of a
    base whose two primers have the same direction. *)
Theorem C6_resolver_aborts_unless_two_primers
  (fs : FileSystem) (schemeFile : string) (ps : list Primer) :
  read_bed_file fs schemeFile = Return ps ->
  ((exists b, In b (bases ps) /\ (n_left ps b + n_right ps b <> 2)%nat) ->
   getSchemeAmplicons fs schemeFile = Raise (SystemExit 1))
  /\ ((forall b, In b (bases ps) -> (n_left ps b + n_right ps b = 2)%nat) ->
      exists m, getSchemeAmplicons fs schemeFile = Return m
        /\ forall b, In b (bases ps) -> In (amplicon_name b) (dict_keys m)).
Proof.
  intros Hread. split.
  - intros [b [Hb Hc]]. apply (getSchemeAmplicons_fail _ _ _ Hread).
    exists b. split; [exact Hb|]. now rewrite primer_count_split.
  - intros Hall. eexists. split.
    + apply (getSchemeAmplicons_ok _ _ _ Hread).
      intros b Hb. rewrite primer_count_split. now apply Hall.
    + intros b Hb. unfold dict_keys. rewrite map_map. cbn [fst].
      apply in_map. apply keys_tally. now right.
Qed.

Lemma C6_witness :
  ((exists b, In b (bases Examples.scheme_three)
              /\ (n_left Examples.scheme_three b + n_right Examples.scheme_three b <> 2)%nat) ->
   getSchemeAmplicons Examples.fs_three "scheme.bed" = Raise (SystemExit 1))
  /\ ((forall b, In b (bases Examples.scheme_three) ->
         (n_left Examples.scheme_three b + n_right Examples.scheme_three b = 2)%nat) ->
      exists m, getSchemeAmplicons Examples.fs_three "scheme.bed" = Return m
        /\ forall b, In b (bases Examples.scheme_three) ->
                     In (amplicon_name b) (dict_keys m)).
Proof.
  apply (C6_resolver_aborts_unless_two_primers
           Examples.fs_three "scheme.bed" Examples.scheme_three).
  reflexivity.
Defined.

(** C7 (the code departs from the claim).  The scheme names its amplicons
    [nCoV_2019_1] and [nCoV_2019_2], two primers each; the report holds one
    counted read of the first and two of the second.  Both amplicon names
    have the second segment [2019], so the run completes with a renumbered
    dict of one entry, [2019 -> 2], for the two amplicons: the count of the
    first amplicon is in no document, while the total is still 3. *)
Theorem C7_renumbering_merges_amplicons :
  getSchemeAmplicons Examples.fs_under "scheme.bed" = Return Expected.amplicons_under
  /\ getAmpliconCounts Examples.fs_under Expected.amplicons_under "sample.alignreport.txt"
     = (Expected.counts_under, None)
  /\ ordinal_of "nCoV_2019_1_LEFT_nCoV_2019_1_RIGHT" = Return 2019
  /\ ordinal_of "nCoV_2019_2_LEFT_nCoV_2019_2_RIGHT" = Return 2019
  /\ classify 2 Expected.counts_under
     = Return {| readCount := 3; dropouts := 1;
                 amplicon_renamed_counts := [(2019, 2)] |}
  /\ List.length [(2019, 2)] <> List.length Expected.counts_under
  /\ run Examples.fs_under Examples.args12
     = ([plot_file Examples.args12
           {| readCount := 3; dropouts := 1;
              amplicon_renamed_counts := [(2019, 2)] |};
         stats_file Examples.args12
           [(KeyStr "# mapped reads", PyInt 3);
            (KeyStr "# low cov. amplicons", PyInt 1)]], None)
  /\ plot_series
       (snd (plot_file Examples.args12
               {| readCount := 3; dropouts := 1;
                  amplicon_renamed_counts := [(2019, 2)] |}))
     = Some [(2019, 2)].
Proof.
  repeat split; try (vm_compute; reflexivity). cbn. discriminate.
Qed.

(** C8 (as stated, refuted).  A row with pairing flag 0 names
    [1_LEFT_2_RIGHT], which is not a key of the dict; the aggregator skips
    it without an error. *)
Lemma C8_counterexample :
  parse_row Examples.row_unpaired = Return Expected.record_unpaired
  /\ ~ In (amplicon Expected.record_unpaired) (dict_keys Examples.counts12)
  /\ count_row Examples.counts12 Examples.row_unpaired = Return Examples.counts12
  /\ ~ (exists e, count_row Examples.counts12 Examples.row_unpaired = Raise e).
Proof.
  assert (H : count_row Examples.counts12 Examples.row_unpaired
              = Return Examples.counts12) by (vm_compute; reflexivity).
  split; [vm_compute; reflexivity|]. split.
  - cbn. intros [E|[E|[]]]; discriminate E.
  - split; [exact H|]. intros [e He]. rewrite H in He. discriminate He.
Qed.

(** C8 (amended).  The aggregator never changes the key set: after any
    prefix of the report the keys are those it was given, whether or not an
    exception ended the loop.  A line either leaves the dict unchanged or
    increments the count of one of its keys by 1.  Of the lines whose
    columns 1, 2, 10, 11 and 12 are integers and whose amplicon length
    [rEnd - rStart] is below [2 ^ 48] in magnitude: one that passes both
    filters increments the count of its amplicon name by 1 and no other
    count when the name is a key, and raises [SystemExit(1)] without
    inserting a key when it is not; one that fails a filter is skipped,
    whatever amplicon it names. *)
Theorem C8_aggregator_keeps_the_keys (amplicons : sdict Z) :
  (forall lines n,
     dict_keys (fst (count_rows amplicons (firstn n lines))) = dict_keys amplicons)
  /\ (forall fs path,
        dict_keys (fst (getAmpliconCounts fs amplicons path)) = dict_keys amplicons)
  /\ (forall l amplicons', count_row amplicons l = Return amplicons' ->
        amplicons' = amplicons
        \/ exists k n, dict_get String.eqb amplicons k = Some n
             /\ amplicons' = dict_set String.eqb amplicons k (n + 1))
  /\ (forall l r n,
        parse_row l = Return r -> Z.abs (ampliconLength r) < 2 ^ 48 ->
        passes_filters r ->
        dict_get String.eqb amplicons (amplicon r) = Some n ->
        exists amplicons',
          count_row amplicons l = Return amplicons'
          /\ dict_keys amplicons' = dict_keys amplicons
          /\ dict_get String.eqb amplicons' (amplicon r) = Some (n + 1)
          /\ forall k, k <> amplicon r ->
               dict_get String.eqb amplicons' k = dict_get String.eqb amplicons k)
  /\ (forall l r,
        parse_row l = Return r -> Z.abs (ampliconLength r) < 2 ^ 48 ->
        passes_filters r ->
        ~ In (amplicon r) (dict_keys amplicons) ->
        count_row amplicons l = Raise (SystemExit 1))
  /\ (forall l r,
        parse_row l = Return r -> Z.abs (ampliconLength r) < 2 ^ 48 ->
        ~ passes_filters r ->
        count_row amplicons l = Return amplicons).
Proof.
  split; [intros; apply count_rows_keys|].
  split; [intros; apply getAmpliconCounts_keys|].
  split; [intros l a' H; now apply (count_row_cases _ _ _ H)|].
  split; [|split].
  - intros l r n Hp Hb Hf Hn.
    destruct (filters_decide amplicons l r Hp Hb) as [Hyes _].
    exists (dict_set String.eqb amplicons (amplicon r) (n + 1)).
    split; [now apply Hyes|]. split.
    + apply (dict_keys_set_present _ String.eqb_eq). eapply dict_get_keys; eassumption.
    + split; [apply (dict_get_set_same _ String.eqb_eq)|].
      intros k Hk. now apply (dict_get_set_other _ String.eqb_eq).
  - intros l r Hp Hb [Hf1 Hf2] Hn. rewrite (count_row_spec _ _ _ Hp Hb).
    apply meets_threshold_iff in Hf2.
    apply (dict_get_None _ String.eqb_eq) in Hn. rewrite Hn.
    destruct (Z.eqb_spec (paired r) 1); [|contradiction].
    destruct (Z.leb_spec (19 * ampliconLength r) (20 * alignedLength r)); [|lia].
    reflexivity.
  - intros l r Hp Hb Hf. now apply (filters_decide amplicons l r Hp Hb).
Qed.

Lemma C8_witness :
  count_row Expected.amplicons_ncov Examples.row_absent = Raise (SystemExit 1).
Proof.
  apply (proj1 (proj2 (proj2 (proj2 (proj2
           (C8_aggregator_keeps_the_keys Expected.amplicons_ncov)))))
           Examples.row_absent Expected.record_absent).
  - vm_compute. reflexivity.
  - vm_compute. reflexivity.
  - split; [reflexivity|]. vm_compute. intros H. discriminate H.
  - cbn. intros [E|[E|[]]]; discriminate E.
Defined.

(** C9 (as stated, refuted).  The first data row of the variant report
    has two fields more than the header has columns.  The run completes,
    and the stats table has a fourth key, [None], with the list of the
    surplus fields: a key that is neither of the two computed stats nor a
    column of the report. *)
Lemma C9_counterexample :
  run (MoreExamples.fs_with MoreExamples.vcf_long) Examples.args_vcf
  = ([plot_file Examples.args_vcf Expected.tally_ncov;
      stats_file Examples.args_vcf
        [(KeyStr "# mapped reads", PyInt 4);
         (KeyStr "# low cov. amplicons", PyInt 1);
         (KeyStr "num variants", PyStr "7");
         (KeyNone, PyList ["8"; "9"]%string)]], None)
  /\ stats_table
       (snd (stats_file Examples.args_vcf
               [(KeyStr "# mapped reads", PyInt 4);
                (KeyStr "# low cov. amplicons", PyInt 1);
                (KeyStr "num variants", PyStr "7");
                (KeyNone, PyList ["8"; "9"]%string)]))
     = Some [(KeyStr "# mapped reads", PyInt 4);
             (KeyStr "# low cov. amplicons", PyInt 1);
             (KeyStr "num variants", PyStr "7");
             (KeyNone, PyList ["8"; "9"]%string)]
  /\ ~ (forall k,
         In k (dict_keys
                 [(KeyStr "# mapped reads", PyInt 4);
                  (KeyStr "# low cov. amplicons", PyInt 1);
                  (KeyStr "num variants", PyStr "7");
                  (KeyNone, PyList ["8"; "9"]%string)]) ->
         k = KeyStr "# mapped reads"
         \/ k = KeyStr "# low cov. amplicons"
         \/ exists c, k = KeyStr c
              /\ In c ["input VCF file"; "num variants"]%string
              /\ c <> "input VCF file"%string).
Proof.
  split; [vm_compute; reflexivity|]. split; [reflexivity|].
  intros H. destruct (H KeyNone) as [E | [E | (c & E & _)]]; try discriminate E.
  cbn. tauto.
Qed.

(** C9 (amended).  When a run completes, the data of the stats document
    has pairwise distinct keys, which are: without a variant report,
    exactly [# mapped reads] and [# low cov. amplicons], with the total and
    the dropout count of the run as values; with a variant report whose
    first data row has no more fields than the header has columns, those
    two and every column of the report except [input VCF file], and no
    other key. *)
Theorem C9_stats_table_keys
  (fs : FileSystem) (args : Args) (files : list (string * Document)) :
  run fs args = (files, None) ->
  exists plot stats table amplicons amplicon_counts t,
    files = [plot; stats]
    /\ stats_table (snd stats) = Some table
    /\ getSchemeAmplicons fs (scheme args) = Return amplicons
    /\ getAmpliconCounts fs amplicons (align_report args) = (amplicon_counts, None)
    /\ classify (min_depth args) amplicon_counts = Return t
    /\ NoDup (dict_keys table)
    /\ (truthy (vcf_report args) = false ->
        table = [(KeyStr "# mapped reads", PyInt (readCount t));
                 (KeyStr "# low cov. amplicons", PyInt (dropouts t))])
    /\ (forall path fieldnames rows row rest,
          vcf_report args = Some path ->
          truthy (vcf_report args) = true ->
          csv_reader fs path = Return (fieldnames :: rows) ->
          skip_blank_rows rows = row :: rest ->
          (List.length row <= List.length fieldnames)%nat ->
          forall k, In k (dict_keys table)
            <-> k = KeyStr "# mapped reads"
                \/ k = KeyStr "# low cov. amplicons"
                \/ exists c, k = KeyStr c /\ In c fieldnames
                     /\ c <> "input VCF file"%string).
Proof.
  intros Hrun.
  destruct (run_completes _ _ _ Hrun)
    as (amplicons & counts & t & stats & Hs & Hc & Ht & Hb & ->).
  eexists _, _, stats, amplicons, counts, t. split; [reflexivity|].
  split; [reflexivity|]. split; [exact Hs|]. split; [exact Hc|]. split; [exact Ht|].
  assert (Hbase : NoDup (dict_keys (base_stats t))).
  { cbn. constructor; [intros [E|[]]; discriminate E|].
    constructor; [intros [] | constructor]. }
  destruct (truthy (vcf_report args)) eqn:Etr.
  - destruct (build_stats_with_vcf _ _ _ _ Etr Hb) as (path & info & Hp & Hi & ->).
    split; [now apply (fold_set_NoDup pykey_eqb pykey_eqb_eq)|].
    split; [discriminate|].
    intros path' fn rows row rest Hp' _ Hcsv Hskip Hlen k.
    rewrite Hp in Hp'. injection Hp' as <-.
    destruct (getVCFreportInfo_inv _ _ _ Hi) as (fn' & rows' & row' & rest' & Hcsv' & Hskip' & Hk).
    rewrite Hcsv in Hcsv'. injection Hcsv' as <- <-.
    rewrite Hskip in Hskip'. injection Hskip' as <- <-.
    rewrite (fold_set_keys pykey_eqb pykey_eqb_eq fst snd).
    change (map fst info) with (dict_keys info). rewrite Hk, DictReader_row_keys.
    cbn [base_stats dict_keys map fst In]. split.
    + intros [[H|[H|[]]]|[[[c [-> Hc']]|[_ Hl]] Hne]]; auto; [|lia].
      right. right. exists c. repeat split; auto. congruence.
    + intros [->|[->|[c [-> [Hc' Hne]]]]]; auto.
      right. split; [left; now exists c | congruence].
  - rewrite (build_stats_without_vcf _ _ _ Etr) in Hb. injection Hb as <-.
    split; [exact Hbase|]. split; [reflexivity | discriminate].
Qed.

Lemma C9_witness :
  exists plot stats table amplicons amplicon_counts t,
    Expected.files Expected.stats_vcf = [plot; stats]
    /\ stats_table (snd stats) = Some table
    /\ getSchemeAmplicons Examples.fs_vcf (scheme Examples.args_vcf) = Return amplicons
    /\ getAmpliconCounts Examples.fs_vcf amplicons (align_report Examples.args_vcf)
       = (amplicon_counts, None)
    /\ classify (min_depth Examples.args_vcf) amplicon_counts = Return t
    /\ NoDup (dict_keys table)
    /\ (truthy (vcf_report Examples.args_vcf) = false ->
        table = [(KeyStr "# mapped reads", PyInt (readCount t));
                 (KeyStr "# low cov. amplicons", PyInt (dropouts t))])
    /\ (forall path fieldnames rows row rest,
          vcf_report Examples.args_vcf = Some path ->
          truthy (vcf_report Examples.args_vcf) = true ->
          csv_reader Examples.fs_vcf path = Return (fieldnames :: rows) ->
          skip_blank_rows rows = row :: rest ->
          (List.length row <= List.length fieldnames)%nat ->
          forall k, In k (dict_keys table)
            <-> k = KeyStr "# mapped reads"
                \/ k = KeyStr "# low cov. amplicons"
                \/ exists c, k = KeyStr c /\ In c fieldnames
                     /\ c <> "input VCF file"%string).
Proof.
  apply (C9_stats_table_keys Examples.fs_vcf Examples.args_vcf
           (Expected.files Expected.stats_vcf)).
  vm_compute. reflexivity.
Defined.

(** C10. The ordinal of an amplicon is [int] of the second
    underscore-delimited segment of its name.  For a base without
    underscore that segment of [<base>_LEFT_<base>_RIGHT] is [LEFT], on
    which [int] raises [ValueError]; so a run on a valid scheme with such a
    base that reaches the renumbering ends with an uncaught [ValueError]
    and writes nothing.  The renumbering completes only when every base
    has a second underscore-delimited segment that is a decimal integer
    (blanks, an optional sign, digits, blanks), and it does complete when
    [int] accepts the second segment of every base. *)
Theorem C10_ordinal_is_second_segment :
  (forall min_depth t k c t',
     tally_amplicon min_depth t (k, c) = Return t' ->
     exists token n,
       second_segment k = Some token /\ Str.int token = Return n
       /\ amplicon_renamed_counts t'
          = dict_set Z.eqb (amplicon_renamed_counts t) n c)
  /\ (forall b, has_char "_" b = false ->
        second_segment (amplicon_name b) = Some "LEFT"%string
        /\ Str.int "LEFT" = Raise ValueError
        /\ ordinal_of (amplicon_name b) = Raise ValueError)
  /\ (forall fs args amplicons amplicon_counts b,
        getSchemeAmplicons fs (scheme args) = Return amplicons ->
        getAmpliconCounts fs amplicons (align_report args) = (amplicon_counts, None) ->
        In (amplicon_name b) (dict_keys amplicons) ->
        has_char "_" b = false ->
        run fs args = ([], Some ValueError))
  /\ (forall min_depth amplicon_counts t b,
        classify min_depth amplicon_counts = Return t ->
        In (amplicon_name b) (dict_keys amplicon_counts) ->
        exists token n,
          second_segment b = Some token /\ Str.int token = Return n
          /\ decimal_integer token)
  /\ (forall min_depth amplicon_counts,
        (forall k, In k (dict_keys amplicon_counts) ->
           exists b token n, k = amplicon_name b
             /\ second_segment b = Some token /\ Str.int token = Return n) ->
        exists t, classify min_depth amplicon_counts = Return t).
Proof.
  split; [|split; [|split; [|split]]].
  - intros md t k c t' H. rewrite tally_amplicon_spec in H. cbn [fst snd] in H.
    unfold ordinal_of, subscript, second_segment in *.
    destruct (nth_error (Str.split k "_") 1) as [token|]; [|discriminate H].
    cbn [bind] in H. destruct (Str.int token) as [n|e] eqn:Ei; [|discriminate H].
    cbn [bind] in H. injection H as <-. exists token, n.
    split; [reflexivity|]. split; [exact Ei | reflexivity].
  - intros b Hb. split; [now apply second_segment_name_plain|].
    split; [reflexivity | now apply ordinal_of_plain].
  - intros fs args amplicons counts b Hs Hc Hin Hb. unfold run. rewrite Hs, Hc.
    assert (Hkeys : dict_keys counts = dict_keys amplicons).
    { pose proof (getAmpliconCounts_keys fs amplicons (align_report args)) as Hk.
      now rewrite Hc in Hk. }
    rewrite <- Hkeys in Hin. apply in_map_iff in Hin.
    destruct Hin as [[k c] [Hk Hkc]]. cbn [fst] in Hk. subst k.
    unfold classify.
    destruct (tally_loop_fails (min_depth args) counts
                {| readCount := 0; dropouts := 0; amplicon_renamed_counts := [] |}
                _ _ _ Hkc (ordinal_of_plain b Hb)) as [e He].
    rewrite He.
    destruct (tally_loop_raise _ _ _ _ He) as [k' [c' [Hin' Ho]]].
    assert (Hk' : In k' (dict_keys amplicons)).
    { rewrite <- Hkeys. change k' with (fst (k', c')). now apply in_map. }
    destruct (resolver_keys_are_names _ _ _ Hs k' Hk') as [b' ->].
    now rewrite (ordinal_of_name_raises _ _ Ho).
  - intros md counts t b Hc Hin.
    destruct (classify_spec _ _ _ Hc) as [_ [_ [items [Ho _]]]].
    apply in_map_iff in Hin. destruct Hin as [[k c] [Hk Hkc]]. cbn [fst] in Hk. subst k.
    destruct (Forall2_In_l _ _ _ (ordinals_Forall2 _ _ Ho) _ Hkc) as [[n c'] [_ [Hok _]]].
    cbn [fst] in Hok.
    destruct (has_char "_" b) eqn:Hb.
    + unfold ordinal_of, subscript in Hok.
      pose proof (second_segment_name_under b Hb) as Hseg.
      unfold second_segment in Hseg |- *. rewrite Hseg in Hok.
      destruct (nth_error (Str.split b "_") 1) as [token|] eqn:Et; [|discriminate Hok].
      cbn [bind] in Hok. exists token, n. split; [reflexivity|]. split; [exact Hok|].
      apply (int_accepts_decimal _ _ Hok). now apply (second_segment_plain b).
    + rewrite (ordinal_of_plain b Hb) in Hok. discriminate Hok.
  - intros md counts Hall. unfold classify.
    assert (Hord : exists items, ordinals counts = Return items).
    { induction counts as [|[k c] counts IH]; [now exists []|].
      destruct IH as [items Hi]; [intros k' Hk'; apply Hall; now right|].
      destruct (Hall k (or_introl eq_refl)) as (b & token & n & -> & Hseg & Hint).
      exists ((n, c) :: items). cbn [ordinals]. rewrite Hi.
      assert (Hb : has_char "_" b = true).
      { destruct (has_char "_" b) eqn:E; [reflexivity|].
        rewrite (second_segment_None b E) in Hseg. discriminate Hseg. }
      unfold ordinal_of, subscript.
      pose proof (second_segment_name_under b Hb) as Hs. unfold second_segment in Hs, Hseg.
      rewrite Hs, Hseg. cbn [bind]. rewrite Hint. reflexivity. }
    destruct Hord as [items Hi]. eapply tally_loop_total. exact Hi.
Qed.

Lemma C10_witness :
  run Examples.fs12 Examples.args12 = ([], Some ValueError).
Proof.
  apply (proj1 (proj2 (proj2 C10_ordinal_is_second_segment))
           Examples.fs12 Examples.args12
           [("1_LEFT_1_RIGHT"%string, 0); ("2_LEFT_2_RIGHT"%string, 0)]
           Examples.counts12 "1"%string).
  - vm_compute. reflexivity.
  - vm_compute. reflexivity.
  - cbn. now left.
  - reflexivity.
Defined.

(** * Further properties of the module *)

Ltac well_formed_rows :=
  repeat (apply Forall_cons;
          [eexists; split; [vm_compute; reflexivity | vm_compute; reflexivity]|]);
  apply Forall_nil.

(** ** The resolver *)

(** X1. The dict the resolver returns lists the bases in the order in which
    they first appear in the scheme, one entry [<base>_LEFT_<base>_RIGHT]
    with value 0 per base. *)
Theorem resolver_keys_in_order_of_first_appearance
  (fs : FileSystem) (schemeFile : string) (m : sdict Z) :
  getSchemeAmplicons fs schemeFile = Return m ->
  exists ps, read_bed_file fs schemeFile = Return ps
    /\ m = map (fun b => (amplicon_name b, 0)) (first_occurrences (bases ps))
    /\ NoDup (first_occurrences (bases ps))
    /\ forall b, In b (first_occurrences (bases ps)) <-> In b (bases ps).
Proof.
  intros H. destruct (getSchemeAmplicons_inv _ _ _ H) as (ps & Hread & _ & ->).
  exists ps. split; [exact Hread|]. rewrite keys_tally_order. cbn [dict_keys map app].
  split; [reflexivity|]. split; [apply unseen_NoDup|].
  intros b. unfold first_occurrences. rewrite unseen_In. cbn [In]. tauto.
Qed.

Lemma resolver_keys_in_order_of_first_appearance_witness :
  exists ps, read_bed_file Examples.fs_ncov "scheme.bed" = Return ps
    /\ Expected.amplicons_ncov
       = map (fun b => (amplicon_name b, 0)) (first_occurrences (bases ps))
    /\ NoDup (first_occurrences (bases ps))
    /\ forall b, In b (first_occurrences (bases ps)) <-> In b (bases ps).
Proof.
  apply (resolver_keys_in_order_of_first_appearance Examples.fs_ncov "scheme.bed"
           Expected.amplicons_ncov).
  vm_compute. reflexivity.
Defined.

(** X2. The base of a primer is the text of its name before the first
    [_LEFT] (direction [+]) or [_RIGHT] (any other direction), whatever
    follows the suffix; a name without the suffix of its direction is its
    own base.  The first loop counts the primer under that base. *)
Theorem primer_base_is_text_before_first_suffix (p : Primer) (d : sdict Z) :
  (forall b rest,
     Primer_ID p = (b ++ direction_suffix p ++ rest)%string ->
     occurs (direction_suffix p) b = false ->
     base_of p = b /\ count_primer d p = Return (dict_incr d b))
  /\ (occurs (direction_suffix p) (Primer_ID p) = false ->
      base_of p = Primer_ID p
      /\ count_primer d p = Return (dict_incr d (Primer_ID p))).
Proof.
  assert (Hbase : base_of p
                  = hd EmptyString (Str.split (Primer_ID p) (direction_suffix p))).
  { unfold base_of, direction_suffix. now destruct (String.eqb (direction p) "+"). }
  assert (Hsplit : forall b rest,
             occurs (direction_suffix p) b = false ->
             hd EmptyString
               (Str.split (b ++ direction_suffix p ++ rest) (direction_suffix p)) = b).
  { intros b rest. unfold direction_suffix, Str.split.
    destruct (String.eqb (direction p) "+"); intros Hocc.
    - now rewrite (split_go_first_piece "LEFT" eq_refl b EmptyString rest Hocc).
    - now rewrite (split_go_first_piece "RIGHT" eq_refl b EmptyString rest Hocc). }
  assert (Hwhole : occurs (direction_suffix p) (Primer_ID p) = false ->
             Str.split (Primer_ID p) (direction_suffix p) = [Primer_ID p]).
  { unfold direction_suffix, Str.split.
    destruct (String.eqb (direction p) "+"); intros Hocc.
    - now rewrite (split_go_no_occurrence "LEFT" _ EmptyString Hocc).
    - now rewrite (split_go_no_occurrence "RIGHT" _ EmptyString Hocc). }
  split.
  - intros b rest Hid Hocc.
    assert (E : base_of p = b) by (rewrite Hbase, Hid; now apply Hsplit).
    split; [exact E|]. now rewrite count_primer_spec, E.
  - intros Hocc.
    assert (E : base_of p = Primer_ID p) by (now rewrite Hbase, Hwhole).
    split; [exact E|]. now rewrite count_primer_spec, E.
Qed.

Lemma primer_base_is_text_before_first_suffix_witness :
  base_of MoreExamples.primer_alt = "nCoV-2019_1"%string
  /\ count_primer [] MoreExamples.primer_alt
     = Return (dict_incr [] "nCoV-2019_1"%string).
Proof.
  apply (proj1 (primer_base_is_text_before_first_suffix MoreExamples.primer_alt [])
           "nCoV-2019_1"%string "_alt1"%string).
  - vm_compute. reflexivity.
  - vm_compute. reflexivity.
Defined.

(** X3. The resolver raises nothing of its own but [SystemExit(1)], and
    that only for a scheme with a base whose primer count is not 2; any
    other exception is the one [read_bed_file] raised. *)
Theorem resolver_raises_only_SystemExit
  (fs : FileSystem) (schemeFile : string) (e : exn) :
  getSchemeAmplicons fs schemeFile = Raise e ->
  read_bed_file fs schemeFile = Raise e
  \/ (e = SystemExit 1
      /\ exists ps b, read_bed_file fs schemeFile = Return ps
           /\ In b (bases ps) /\ primer_count ps b <> 2%nat).
Proof.
  intros H. destruct (read_bed_file fs schemeFile) as [ps|e'] eqn:Hread.
  - right.
    destruct (forallb (fun b => Nat.eqb (primer_count ps b) 2) (bases ps)) eqn:Hall.
    + assert (Hall' : forall b, In b (bases ps) -> primer_count ps b = 2%nat).
      { intros b Hb. apply Nat.eqb_eq. revert b Hb. now apply forallb_forall. }
      rewrite (getSchemeAmplicons_ok _ _ _ Hread Hall') in H. discriminate H.
    + apply forallb_false_exists in Hall. destruct Hall as [b [Hb Hc]].
      apply Nat.eqb_neq in Hc.
      rewrite (getSchemeAmplicons_fail _ _ _ Hread) in H by now exists b.
      injection H as <-. split; [reflexivity|]. now exists ps, b.
  - left. unfold getSchemeAmplicons in H. rewrite Hread in H. cbn [bind] in H.
    now injection H as <-.
Qed.

Lemma resolver_raises_only_SystemExit_witness :
  read_bed_file Examples.fs_three "scheme.bed" = Raise (SystemExit 1)
  \/ (SystemExit 1 = SystemExit 1
      /\ exists ps b, read_bed_file Examples.fs_three "scheme.bed" = Return ps
           /\ In b (bases ps) /\ primer_count ps b <> 2%nat).
Proof.
  apply (resolver_raises_only_SystemExit Examples.fs_three "scheme.bed" (SystemExit 1)).
  vm_compute. reflexivity.
Defined.

(** ** The aggregator *)

(** X4. On a report whose data lines are all well formed, the aggregator
    returns without an exception exactly when the file is read to its end
    and every data line that passes both filters names a key of the dict;
    the header line is not looked at. *)
Theorem aggregator_completes_iff_counted_lines_name_keys
  (fs : FileSystem) (amplicons : sdict Z) (path : string) (lines : list string)
  (read_error : option exn) :
  open_lines fs path = Return (lines, read_error) ->
  Forall well_formed_row (tl lines) ->
  ((exists final, getAmpliconCounts fs amplicons path = (final, None))
   <-> read_error = None
       /\ forall l r, In l (tl lines) -> parse_row l = Return r -> passes_filters r ->
                      In (amplicon r) (dict_keys amplicons)).
Proof.
  intros Hopen Hwf. rewrite <- (count_rows_completes _ amplicons Hwf). split.
  - intros [final H]. apply getAmpliconCounts_returns in H.
    destruct H as (lines' & Hl & H). rewrite Hopen in Hl. injection Hl as <- ->.
    split; [reflexivity | now exists final].
  - intros [-> [final H]]. exists final. apply getAmpliconCounts_returns.
    now exists lines.
Qed.

Lemma aggregator_completes_iff_counted_lines_name_keys_witness :
  (exists final,
     getAmpliconCounts Examples.fs_ncov Expected.amplicons_ncov
       "sample.alignreport.txt"%string = (final, None))
  <-> @None exn = None
      /\ forall l r, In l (tl Examples.report_ncov) -> parse_row l = Return r ->
                     passes_filters r ->
                     In (amplicon r) (dict_keys Expected.amplicons_ncov).
Proof.
  apply (aggregator_completes_iff_counted_lines_name_keys Examples.fs_ncov
           Expected.amplicons_ncov "sample.alignreport.txt" Examples.report_ncov None).
  - reflexivity.
  - well_formed_rows.
Defined.

(** X5. When the aggregator returns on a report whose data lines are all
    well formed, the count of each key is what it was before plus the
    number of data lines that pass both filters and name that key. *)
Theorem aggregator_final_count_per_key
  (fs : FileSystem) (amplicons final : sdict Z) (path : string)
  (lines : list string) (read_error : option exn) (k : string) (n : Z) :
  open_lines fs path = Return (lines, read_error) ->
  Forall well_formed_row (tl lines) ->
  getAmpliconCounts fs amplicons path = (final, None) ->
  dict_get String.eqb amplicons k = Some n ->
  dict_get String.eqb final k
  = Some (n + Z.of_nat (List.length (filter (counted_for k) (tl lines)))).
Proof.
  intros Hopen Hwf Hc Hk. apply getAmpliconCounts_returns in Hc.
  destruct Hc as (lines' & Hl & Hc). rewrite Hopen in Hl. injection Hl as <- _.
  exact (count_rows_per_key _ _ _ _ _ Hwf Hc Hk).
Qed.

Lemma aggregator_final_count_per_key_witness :
  dict_get String.eqb Examples.counts_ncov
    "nCoV-2019_1_LEFT_nCoV-2019_1_RIGHT"%string
  = Some (0 + Z.of_nat
                (List.length
                   (filter (counted_for "nCoV-2019_1_LEFT_nCoV-2019_1_RIGHT"%string)
                      (tl Examples.report_ncov)))).
Proof.
  apply (aggregator_final_count_per_key Examples.fs_ncov Expected.amplicons_ncov
           Examples.counts_ncov "sample.alignreport.txt" Examples.report_ncov None).
  - reflexivity.
  - well_formed_rows.
  - vm_compute. reflexivity.
  - vm_compute. reflexivity.
Defined.

(** X6. The report is read line by line, so an exception ends the
    aggregator where it is raised, with the counts of the data lines taken
    before it in the dict.  The exception is the one [open] raised, with
    the dict untouched; or the one the iterator of the file raised, after
    every line it delivered was counted; or it comes from the first line
    that raises, and is then [IndexError], [ValueError], [OverflowError] or
    [SystemExit(1)], never [KeyError]. *)
Theorem aggregator_stops_at_first_failing_line
  (fs : FileSystem) (amplicons final : sdict Z) (path : string) (e : exn) :
  getAmpliconCounts fs amplicons path = (final, Some e) ->
  (open_lines fs path = Raise e /\ final = amplicons)
  \/ (exists lines,
        open_lines fs path = Return (lines, Some e)
        /\ count_rows amplicons (tl lines) = (final, None))
  \/ (exists lines read_error before l after,
        open_lines fs path = Return (lines, read_error)
        /\ tl lines = before ++ l :: after
        /\ count_rows amplicons before = (final, None)
        /\ count_row final l = Raise e
        /\ (e = IndexError \/ e = ValueError \/ e = OverflowError
            \/ e = SystemExit 1)).
Proof.
  unfold getAmpliconCounts. intros H.
  destruct (open_lines fs path) as [[lines read_error]|e'] eqn:Hopen.
  - right. destruct (count_rows amplicons (tl lines)) as [a [e'|]] eqn:Hrows.
    + right. injection H as <- <-.
      destruct (count_rows_raise _ _ _ _ Hrows) as (before & l & after & E & Hb & Hl).
      exists lines, read_error, before, l, after. repeat split; try assumption.
      eapply count_row_raises, Hl.
    + left. injection H as <- ->. now exists lines.
  - left. now injection H as <- <-.
Qed.

Lemma aggregator_stops_at_first_failing_line_witness :
  (open_lines MoreExamples.fs_read_error "sample.alignreport.txt"%string
   = Raise OSError
   /\ [("nCoV-2019_1_LEFT_nCoV-2019_1_RIGHT"%string, 1);
       ("nCoV-2019_2_LEFT_nCoV-2019_2_RIGHT"%string, 0)] = Expected.amplicons_ncov)
  \/ (exists lines,
        open_lines MoreExamples.fs_read_error "sample.alignreport.txt"%string
        = Return (lines, Some OSError)
        /\ count_rows Expected.amplicons_ncov (tl lines)
           = ([("nCoV-2019_1_LEFT_nCoV-2019_1_RIGHT"%string, 1);
               ("nCoV-2019_2_LEFT_nCoV-2019_2_RIGHT"%string, 0)], None))
  \/ (exists lines read_error before l after,
        open_lines MoreExamples.fs_read_error "sample.alignreport.txt"%string
        = Return (lines, read_error)
        /\ tl lines = before ++ l :: after
        /\ count_rows Expected.amplicons_ncov before
           = ([("nCoV-2019_1_LEFT_nCoV-2019_1_RIGHT"%string, 1);
               ("nCoV-2019_2_LEFT_nCoV-2019_2_RIGHT"%string, 0)], None)
        /\ count_row [("nCoV-2019_1_LEFT_nCoV-2019_1_RIGHT"%string, 1);
                      ("nCoV-2019_2_LEFT_nCoV-2019_2_RIGHT"%string, 0)] l
           = Raise OSError
        /\ (OSError = IndexError \/ OSError = ValueError
            \/ OSError = OverflowError \/ OSError = SystemExit 1)).
Proof.
  apply (aggregator_stops_at_first_failing_line MoreExamples.fs_read_error
           Expected.amplicons_ncov).
  vm_compute. reflexivity.
Defined.

(** X7. A line with fewer than 13 tab-separated columns once its trailing
    whitespace is stripped, a blank line in particular, raises
    [IndexError] whatever the dict holds; met after some data lines, it
    ends the loop with the counts of those lines. *)
Theorem short_line_raises_IndexError (amplicons : sdict Z) (l : string) :
  ((count_char "009" (Str.rstrip l) < 12)%nat ->
   count_row amplicons l = Raise IndexError)
  /\ (all_chars Str.isspace l = true -> count_row amplicons l = Raise IndexError)
  /\ (forall before after final,
        (count_char "009" (Str.rstrip l) < 12)%nat ->
        count_rows amplicons before = (final, None) ->
        count_rows amplicons (before ++ l :: after) = (final, Some IndexError)).
Proof.
  split; [apply count_row_short|]. split.
  - intros H. apply count_row_short. now rewrite (rstrip_blank _ H); cbn; lia.
  - intros before after final Hs Hb. rewrite count_rows_app, Hb.
    cbn [count_rows]. now rewrite (count_row_short final l Hs).
Qed.

Lemma short_line_raises_IndexError_witness :
  count_row Expected.amplicons_ncov MoreExamples.row_short = Raise IndexError
  /\ count_row Expected.amplicons_ncov NL = Raise IndexError.
Proof.
  split.
  - apply (proj1 (short_line_raises_IndexError Expected.amplicons_ncov
                    MoreExamples.row_short)).
    vm_compute. lia.
  - apply (proj1 (proj2 (short_line_raises_IndexError Expected.amplicons_ncov NL))).
    vm_compute. reflexivity.
Defined.

(** X9. The order of the data lines does not matter, nor does the header:
    when the aggregator returns on a report of well-formed data lines, it
    returns the same dict on any report with the same data lines in
    another order. *)
Theorem aggregator_ignores_line_order
  (fs fs' : FileSystem) (path path' : string) (amplicons final : sdict Z)
  (h h' : string) (data data' : list string) :
  open_lines fs path = Return (h :: data, None) ->
  open_lines fs' path' = Return (h' :: data', None) ->
  Permutation data data' ->
  Forall well_formed_row data ->
  NoDup (dict_keys amplicons) ->
  getAmpliconCounts fs amplicons path = (final, None) ->
  getAmpliconCounts fs' amplicons path' = (final, None).
Proof.
  intros Hopen Hopen' Hp Hwf Hnd Hc. apply getAmpliconCounts_returns in Hc.
  destruct Hc as (lines & Hl & Hc). rewrite Hopen in Hl. injection Hl as <-.
  cbn [tl] in Hc. apply getAmpliconCounts_returns. exists (h' :: data').
  split; [exact Hopen'|]. cbn [tl].
  exact (count_rows_permutation _ _ _ _ Hp Hwf Hnd Hc).
Qed.

Lemma aggregator_ignores_line_order_witness :
  getAmpliconCounts MoreExamples.fs_reversed Expected.amplicons_ncov
    "sample.alignreport.txt"%string
  = (Examples.counts_ncov, None).
Proof.
  apply (aggregator_ignores_line_order Examples.fs_ncov MoreExamples.fs_reversed
           "sample.alignreport.txt" "sample.alignreport.txt"
           Expected.amplicons_ncov Examples.counts_ncov
           (hd EmptyString Examples.report_ncov) NL
           (tl Examples.report_ncov) (rev (tl Examples.report_ncov))).
  - reflexivity.
  - reflexivity.
  - apply Permutation_rev.
  - well_formed_rows.
  - repeat constructor; cbn; intuition discriminate.
  - vm_compute. reflexivity.
Defined.

(** X10. Whatever the report holds and however the aggregator ends, the
    dict keeps its keys in their order and no count goes down; counts that
    were not negative stay so. *)
Theorem aggregator_counts_only_grow
  (fs : FileSystem) (amplicons : sdict Z) (path : string) :
  grows amplicons (fst (getAmpliconCounts fs amplicons path))
  /\ (nonneg amplicons -> nonneg (fst (getAmpliconCounts fs amplicons path))).
Proof.
  split; [|apply getAmpliconCounts_nonneg].
  rewrite getAmpliconCounts_state.
  destruct (open_lines fs path) as [[lines read_error]|e];
    [apply count_rows_grows | apply grows_refl].
Qed.

Lemma aggregator_counts_only_grow_witness :
  nonneg (fst (getAmpliconCounts MoreExamples.fs_absent Expected.amplicons_ncov
                 "sample.alignreport.txt"%string)).
Proof.
  apply (proj2 (aggregator_counts_only_grow MoreExamples.fs_absent
                  Expected.amplicons_ncov "sample.alignreport.txt")).
  repeat constructor; cbn; lia.
Defined.

(** X11. In a run that completes on a report whose data lines are all well
    formed, the total [readCount] is the number of data lines that pass
    both filters. *)
Theorem mapped_reads_is_number_of_counted_lines
  (fs : FileSystem) (args : Args) (files : list (string * Document))
  (lines : list string) (read_error : option exn) :
  run fs args = (files, None) ->
  open_lines fs (align_report args) = Return (lines, read_error) ->
  Forall well_formed_row (tl lines) ->
  exists t table,
    files = [plot_file args t; stats_file args table]
    /\ build_stats fs args t = Return table
    /\ readCount t = Z.of_nat (List.length (filter counted (tl lines))).
Proof.
  intros Hrun Hopen Hwf.
  destruct (run_completes _ _ _ Hrun) as (amplicons & counts & t & table
                                           & Hs & Hc & Ht & Hb & ->).
  exists t, table. split; [reflexivity|]. split; [exact Hb|].
  destruct (classify_spec _ _ _ Ht) as (-> & _).
  apply getAmpliconCounts_returns in Hc.
  destruct Hc as (lines' & Hl & Hc). rewrite Hopen in Hl. injection Hl as <- _.
  rewrite (count_rows_total _ _ _ Hwf Hc).
  destruct (getSchemeAmplicons_inv _ _ _ Hs) as (ps & _ & _ & ->).
  rewrite sum_counts_zeroed. lia.
Qed.

Lemma mapped_reads_is_number_of_counted_lines_witness :
  exists t table,
    Expected.files Expected.stats_ncov
    = [plot_file Examples.args12 t; stats_file Examples.args12 table]
    /\ build_stats Examples.fs_ncov Examples.args12 t = Return table
    /\ readCount t
       = Z.of_nat (List.length (filter counted (tl Examples.report_ncov))).
Proof.
  apply (mapped_reads_is_number_of_counted_lines Examples.fs_ncov Examples.args12
           (Expected.files Expected.stats_ncov) Examples.report_ncov None).
  - vm_compute. reflexivity.
  - reflexivity.
  - well_formed_rows.
Defined.

(** ** The renumbering and the tally *)

(** X12. When two amplicon names have the same ordinal, the count of the
    one that comes last in the dict is the one kept: the renumbered dict
    maps an ordinal to the count of the last amplicon with that ordinal,
    and its keys are the ordinals of the amplicon names. *)
Theorem renumbering_keeps_the_last_amplicon_of_an_ordinal
  (min_depth : Z) (amplicon_counts : sdict Z) (t : Tally) :
  classify min_depth amplicon_counts = Return t ->
  (forall n, dict_get Z.eqb (amplicon_renamed_counts t) n
             = option_map snd (find (ordinal_is n) (rev amplicon_counts)))
  /\ (forall n, In n (dict_keys (amplicon_renamed_counts t))
        <-> exists k c, In (k, c) amplicon_counts /\ ordinal_of k = Return n).
Proof.
  intros H. split; [intros n; now apply (classify_get min_depth)|].
  intros n. destruct (classify_spec _ _ _ H) as (_ & _ & items & Hi & ->).
  rewrite renumber_keys, (ordinals_keys _ _ n Hi). cbn [dict_keys map In]. tauto.
Qed.

Lemma renumbering_keeps_the_last_amplicon_of_an_ordinal_witness :
  (forall n, dict_get Z.eqb [(2019, 2)] n
             = option_map snd (find (ordinal_is n) (rev Expected.counts_under)))
  /\ (forall n, In n (dict_keys [(2019, 2)])
        <-> exists k c, In (k, c) Expected.counts_under /\ ordinal_of k = Return n).
Proof.
  apply (renumbering_keeps_the_last_amplicon_of_an_ordinal 20 Expected.counts_under
           {| readCount := 3; dropouts := 2;
              amplicon_renamed_counts := [(2019, 2)] |}).
  vm_compute. reflexivity.
Defined.

(** X13. The depth threshold only enters the dropout count: whether the
    loop of [run] completes, the total and the renumbered dict do not
    depend on it; the dropout count does not decrease when the threshold
    is raised, and lies between 0 and the number of amplicons. *)
Theorem dropouts_monotone_in_min_depth
  (min_depth min_depth' : Z) (amplicon_counts : sdict Z) (t : Tally) :
  classify min_depth amplicon_counts = Return t ->
  min_depth <= min_depth' ->
  exists t', classify min_depth' amplicon_counts = Return t'
    /\ readCount t' = readCount t
    /\ amplicon_renamed_counts t' = amplicon_renamed_counts t
    /\ dropouts t <= dropouts t'
    /\ 0 <= dropouts t <= Z.of_nat (List.length amplicon_counts).
Proof.
  intros H Hle. destruct (classify_total_any_depth _ min_depth' _ _ H) as [t' H'].
  exists t'. split; [exact H'|].
  destruct (classify_spec _ _ _ H) as (-> & -> & items & Hi & ->).
  destruct (classify_spec _ _ _ H') as (-> & -> & items' & Hi' & ->).
  rewrite Hi in Hi'. injection Hi' as <-.
  repeat split; try reflexivity.
  - now apply low_coverage_mono.
  - apply low_coverage_bounds.
  - apply low_coverage_bounds.
Qed.

Lemma dropouts_monotone_in_min_depth_witness :
  exists t', classify 4 Examples.counts_ncov = Return t'
    /\ readCount t' = readCount Expected.tally_ncov
    /\ amplicon_renamed_counts t' = amplicon_renamed_counts Expected.tally_ncov
    /\ dropouts Expected.tally_ncov <= dropouts t'
    /\ 0 <= dropouts Expected.tally_ncov
       <= Z.of_nat (List.length Examples.counts_ncov).
Proof.
  apply (dropouts_monotone_in_min_depth 2 4 Examples.counts_ncov Expected.tally_ncov).
  - vm_compute. reflexivity.
  - lia.
Defined.

(** X14. When the amplicon names have pairwise distinct ordinals, the
    renumbered dict lists the amplicons in the order of the dict of
    counts, each under its ordinal with its count. *)
Theorem renumbering_keeps_the_order_of_the_counts
  (min_depth : Z) (amplicon_counts : sdict Z) (t : Tally) :
  classify min_depth amplicon_counts = Return t ->
  NoDup (dict_keys amplicon_counts) ->
  (forall k1 k2, In k1 (dict_keys amplicon_counts) ->
                 In k2 (dict_keys amplicon_counts) ->
                 ordinal_of k1 = ordinal_of k2 -> k1 = k2) ->
  Forall2 (fun kc nc => ordinal_of (fst kc) = Return (fst nc) /\ snd kc = snd nc)
    amplicon_counts (amplicon_renamed_counts t).
Proof.
  intros H Hnd Hinj. destruct (classify_spec _ _ _ H) as (_ & _ & items & Hi & ->).
  rewrite renumber_fresh.
  - cbn [app]. now apply ordinals_Forall2.
  - eapply ordinals_NoDup; eassumption.
  - intros n _ [].
Qed.

Lemma renumbering_keeps_the_order_of_the_counts_witness :
  Forall2 (fun kc nc => ordinal_of (fst kc) = Return (fst nc) /\ snd kc = snd nc)
    Examples.counts_ncov (amplicon_renamed_counts Expected.tally_ncov).
Proof.
  apply (renumbering_keeps_the_order_of_the_counts 2 Examples.counts_ncov
           Expected.tally_ncov).
  - vm_compute. reflexivity.
  - repeat constructor; cbn; intuition discriminate.
  - intros k1 k2 [<-|[<-|[]]] [<-|[<-|[]]]; vm_compute; intros H;
      solve [reflexivity | discriminate H].
Defined.

(** ** The variant report and the stats table *)

(** X15. On a variant report with distinct column names whose first data
    row has as many fields as the header, the reader returns one entry per
    column other than [input VCF file], in the order of the columns, with
    the field of the row as a string. *)
Theorem vcf_info_is_first_row_without_input_file
  (fs : FileSystem) (path : string) (fieldnames row : list string)
  (rows rest : list (list string)) :
  csv_reader fs path = Return (fieldnames :: rows) ->
  skip_blank_rows rows = row :: rest ->
  NoDup fieldnames ->
  List.length row = List.length fieldnames ->
  getVCFreportInfo fs path = Return (vcf_entries fieldnames row).
Proof.
  intros Hcsv Hskip Hnd Hlen.
  rewrite (getVCFreportInfo_entries _ _ _ _ _ _ Hcsv Hskip Hnd).
  unfold DictReader_entries. rewrite Hlen, Nat.ltb_irrefl, skipn_all. cbn [map].
  now rewrite app_nil_r, filter_zipped.
Qed.

Lemma vcf_info_is_first_row_without_input_file_witness :
  getVCFreportInfo Examples.fs_vcf "sample.vcfreport.txt"
  = Return [(KeyStr "num variants", PyStr "7")].
Proof.
  apply (vcf_info_is_first_row_without_input_file Examples.fs_vcf
           "sample.vcfreport.txt" ["input VCF file"; "num variants"]%string
           ["sample.pass.vcf"; "7"]%string [["sample.pass.vcf"; "7"]%string] []).
  - reflexivity.
  - reflexivity.
  - repeat constructor; cbn; intuition discriminate.
  - reflexivity.
Defined.

(** X16. When the first data row has more fields than the header has
    columns, the reader returns the entries of the columns followed by one
    entry whose key is [None] and whose value is the list of the surplus
    fields. *)
Theorem vcf_surplus_fields_are_kept_under_None
  (fs : FileSystem) (path : string) (fieldnames row : list string)
  (rows rest : list (list string)) :
  csv_reader fs path = Return (fieldnames :: rows) ->
  skip_blank_rows rows = row :: rest ->
  NoDup fieldnames ->
  (List.length fieldnames < List.length row)%nat ->
  getVCFreportInfo fs path
  = Return (vcf_entries fieldnames row
            ++ [(KeyNone, PyList (skipn (List.length fieldnames) row))]).
Proof.
  intros Hcsv Hskip Hnd Hlen.
  rewrite (getVCFreportInfo_entries _ _ _ _ _ _ Hcsv Hskip Hnd).
  unfold DictReader_entries. apply Nat.ltb_lt in Hlen. rewrite Hlen.
  now rewrite filter_app, filter_zipped.
Qed.

Lemma vcf_surplus_fields_are_kept_under_None_witness :
  getVCFreportInfo (MoreExamples.fs_with MoreExamples.vcf_long) "sample.vcfreport.txt"
  = Return [(KeyStr "num variants", PyStr "7"); (KeyNone, PyList ["8"; "9"]%string)].
Proof.
  apply (vcf_surplus_fields_are_kept_under_None
           (MoreExamples.fs_with MoreExamples.vcf_long) "sample.vcfreport.txt"
           ["input VCF file"; "num variants"]%string
           ["sample.pass.vcf"; "7"; "8"; "9"]%string
           [["sample.pass.vcf"; "7"; "8"; "9"]%string] []).
  - reflexivity.
  - reflexivity.
  - repeat constructor; cbn; intuition discriminate.
  - cbn. lia.
Defined.



(** X18. A variant report without a data row (an empty file, a header
    alone, or a header followed by blank rows only) makes the reader raise
    [StopIteration]; the run, which has then written the plot file when
    that file could be written, does not write the stats file. *)
Theorem report_without_data_row_stops_after_plot
  (fs : FileSystem) (args : Args) (amplicons counts : sdict Z) (t : Tally)
  (path : string) (rows : list (list string)) :
  getSchemeAmplicons fs (scheme args) = Return amplicons ->
  getAmpliconCounts fs amplicons (align_report args) = (counts, None) ->
  classify (min_depth args) counts = Return t ->
  write_error fs (fst (plot_file args t)) = None ->
  vcf_report args = Some path ->
  truthy (vcf_report args) = true ->
  csv_reader fs path = Return rows ->
  skip_blank_rows (tl rows) = [] ->
  getVCFreportInfo fs path = Raise StopIteration
  /\ run fs args = ([plot_file args t], Some StopIteration).
Proof.
  intros Hs Hc Ht Hw Hp Htr Hcsv Hblank.
  assert (Hv : getVCFreportInfo fs path = Raise StopIteration).
  { unfold getVCFreportInfo, DictReader_next. rewrite Hcsv. cbn [bind].
    destruct rows as [|fieldnames rows]; [reflexivity|].
    cbn [tl] in Hblank. now rewrite Hblank. }
  split; [exact Hv|].
  rewrite (run_unfold _ _ _ _ _ Hs Hc Ht), Hw. unfold build_stats.
  rewrite Htr, Hp, Hv. reflexivity.
Qed.

Lemma report_without_data_row_stops_after_plot_witness :
  getVCFreportInfo (MoreExamples.fs_with MoreExamples.vcf_header_only)
    "sample.vcfreport.txt" = Raise StopIteration
  /\ run (MoreExamples.fs_with MoreExamples.vcf_header_only) Examples.args_vcf
     = ([plot_file Examples.args_vcf Expected.tally_ncov], Some StopIteration).
Proof.
  apply (report_without_data_row_stops_after_plot
           (MoreExamples.fs_with MoreExamples.vcf_header_only) Examples.args_vcf
           Expected.amplicons_ncov Examples.counts_ncov Expected.tally_ncov
           "sample.vcfreport.txt" MoreExamples.vcf_header_only).
  - vm_compute. reflexivity.
  - vm_compute. reflexivity.
  - vm_compute. reflexivity.
  - reflexivity.
  - reflexivity.
  - reflexivity.
  - reflexivity.
  - reflexivity.
Defined.

(** X19. With a variant report of distinct column names, a first data row
    of as many fields, and no column named as one of the two computed
    stats, the stats table of a completed run is the two computed stats
    followed by the columns of the report other than [input VCF file], in
    their order. *)
Theorem stats_table_appends_the_report_columns
  (fs : FileSystem) (args : Args) (files : list (string * Document))
  (path : string) (fieldnames row : list string) (rows rest : list (list string)) :
  run fs args = (files, None) ->
  vcf_report args = Some path ->
  truthy (vcf_report args) = true ->
  csv_reader fs path = Return (fieldnames :: rows) ->
  skip_blank_rows rows = row :: rest ->
  NoDup fieldnames ->
  List.length row = List.length fieldnames ->
  ~ In "# mapped reads"%string fieldnames ->
  ~ In "# low cov. amplicons"%string fieldnames ->
  exists t,
    files = [plot_file args t;
             stats_file args (base_stats t ++ vcf_entries fieldnames row)].
Proof.
  intros Hrun Hp Htr Hcsv Hskip Hnd Hlen Hm Hl.
  destruct (run_completes _ _ _ Hrun) as (amplicons & counts & t & table
                                           & _ & _ & _ & Hb & ->).
  exists t. unfold stats_file. repeat f_equal.
  destruct (build_stats_with_vcf _ _ _ _ Htr Hb) as (path' & info & Hp' & Hv & ->).
  rewrite Hp in Hp'. injection Hp' as <-.
  assert (Hentries : getVCFreportInfo fs path = Return (vcf_entries fieldnames row)).
  { rewrite (getVCFreportInfo_entries _ _ _ _ _ _ Hcsv Hskip Hnd).
    unfold DictReader_entries. rewrite Hlen, Nat.ltb_irrefl, skipn_all. cbn [map].
    now rewrite app_nil_r, filter_zipped. }
  rewrite Hentries in Hv. injection Hv as <-.
  rewrite (fold_set_fresh pykey_eqb pykey_eqb_eq fst snd).
  - now rewrite map_pair_id.
  - now apply vcf_entries_keys_NoDup.
  - intros [k v] Hin. unfold vcf_entries in Hin. apply in_map_iff in Hin.
    destruct Hin as ([c f] & E & Hcf). injection E as <- <-.
    apply filter_In in Hcf. destruct Hcf as [Hcf _]. apply in_combine_l in Hcf.
    cbn [fst base_stats dict_keys map In]. intros [E | [E | []]];
      injection E as <-; contradiction.
Qed.

Lemma stats_table_appends_the_report_columns_witness :
  exists t,
    Expected.files Expected.stats_vcf
    = [plot_file Examples.args_vcf t;
       stats_file Examples.args_vcf
         (base_stats t
          ++ vcf_entries ["input VCF file"; "num variants"]%string
               ["sample.pass.vcf"; "7"]%string)].
Proof.
  apply (stats_table_appends_the_report_columns Examples.fs_vcf Examples.args_vcf
           (Expected.files Expected.stats_vcf) "sample.vcfreport.txt"
           ["input VCF file"; "num variants"]%string
           ["sample.pass.vcf"; "7"]%string [["sample.pass.vcf"; "7"]%string] []).
  - vm_compute. reflexivity.
  - reflexivity.
  - reflexivity.
  - reflexivity.
  - reflexivity.
  - repeat constructor; cbn; intuition discriminate.
  - reflexivity.
  - cbn. intuition discriminate.
  - cbn. intuition discriminate.
Defined.

(** X20. When the column names of the variant report are pairwise
    distinct, every column other than [input VCF file] that has a field in
    the first data row is in the stats table of a completed run with that
    field as a string; this also holds for a column named [# mapped reads]
    or [# low cov. amplicons], whose field replaces the computed number. *)
Theorem report_column_replaces_computed_stat
  (fs : FileSystem) (args : Args) (files : list (string * Document))
  (path : string) (fieldnames row : list string) (rows rest : list (list string)) :
  run fs args = (files, None) ->
  vcf_report args = Some path ->
  truthy (vcf_report args) = true ->
  csv_reader fs path = Return (fieldnames :: rows) ->
  skip_blank_rows rows = row :: rest ->
  NoDup fieldnames ->
  exists t table,
    files = [plot_file args t; stats_file args table]
    /\ forall c v, In (c, v) (combine fieldnames row) ->
         c <> "input VCF file"%string ->
         dict_get pykey_eqb table (KeyStr c) = Some (PyStr v).
Proof.
  intros Hrun Hp Htr Hcsv Hskip Hnd.
  destruct (run_completes _ _ _ Hrun) as (amplicons & counts & t & table
                                           & _ & _ & _ & Hb & ->).
  exists t, table. split; [reflexivity|]. intros c v Hin Hc.
  destruct (build_stats_with_vcf _ _ _ _ Htr Hb) as (path' & info & Hp' & Hv & ->).
  rewrite Hp in Hp'. injection Hp' as <-.
  rewrite (getVCFreportInfo_entries _ _ _ _ _ _ Hcsv Hskip Hnd) in Hv.
  injection Hv as <-.
  apply (fold_set_get_in pykey_eqb pykey_eqb_eq fst snd _ _ (KeyStr c, PyStr v)).
  - apply filter_keys_NoDup. now apply DictReader_entries_NoDup.
  - apply filter_In. split.
    + unfold DictReader_entries. apply in_app_iff. left.
      apply in_map_iff. now exists (c, v).
    + unfold not_input_file. cbn [fst pykey_eqb].
      apply negb_true_iff. now apply String.eqb_neq.
Qed.

Lemma report_column_replaces_computed_stat_witness :
  exists t table,
    [plot_file Examples.args_vcf Expected.tally_ncov;
     stats_file Examples.args_vcf
       [(KeyStr "# mapped reads", PyStr "99");
        (KeyStr "# low cov. amplicons", PyInt 1)]]
    = [plot_file Examples.args_vcf t; stats_file Examples.args_vcf table]
    /\ forall c v,
         In (c, v) (combine ["input VCF file"; "# mapped reads"]%string
                      ["sample.pass.vcf"; "99"]%string) ->
         c <> "input VCF file"%string ->
         dict_get pykey_eqb table (KeyStr c) = Some (PyStr v).
Proof.
  apply (report_column_replaces_computed_stat
           (MoreExamples.fs_with MoreExamples.vcf_total) Examples.args_vcf _
           "sample.vcfreport.txt" ["input VCF file"; "# mapped reads"]%string
           ["sample.pass.vcf"; "99"]%string [["sample.pass.vcf"; "99"]%string] []).
  - vm_compute. reflexivity.
  - reflexivity.
  - reflexivity.
  - reflexivity.
  - reflexivity.
  - repeat constructor; cbn; intuition discriminate.
Defined.

(** ** The run *)

(** X21. A run that ends with an exception has written no file or the plot
    file alone.  It has written none when the exception comes from the
    resolver, from the aggregator, from the renumbering (which on the names
    of the resolver raises nothing but [ValueError]) or from writing the
    plot file; it has written the plot file alone when the exception comes
    from reading the variant report or from writing the stats file. *)
Theorem run_failure_modes
  (fs : FileSystem) (args : Args) (files : list (string * Document)) (e : exn) :
  run fs args = (files, Some e) ->
  (files = []
   /\ (getSchemeAmplicons fs (scheme args) = Raise e
       \/ (exists amplicons counts,
             getSchemeAmplicons fs (scheme args) = Return amplicons
             /\ getAmpliconCounts fs amplicons (align_report args) = (counts, Some e))
       \/ (exists amplicons counts,
             getSchemeAmplicons fs (scheme args) = Return amplicons
             /\ getAmpliconCounts fs amplicons (align_report args) = (counts, None)
             /\ classify (min_depth args) counts = Raise e
             /\ e = ValueError)
       \/ (exists amplicons counts t,
             getSchemeAmplicons fs (scheme args) = Return amplicons
             /\ getAmpliconCounts fs amplicons (align_report args) = (counts, None)
             /\ classify (min_depth args) counts = Return t
             /\ write_error fs (sample args ++ ".amplicon_plot_data_mqc.json")
                = Some e)))
  \/ (exists amplicons counts t,
        getSchemeAmplicons fs (scheme args) = Return amplicons
        /\ getAmpliconCounts fs amplicons (align_report args) = (counts, None)
        /\ classify (min_depth args) counts = Return t
        /\ write_error fs (sample args ++ ".amplicon_plot_data_mqc.json") = None
        /\ files = [plot_file args t]
        /\ ((exists path,
               vcf_report args = Some path
               /\ truthy (vcf_report args) = true
               /\ getVCFreportInfo fs path = Raise e)
            \/ (exists table,
                  build_stats fs args t = Return table
                  /\ write_error fs (sample args ++ ".amplicon_stats_data_mqc.json")
                     = Some e))).
Proof.
  intros H.
  destruct (getSchemeAmplicons fs (scheme args)) as [amplicons|e1] eqn:Hs.
  2:{ unfold run in H. rewrite Hs in H. injection H as <- <-.
      left. split; [reflexivity | now left]. }
  destruct (getAmpliconCounts fs amplicons (align_report args)) as [counts [e2|]] eqn:Hc.
  { unfold run in H. rewrite Hs, Hc in H. injection H as <- <-.
    left. split; [reflexivity|]. right. left. now exists amplicons, counts. }
  destruct (classify (min_depth args) counts) as [t|e3] eqn:Ht.
  2:{ unfold run in H. rewrite Hs, Hc, Ht in H. injection H as <- <-.
      left. split; [reflexivity|]. right. right. left.
      exists amplicons, counts. repeat split; try assumption.
      eapply classify_raises_ValueError; eassumption. }
  rewrite (run_unfold _ _ _ _ _ Hs Hc Ht) in H. cbn [fst plot_file stats_file] in H.
  destruct (write_error fs (sample args ++ ".amplicon_plot_data_mqc.json"))
    as [e4|] eqn:Hw.
  { injection H as <- <-. left. split; [reflexivity|]. right. right. right.
    now exists amplicons, counts, t. }
  right. exists amplicons, counts, t.
  split; [reflexivity|]. split; [exact Hc|]. split; [exact Ht|].
  split; [reflexivity|].
  destruct (build_stats fs args t) as [table|e5] eqn:Hb.
  - destruct (write_error fs (sample args ++ ".amplicon_stats_data_mqc.json"))
      as [e6|] eqn:Hw'; [|discriminate H].
    injection H as <- <-. split; [reflexivity|]. right. now exists table.
  - injection H as <- <-. split; [reflexivity|]. left.
    destruct (build_stats_raise _ _ _ _ Hb) as (path & Hp & Htr & Hv).
    now exists path.
Qed.

Lemma run_failure_modes_witness :
  ([plot_file Examples.args_vcf Expected.tally_ncov] = []
   /\ (getSchemeAmplicons Examples.fs_ncov (scheme Examples.args_vcf) = Raise OSError
       \/ (exists amplicons counts,
             getSchemeAmplicons Examples.fs_ncov (scheme Examples.args_vcf)
             = Return amplicons
             /\ getAmpliconCounts Examples.fs_ncov amplicons
                  (align_report Examples.args_vcf) = (counts, Some OSError))
       \/ (exists amplicons counts,
             getSchemeAmplicons Examples.fs_ncov (scheme Examples.args_vcf)
             = Return amplicons
             /\ getAmpliconCounts Examples.fs_ncov amplicons
                  (align_report Examples.args_vcf) = (counts, None)
             /\ classify (min_depth Examples.args_vcf) counts = Raise OSError
             /\ OSError = ValueError)
       \/ (exists amplicons counts t,
             getSchemeAmplicons Examples.fs_ncov (scheme Examples.args_vcf)
             = Return amplicons
             /\ getAmpliconCounts Examples.fs_ncov amplicons
                  (align_report Examples.args_vcf) = (counts, None)
             /\ classify (min_depth Examples.args_vcf) counts = Return t
             /\ write_error Examples.fs_ncov
                  (sample Examples.args_vcf ++ ".amplicon_plot_data_mqc.json")
                = Some OSError)))
  \/ (exists amplicons counts t,
        getSchemeAmplicons Examples.fs_ncov (scheme Examples.args_vcf) = Return amplicons
        /\ getAmpliconCounts Examples.fs_ncov amplicons
             (align_report Examples.args_vcf) = (counts, None)
        /\ classify (min_depth Examples.args_vcf) counts = Return t
        /\ write_error Examples.fs_ncov
             (sample Examples.args_vcf ++ ".amplicon_plot_data_mqc.json") = None
        /\ [plot_file Examples.args_vcf Expected.tally_ncov]
           = [plot_file Examples.args_vcf t]
        /\ ((exists path,
               vcf_report Examples.args_vcf = Some path
               /\ truthy (vcf_report Examples.args_vcf) = true
               /\ getVCFreportInfo Examples.fs_ncov path = Raise OSError)
            \/ (exists table,
                  build_stats Examples.fs_ncov Examples.args_vcf t = Return table
                  /\ write_error Examples.fs_ncov
                       (sample Examples.args_vcf ++ ".amplicon_stats_data_mqc.json")
                     = Some OSError))).
Proof.
  apply (run_failure_modes Examples.fs_ncov Examples.args_vcf
           [plot_file Examples.args_vcf Expected.tally_ncov] OSError).
  vm_compute. reflexivity.
Defined.

(** X22. In a run that completes, the total is not negative, no count of
    the plot is negative, and the dropout count lies between 0 and the
    number of amplicons of the scheme; with a depth threshold of 0 or less
    there is no dropout. *)
Theorem run_outputs_are_not_negative
  (fs : FileSystem) (args : Args) (files : list (string * Document)) :
  run fs args = (files, None) ->
  exists amplicons t table,
    getSchemeAmplicons fs (scheme args) = Return amplicons
    /\ files = [plot_file args t; stats_file args table]
    /\ build_stats fs args t = Return table
    /\ 0 <= readCount t
    /\ nonneg (amplicon_renamed_counts t)
    /\ 0 <= dropouts t <= Z.of_nat (List.length amplicons)
    /\ (min_depth args <= 0 -> dropouts t = 0).
Proof.
  intros Hrun.
  destruct (run_completes _ _ _ Hrun) as (amplicons & counts & t & table
                                           & Hs & Hc & Ht & Hb & ->).
  exists amplicons, t, table. split; [exact Hs|]. split; [reflexivity|].
  split; [exact Hb|].
  assert (Hn : nonneg counts).
  { pose proof (getAmpliconCounts_nonneg fs amplicons (align_report args)
                  (getSchemeAmplicons_nonneg _ _ _ Hs)) as Hn.
    now rewrite Hc in Hn. }
  assert (Hlen : List.length counts = List.length amplicons).
  { pose proof (getAmpliconCounts_keys fs amplicons (align_report args)) as Hk.
    rewrite Hc in Hk. cbn [fst] in Hk. unfold dict_keys in Hk.
    now rewrite <- (length_map fst counts), Hk, length_map. }
  destruct (classify_spec _ _ _ Ht) as (-> & -> & items & Hi & ->).
  split; [now apply sum_counts_nonneg|].
  split; [apply renumber_nonneg; [constructor | eapply ordinals_nonneg; eassumption]|].
  split; [rewrite <- Hlen; apply low_coverage_bounds|].
  intros Hmd. apply low_coverage_none.
  unfold nonneg in Hn. eapply Forall_impl; [|exact Hn]. cbv beta. intros kv Hkv. lia.
Qed.

Lemma run_outputs_are_not_negative_witness :
  exists amplicons t table,
    getSchemeAmplicons Examples.fs_ncov (scheme Examples.args12) = Return amplicons
    /\ Expected.files Expected.stats_ncov
       = [plot_file Examples.args12 t; stats_file Examples.args12 table]
    /\ build_stats Examples.fs_ncov Examples.args12 t = Return table
    /\ 0 <= readCount t
    /\ nonneg (amplicon_renamed_counts t)
    /\ 0 <= dropouts t <= Z.of_nat (List.length amplicons)
    /\ (min_depth Examples.args12 <= 0 -> dropouts t = 0).
Proof.
  apply (run_outputs_are_not_negative Examples.fs_ncov Examples.args12
           (Expected.files Expected.stats_ncov)).
  vm_compute. reflexivity.
Defined.
